(** * OHLC fetch-and-store pipeline: a shallow embedding and its properties

    The development follows the three scripts of the repository:

    - [nifty_ohlc_fetcher.py]   (module [Fetcher]):  symbol registry, fetch
      window, timezone normalisation, artifact sink, batch loop;
    - [send_new_data_to_postgre.py] (module [Loader]): sidecar resolution,
      reshape to the storage schema, conflict-safe bulk insert;
    - [fetchNplaceData.py]      (module [Pipeline]): fetch-then-load sequencing.

    Library calls the scripts rely on (Python's [str], [datetime], pandas,
    psycopg2, [subprocess]) are modelled in the modules [PyStr], [Calendar],
    [Frame] and by oracles taken as section variables. *)

From Stdlib Require Import ZArith QArith Lia List Ascii String Bool.
From stdpp Require Import base option list strings gmap.

Local Open Scope Z_scope.

(** ** Exceptions and the state-and-exception monad

    Python exceptions that the scripts raise, catch or let escape.
    [OtherException] stands for any other subclass of [Exception];
    [OutsideModel] marks a step whose library behaviour is not modelled. *)

Inductive exn : Type :=
  | FileNotFoundError
  | IsADirectoryError
  | PermissionError
  | UnicodeDecodeError
  | JSONDecodeError
  | AttributeError
  | KeyError
  | ValueError
  | TypeError
  | OverflowError
  | EmptyDataError
  | NotNullViolation
  | UniqueViolation
  | ProgrammingError
  | CalledProcessError
  | OtherException
  | KeyboardInterrupt
  | SystemExit (code : Z)
  | OutsideModel.

Inductive result (A : Type) : Type :=
  | Ok (a : A)
  | Raise (e : exn).
Arguments Ok {A} a.
Arguments Raise {A} e.

Definition rbind {A B} (r : result A) (k : A -> result B) : result B :=
  match r with
  | Ok a => k a
  | Raise e => Raise e
  end.

(** A computation over a state [S]: it returns a value or raises, and in both
    cases leaves the state reached so far. *)
Definition M (S A : Type) : Type := S -> result A * S.

Definition ret {S A} (a : A) : M S A := fun s => (Ok a, s).
Definition raise {S A} (e : exn) : M S A := fun s => (Raise e, s).
Definition bind {S A B} (m : M S A) (k : A -> M S B) : M S B :=
  fun s => match m s with
           | (Ok a, s') => k a s'
           | (Raise e, s') => (Raise e, s')
           end.
Definition lift {S A} (r : result A) : M S A := fun s => (r, s).
Definition modify {S} (f : S -> S) : M S unit := fun s => (Ok tt, f s).

Notation "x <- m ;; k" := (bind m (fun x => k))
  (at level 100, m at next level, right associativity).
Notation "m ;;; k" := (bind m (fun _ => k))
  (at level 100, right associativity).

(** [for x in l: body x] *)
Fixpoint for_each {S A} (l : list A) (body : A -> M S unit) : M S unit :=
  match l with
  | [] => ret tt
  | x :: l' => body x ;;; for_each l' body
  end.

(** ** Python [str] operations used by the scripts

    Text is modelled as a [string] of characters below code point 128. *)

Module PyStr.

(** [str.isspace] on one ASCII character: tab, LF, VT, FF, CR, the four
    separators 0x1c-0x1f and the space. *)
Definition is_space (c : ascii) : bool :=
  let n := nat_of_ascii c in
  ((9 <=? n)%nat && (n <=? 13)%nat) || ((28 <=? n)%nat && (n <=? 32)%nat).

Fixpoint lstrip (s : string) : string :=
  match s with
  | EmptyString => EmptyString
  | String c s' => if is_space c then lstrip s' else s
  end.

Fixpoint rstrip (s : string) : string :=
  match s with
  | EmptyString => EmptyString
  | String c s' =>
      match rstrip s' with
      | EmptyString => if is_space c then EmptyString else String c EmptyString
      | t => String c t
      end
  end.

Definition strip (s : string) : string := rstrip (lstrip s).

Fixpoint startswith (s p : string) : bool :=
  match p, s with
  | EmptyString, _ => true
  | String a p', String b s' => Ascii.eqb a b && startswith s' p'
  | String _ _, EmptyString => false
  end.

Definition endswith (s p : string) : bool :=
  startswith (String.rev s) (String.rev p).

(** [s.replace(old, new)] for a non-empty [old]: leftmost, non-overlapping
    occurrences.  [skip] counts the characters of a match still to drop. *)
Fixpoint replace_from (old new : string) (skip : nat) (s : string) : string :=
  match s with
  | EmptyString => EmptyString
  | String c s' =>
      match skip with
      | S k => replace_from old new k s'
      | O =>
          if startswith s old
          then new +:+ replace_from old new (String.length old - 1) s'
          else String c (replace_from old new O s')
      end
  end.

(** With an empty [old], Python inserts [new] before every character and at
    the end. *)
Fixpoint intersperse (new s : string) : string :=
  match s with
  | EmptyString => new
  | String c s' => new +:+ String c (intersperse new s')
  end.

Definition replace (s old new : string) : string :=
  match old with
  | EmptyString => intersperse new s
  | _ => replace_from old new O s
  end.

(** Iterating over a text file: the lines, each with its terminating
    newline when it has one. *)
Fixpoint lines_from (cur : string) (s : string) : list string :=
  match s with
  | EmptyString =>
      match cur with
      | EmptyString => []
      | _ => [String.rev cur]
      end
  | String c s' =>
      if Ascii.eqb c "010"%char
      then String.rev (String c cur) :: lines_from EmptyString s'
      else lines_from (String c cur) s'
  end.

Definition lines (s : string) : list string := lines_from EmptyString s.

(** [os.path.basename]: what follows the last slash. *)
Fixpoint basename_from (cur : string) (s : string) : string :=
  match s with
  | EmptyString => String.rev cur
  | String c s' =>
      if Ascii.eqb c "/"%char
      then basename_from EmptyString s'
      else basename_from (String c cur) s'
  end.

Definition basename (p : string) : string := basename_from EmptyString p.

(** [os.path.join a b] on POSIX. *)
Definition path_join (a b : string) : string :=
  if startswith b "/" then b
  else if (String.length a =? 0)%nat || endswith a "/" then a +:+ b
  else a +:+ "/" +:+ b.

End PyStr.

(** ** Python [datetime]: proleptic Gregorian dates

    The definitions follow the reference implementation of [datetime]:
    a date is a (year, month, day) triple, and adding a [timedelta] goes
    through the ordinal of the day (1 = 0001-01-01). *)

Module Calendar.

Record date : Type := mkDate { year : Z; month : Z; day : Z }.

Definition MINYEAR : Z := 1.
Definition MAXYEAR : Z := 9999.
(** [date.max.toordinal()] *)
Definition MAXORDINAL : Z := 3652059.

Definition is_leap (y : Z) : bool :=
  (y mod 4 =? 0) && (negb (y mod 100 =? 0) || (y mod 400 =? 0)).

Definition DAYS_IN_MONTH : list Z :=
  [0; 31; 28; 31; 30; 31; 30; 31; 31; 30; 31; 30; 31].
Definition DAYS_BEFORE_MONTH : list Z :=
  [0; 0; 31; 59; 90; 120; 151; 181; 212; 243; 273; 304; 334].

Definition days_in_month (y m : Z) : Z :=
  if (m =? 2) && is_leap y then 29 else nth (Z.to_nat m) DAYS_IN_MONTH 0.

Definition days_before_month (y m : Z) : Z :=
  nth (Z.to_nat m) DAYS_BEFORE_MONTH 0
  + (if (2 <? m) && is_leap y then 1 else 0).

Definition days_before_year (y : Z) : Z :=
  let y' := y - 1 in
  y' * 365 + y' / 4 - y' / 100 + y' / 400.

Definition ymd2ord (d : date) : Z :=
  days_before_year (year d) + days_before_month (year d) (month d) + day d.

Definition DI400Y : Z := 146097.
Definition DI100Y : Z := 36524.
Definition DI4Y : Z := 1461.

Definition ord2ymd (n : Z) : date :=
  let n := n - 1 in
  let n400 := n / DI400Y in
  let n := n mod DI400Y in
  let y := n400 * 400 + 1 in
  let n100 := n / DI100Y in
  let n := n mod DI100Y in
  let n4 := n / DI4Y in
  let n := n mod DI4Y in
  let n1 := n / 365 in
  let n := n mod 365 in
  let y := y + n100 * 100 + n4 * 4 + n1 in
  if (n1 =? 4) || (n100 =? 4) then mkDate (y - 1) 12 31
  else
    let leapyear := (n1 =? 3) && (negb (n4 =? 24) || (n100 =? 3)) in
    let m := Z.shiftr (n + 50) 5 in
    let preceding :=
      nth (Z.to_nat m) DAYS_BEFORE_MONTH 0
      + (if (2 <? m) && leapyear then 1 else 0) in
    if n <? preceding
    then
      let m := m - 1 in
      let preceding :=
        preceding
        - (nth (Z.to_nat m) DAYS_IN_MONTH 0
           + (if (m =? 2) && leapyear then 1 else 0)) in
      mkDate y m (n - preceding + 1)
    else mkDate y m (n - preceding + 1).

(** What the [date] constructor accepts. *)
Definition valid_dateb (d : date) : bool :=
  (MINYEAR <=? year d) && (year d <=? MAXYEAR)
  && (1 <=? month d) && (month d <=? 12)
  && (1 <=? day d) && (day d <=? days_in_month (year d) (month d)).

Definition valid_date (d : date) : Prop := valid_dateb d = true.

(** [d + timedelta(days=k)]; outside [date.min .. date.max] Python raises
    [OverflowError]. *)
Definition add_days (d : date) (k : Z) : result date :=
  let o := ymd2ord d + k in
  if (0 <? o) && (o <=? MAXORDINAL) then Ok (ord2ymd o) else Raise OverflowError.

(** A [datetime]: a date and the time of day in microseconds.  Adding whole
    days leaves the time of day alone. *)
Record datetime : Type := mkDatetime { dt_date : date; dt_micros : Z }.

Definition datetime_add_days (t : datetime) (k : Z) : result datetime :=
  rbind (add_days (dt_date t) k) (fun d => Ok (mkDatetime d (dt_micros t))).

(** *** [strftime('%Y-%m-%d')] and [strptime(_, '%Y-%m-%d')] *)

Definition digit_char (k : Z) : ascii := ascii_of_nat (Z.to_nat (48 + k)).

Definition digit_val (c : ascii) : option Z :=
  let n := Z.of_nat (nat_of_ascii c) in
  if (48 <=? n) && (n <=? 57) then Some (n - 48) else None.

Definition pad2 (k : Z) : string :=
  String (digit_char (k / 10 mod 10)) (String (digit_char (k mod 10)) EmptyString).

Definition pad4 (k : Z) : string :=
  String (digit_char (k / 1000 mod 10))
    (String (digit_char (k / 100 mod 10)) (pad2 k)).

Definition strftime_date (d : date) : string :=
  pad4 (year d) +:+ "-" +:+ pad2 (month d) +:+ "-" +:+ pad2 (day d).

Definition strftime (t : datetime) : string := strftime_date (dt_date t).

(** [%Y] is four digits. *)
Definition parse_year (s : string) : option (Z * string) :=
  match s with
  | String a (String b (String c (String d rest))) =>
      match digit_val a, digit_val b, digit_val c, digit_val d with
      | Some a, Some b, Some c, Some d =>
          Some (a * 1000 + b * 100 + c * 10 + d, rest)
      | _, _, _, _ => None
      end
  | _ => None
  end.

(** [%m] is [1[0-2]|0[1-9]|[1-9]], tried in that order. *)
Definition parse_month (s : string) : option (Z * string) :=
  match s with
  | String a rest =>
      match digit_val a with
      | Some x =>
          let two :=
            match rest with
            | String b rest' =>
                match digit_val b with
                | Some y =>
                    if ((x =? 1) && (y <=? 2)) || ((x =? 0) && (1 <=? y))
                    then Some (x * 10 + y, rest')
                    else None
                | None => None
                end
            | EmptyString => None
            end in
          match two with
          | Some r => Some r
          | None => if 1 <=? x then Some (x, rest) else None
          end
      | None => None
      end
  | EmptyString => None
  end.

(** [%d] is [3[01]|[12]\d|0[1-9]|[1-9]| [1-9]], tried in that order. *)
Definition parse_day (s : string) : option (Z * string) :=
  match s with
  | String a rest =>
      match digit_val a with
      | Some x =>
          let two :=
            match rest with
            | String b rest' =>
                match digit_val b with
                | Some y =>
                    if ((x =? 3) && (y <=? 1)) || (x =? 1) || (x =? 2)
                       || ((x =? 0) && (1 <=? y))
                    then Some (x * 10 + y, rest')
                    else None
                | None => None
                end
            | EmptyString => None
            end in
          match two with
          | Some r => Some r
          | None => if 1 <=? x then Some (x, rest) else None
          end
      | None =>
          if Ascii.eqb a " "%char
          then
            match rest with
            | String b rest' =>
                match digit_val b with
                | Some y => if 1 <=? y then Some (y, rest') else None
                | None => None
                end
            | EmptyString => None
            end
          else None
      end
  | EmptyString => None
  end.

Definition expect_dash (s : string) : option string :=
  match s with
  | String c rest => if Ascii.eqb c "-"%char then Some rest else None
  | EmptyString => None
  end.

(** The whole text has to match, and the fields have to form a date;
    otherwise [ValueError]. *)
Definition strptime (s : string) : result datetime :=
  match parse_year s with
  | Some (y, s1) =>
      match expect_dash s1 with
      | Some s2 =>
          match parse_month s2 with
          | Some (m, s3) =>
              match expect_dash s3 with
              | Some s4 =>
                  match parse_day s4 with
                  | Some (d, EmptyString) =>
                      if valid_dateb (mkDate y m d)
                      then Ok (mkDatetime (mkDate y m d) 0)
                      else Raise ValueError
                  | _ => Raise ValueError
                  end
              | None => Raise ValueError
              end
          | None => Raise ValueError
          end
      | None => Raise ValueError
      end
  | None => Raise ValueError
  end.

End Calendar.

(** ** Auxiliary definitions for the calendar proofs *)

Module CalendarAux.
Import Calendar.

(** [P] holds on [a, a+1, ..., a+n-1]. *)
Fixpoint all_from (P : Z -> bool) (a : Z) (n : nat) : bool :=
  match n with
  | O => true
  | S k => P a && all_from P (a + 1) k
  end.

(** The tail of [ord2ymd]: month and day from the day of the year. *)
Definition month_day (leapyear : bool) (n : Z) : Z * Z :=
  let m := Z.shiftr (n + 50) 5 in
  let preceding :=
    nth (Z.to_nat m) DAYS_BEFORE_MONTH 0
    + (if (2 <? m) && leapyear then 1 else 0) in
  if n <? preceding
  then
    let m := m - 1 in
    let preceding :=
      preceding
      - (nth (Z.to_nat m) DAYS_IN_MONTH 0
         + (if (m =? 2) && leapyear then 1 else 0)) in
    (m, n - preceding + 1)
  else (m, n - preceding + 1).

Definition month_day_ok (leapyear : bool) (n : Z) : bool :=
  let '(m, d) := month_day leapyear n in
  (1 <=? m) && (m <=? 12) && (1 <=? d)
  && (d <=? (if (m =? 2) && leapyear then 29 else nth (Z.to_nat m) DAYS_IN_MONTH 0))
  && (nth (Z.to_nat m) DAYS_BEFORE_MONTH 0
      + (if (2 <? m) && leapyear then 1 else 0) + d =? n + 1).

Definition month_day_inverse_ok (leapyear : bool) (m : Z) : bool :=
  all_from
    (fun d =>
       if d <=? (if (m =? 2) && leapyear then 29 else nth (Z.to_nat m) DAYS_IN_MONTH 0)
       then
         let n := nth (Z.to_nat m) DAYS_BEFORE_MONTH 0
                  + (if (2 <? m) && leapyear then 1 else 0) + d - 1 in
         (fst (month_day leapyear n) =? m) && (snd (month_day leapyear n) =? d)
         && (0 <=? n) && (n <? (if leapyear then 366 else 365))
       else true)
    1 31.

End CalendarAux.

(** ** pandas: the part of [DataFrame] the scripts use

    A frame is an index and an ordered list of labelled columns; labels may
    repeat.  A cell holds a Python-level scalar. *)

Module Frame.

Inductive cell : Type :=
  | CNull
  | CFloat (q : Q)
  | CInt (n : Z)
  | CStr (s : string)
  | CTime (t : Z).

#[export] Instance Q_eq_dec : EqDecision Q.
Proof. solve_decision. Defined.

#[export] Instance cell_eq_dec : EqDecision cell.
Proof. solve_decision. Defined.

(** A [DatetimeIndex] carries its timestamps and an optional zone: without a
    zone the numbers are wall-clock readings, with a zone they are instants.
    [RangeIndex] is what [read_csv] produces. *)
Inductive index : Type :=
  | RangeIndex (n : nat)
  | DatetimeIndex (stamps : list Z) (tz : option string).

Definition index_length (ix : index) : nat :=
  match ix with
  | RangeIndex n => n
  | DatetimeIndex stamps _ => length stamps
  end.

Record DataFrame : Type := mkFrame {
  df_index : index;
  df_columns : list (string * list cell)
}.

Definition nrows (df : DataFrame) : nat := index_length (df_index df).

(** [df.columns] *)
Definition columns (df : DataFrame) : list string := map fst (df_columns df).

(** [df.empty]: some axis has length zero. *)
Definition empty (df : DataFrame) : bool :=
  (nrows df =? 0)%nat || (length (df_columns df) =? 0)%nat.

(** [col in df.columns] *)
Definition has_column (df : DataFrame) (c : string) : bool :=
  existsb (String.eqb c) (columns df).

Fixpoint dict_get {A} (d : list (string * A)) (k : string) : option A :=
  match d with
  | [] => None
  | (k', v) :: d' => if String.eqb k k' then Some v else dict_get d' k
  end.

(** [df.rename(columns=mapping, inplace=True)]: labels outside the mapping
    stay. *)
Definition rename_label (mapping : list (string * string)) (c : string) : string :=
  match dict_get mapping c with
  | Some c' => c'
  | None => c
  end.

Definition rename (mapping : list (string * string)) (df : DataFrame) : DataFrame :=
  mkFrame (df_index df)
    (map (fun p => (rename_label mapping (fst p), snd p)) (df_columns df)).

(** [df[c] = data]: every column labelled [c] is overwritten; without one, a
    new column goes last. *)
Definition set_column (df : DataFrame) (c : string) (data : list cell) : DataFrame :=
  if has_column df c
  then mkFrame (df_index df)
         (map (fun p => if String.eqb (fst p) c then (fst p, data) else p)
              (df_columns df))
  else mkFrame (df_index df) (df_columns df ++ [(c, data)]).

(** [df[c] = v] for a scalar [v], broadcast over the rows. *)
Definition set_scalar (df : DataFrame) (c : string) (v : cell) : DataFrame :=
  set_column df c (repeat v (nrows df)).

(** The columns labelled [c], in frame order. *)
Definition labelled (df : DataFrame) (c : string) : list (string * list cell) :=
  List.filter (fun p => String.eqb (fst p) c) (df_columns df).

(** [df[[c1, ..., cn]]]: for each label in turn all columns that carry it;
    [KeyError] when a label is missing. *)
Fixpoint select_columns (df : DataFrame) (labels : list string)
  : result (list (string * list cell)) :=
  match labels with
  | [] => Ok []
  | c :: rest =>
      match labelled df c with
      | [] => Raise KeyError
      | cols => rbind (select_columns df rest) (fun more => Ok (cols ++ more))
      end
  end.

Definition select (df : DataFrame) (labels : list string) : result DataFrame :=
  rbind (select_columns df labels) (fun cols => Ok (mkFrame (df_index df) cols)).

(** [df.to_records(index=False)], row by row. *)
Definition to_records (df : DataFrame) : list (list cell) :=
  map (fun i => map (fun p => nth i (snd p) CNull) (df_columns df))
      (seq 0 (nrows df)).

(** [ix.tz] *)
Definition index_tz (ix : index) : result (option string) :=
  match ix with
  | DatetimeIndex _ tz => Ok tz
  | RangeIndex _ => Raise AttributeError
  end.

Fixpoint map_option {A B} (f : A -> option B) (l : list A) : option (list B) :=
  match l with
  | [] => Some []
  | x :: l' =>
      match f x, map_option f l' with
      | Some y, Some ys => Some (y :: ys)
      | _, _ => None
      end
  end.

(** [ix.tz_localize(zone)]: only for an index without a zone.  [wall_to_instant
    zone w] is the zone database's reading of wall-clock time [w]; it has none
    for a time that a clock change skips or repeats, and pandas raises. *)
Definition tz_localize (wall_to_instant : string -> Z -> option Z)
    (zone : string) (ix : index) : result index :=
  match ix with
  | DatetimeIndex stamps None =>
      match map_option (wall_to_instant zone) stamps with
      | Some stamps' => Ok (DatetimeIndex stamps' (Some zone))
      | None => Raise OtherException
      end
  | DatetimeIndex _ (Some _) => Raise TypeError
  | RangeIndex _ => Raise AttributeError
  end.

(** [ix.tz_convert(zone)]: only for an index with a zone; the instants stay. *)
Definition tz_convert (zone : string) (ix : index) : result index :=
  match ix with
  | DatetimeIndex stamps (Some _) => Ok (DatetimeIndex stamps (Some zone))
  | DatetimeIndex _ None => Raise TypeError
  | RangeIndex _ => Raise AttributeError
  end.

(** [df.index = ix] *)
Definition set_index (df : DataFrame) (ix : index) : result DataFrame :=
  if (index_length ix =? nrows df)%nat
  then Ok (mkFrame ix (df_columns df))
  else Raise ValueError.

End Frame.

(** ** [nifty_ohlc_fetcher.py]: class [StockDataFetcher] *)

Module Fetcher.
Import PyStr Calendar Frame.

(** What the symbol-list loader finds at a path. *)
Inductive node : Type :=
  | RegularFile (text : string)
  | Directory.

(** A [yfinance.Ticker]; [ticker] is its symbol attribute. *)
Record TickerObj : Type := mkTicker { ticker : string }.

Inductive message : Type :=
  | MsgProcessing (n : nat)
  | MsgBatch (i n : nat)
  | MsgComplete.

(** Observable effects of a run, in order. *)
Inductive event : Type :=
  | Print (m : message)
  | Sleep (seconds : Z)
  | History (t : TickerObj) (start end_ interval : string)
  | ToCsv (path : string).

(** The artifact directory and the trace of effects. *)
Record world : Type := mkWorld {
  artifacts : gmap string DataFrame;
  trace : list event
}.

Definition emit (e : event) : M world unit :=
  modify (fun w => mkWorld (artifacts w) (trace w ++ [e])).

(** [df.to_csv(path)]: the file at [path] is created or overwritten. *)
Definition to_csv (df : DataFrame) (path : string) : M world unit :=
  modify (fun w => mkWorld (<[path := df]> (artifacts w)) (trace w ++ [ToCsv path])).

(** [try: body except: return fallback] with a bare [except]. *)
Definition try_except_all {A} (body : M world A) (fallback : A) : M world A :=
  fun w => match body w with
           | (Ok a, w') => (Ok a, w')
           | (Raise _, w') => (Ok fallback, w')
           end.

(** [range(0, n, step)] *)
Definition py_range (n step : nat) : list nat :=
  map (fun k => (k * step)%nat) (seq 0 ((n + step - 1) / step)).

(** [l[i:j]] for [0 <= i <= j] *)
Definition slice {A} (l : list A) (i j : nat) : list A := take (j - i) (drop i l).

(** [enumerate(l)] *)
Definition enumerate {A} (l : list A) : list (nat * A) :=
  combine (seq 0 (length l)) l.

Section Provider.

(** The symbol-list files on disk. *)
Variable disk : gmap string node.
(** [ticker_obj.history(start=, end=, interval=)] of the market-data
    provider: a frame, or an exception. *)
Variable history : TickerObj -> string -> string -> string -> result DataFrame.
(** [yf.Ticker(symbol)] *)
Variable yf_Ticker : string -> TickerObj.
(** The zone database used by [tz_localize]. *)
Variable wall_to_instant : string -> Z -> option Z.

Definition _load_symbols_from_file (file_path exchange_name suffix : string)
  : result (list (string * string)) :=
  match disk !! file_path with
  | Some (RegularFile text) =>
      let symbols :=
        map strip
          (List.filter (fun line => negb (String.eqb (strip line) "")
                               && negb (startswith line "#"))
                  (lines text)) in
      match symbols with
      | _ :: _ => Ok (map (fun s => (s +:+ suffix, exchange_name)) symbols)
      | [] => Ok []
      end
  | Some Directory => Raise IsADirectoryError
  | None => Ok []
  end.

Definition _load_all_symbols : result (list (string * string)) :=
  rbind (_load_symbols_from_file "nifty_500_symbols.txt" "NSE" ".NS")
    (fun nifty_symbols =>
  rbind (_load_symbols_from_file "sp500_symbols.txt" "SnP" "")
    (fun sp500_symbols =>
  Ok (nifty_symbols ++ sp500_symbols))).

(** One call of the provider, recorded in the trace. *)
Definition call_history (t : TickerObj) (start end_ interval : string)
  : M world DataFrame :=
  emit (History t start end_ interval) ;;; lift (history t start end_ interval).

Definition fetch_ohlc_data (ticker_obj : TickerObj) (start_date_str end_date_str : string)
  : M world (option DataFrame) :=
  try_except_all
    (ohlc_data <-
       (if String.eqb start_date_str end_date_str
        then
          start_dt <- lift (strptime start_date_str) ;;
          end_dt <- lift (datetime_add_days start_dt 1) ;;
          let end_dt_for_fetch := strftime end_dt in
          call_history ticker_obj start_date_str end_dt_for_fetch "1m"
        else
          call_history ticker_obj start_date_str end_date_str "1m") ;;
     if empty ohlc_data then ret None
     else
       ix <-
         lift (if endswith (ticker ticker_obj) ".NS"
               then
                 rbind (index_tz (df_index ohlc_data)) (fun tz =>
                   match tz with
                   | None => tz_localize wall_to_instant "Asia/Kolkata" (df_index ohlc_data)
                   | Some _ => tz_convert "Asia/Kolkata" (df_index ohlc_data)
                   end)
               else
                 rbind (index_tz (df_index ohlc_data)) (fun tz =>
                   match tz with
                   | None => tz_localize wall_to_instant "America/New_York" (df_index ohlc_data)
                   | Some _ => tz_convert "America/New_York" (df_index ohlc_data)
                   end)) ;;
       ohlc_data <- lift (set_index ohlc_data ix) ;;
       ret (Some ohlc_data))
    None.

Definition _sanitize_filename_component (text : string) : string :=
  strip (replace text "/" "-").

(** Lines 82-83 of [run]: the date to fetch for a symbol of [exchange]. *)
Definition target_date_for_fetch (base_date_for_run : datetime) (past_days : Z)
    (exchange : string) : result datetime :=
  rbind (if String.eqb exchange "SnP"
         then datetime_add_days base_date_for_run (-1)
         else Ok base_date_for_run) (fun effective_ref_date =>
  datetime_add_days effective_ref_date (- past_days)).

(** The body of the inner loop of [run], for one [(symbol, exchange)]. *)
Definition run_symbol (output_folder : string) (base_date_for_run : datetime)
    (past_days : Z) (entry : string * string) : M world unit :=
  let '(symbol, exchange) := entry in
  target_date_for_fetch <-
    lift (target_date_for_fetch base_date_for_run past_days exchange) ;;
  let symbol_start_date_str := strftime target_date_for_fetch in
  let symbol_end_date_str := symbol_start_date_str in
  let ticker_obj := yf_Ticker symbol in
  ohlc_data <- fetch_ohlc_data ticker_obj symbol_start_date_str symbol_end_date_str ;;
  (match ohlc_data with
   | Some ohlc_data =>
       let ohlc_data := set_scalar ohlc_data "stock_exchange" (CStr exchange) in
       let filename_symbol := _sanitize_filename_component symbol in
       let ohlc_file_path :=
         path_join output_folder (filename_symbol +:+ "_daily_ohlc.csv") in
       to_csv ohlc_data ohlc_file_path
   | None => ret tt
   end) ;;;
  emit (Sleep 1).

Definition run_batch (output_folder : string) (base_date_for_run : datetime)
    (past_days : Z) (n_batches : nat) (b : nat * list (string * string))
  : M world unit :=
  let '(i, batch_of_symbols) := b in
  emit (Print (MsgBatch (i + 1) n_batches)) ;;;
  (if (0 <? i)%nat then emit (Sleep 5) else ret tt) ;;;
  for_each batch_of_symbols (run_symbol output_folder base_date_for_run past_days).

(** [run]: [now] is the reading of [datetime.now()]. *)
Definition run (symbols : list (string * string)) (output_folder : string)
    (now : datetime) (past_days : Z) : M world unit :=
  emit (Print (MsgProcessing (length symbols))) ;;;
  let base_date_for_run := now in
  let batch_size := 20%nat in
  let symbol_batches :=
    map (fun i => slice symbols i (i + batch_size))
        (py_range (length symbols) batch_size) in
  for_each (enumerate symbol_batches)
    (run_batch output_folder base_date_for_run past_days (length symbol_batches)) ;;;
  emit (Print MsgComplete).

End Provider.

End Fetcher.

(** ** Auxiliary definitions for the fetcher proofs *)

Module FetcherAux.
Import PyStr Calendar Frame Fetcher.

(** The window the provider is asked for, when the fetch gets as far as
    asking. *)
Definition fetch_request (start_date_str end_date_str : string)
  : option (string * string) :=
  if String.eqb start_date_str end_date_str
  then
    match strptime start_date_str with
    | Ok start_dt =>
        match datetime_add_days start_dt 1 with
        | Ok end_dt => Some (start_date_str, strftime end_dt)
        | Raise _ => None
        end
    | Raise _ => None
    end
  else Some (start_date_str, end_date_str).

Definition exchange_zone (t : TickerObj) : string :=
  if endswith (ticker t) ".NS" then "Asia/Kolkata" else "America/New_York".

(** What the fetch returns for a reply of the provider. *)
Definition normalized (wall_to_instant : string -> Z -> option Z)
    (t : TickerObj) (reply : result DataFrame) : option DataFrame :=
  match reply with
  | Raise _ => None
  | Ok df =>
      if empty df then None
      else
        match df_index df with
        | RangeIndex _ => None
        | DatetimeIndex stamps None =>
            option_map
              (fun stamps' =>
                 mkFrame (DatetimeIndex stamps' (Some (exchange_zone t)))
                   (df_columns df))
              (map_option (wall_to_instant (exchange_zone t)) stamps)
        | DatetimeIndex stamps (Some _) =>
            Some (mkFrame (DatetimeIndex stamps (Some (exchange_zone t)))
                    (df_columns df))
        end
  end.

(** The provider has nothing for a ticker: every query raises or comes back
    empty. *)
Definition no_data
    (history : TickerObj -> string -> string -> string -> result DataFrame)
    (t : TickerObj) : Prop :=
  forall start end_ interval,
    match history t start end_ interval with
    | Ok df => empty df = true
    | Raise _ => True
    end.

(** The paths written by [to_csv], in order. *)
Definition written (tr : list event) : list string :=
  omap (fun ev => match ev with ToCsv path => Some path | _ => None end) tr.

(** Two outcomes agree on the result and on the artifact directory; their
    traces may differ. *)
Definition same_outcome {A} (x y : result A * world) : Prop :=
  fst x = fst y /\ artifacts (snd x) = artifacts (snd y).

End FetcherAux.

(** ** [send_new_data_to_postgre.py] *)

Module Loader.
Import PyStr Frame.

(** What [json.load] returns. An object is kept as its key/value pairs, with
    keys distinct. *)
#[local] Unset Elimination Schemes.
Inductive json : Type :=
  | JNull
  | JBool (b : bool)
  | JInt (n : Z)
  | JFloat (q : Q)
  | JString (s : string)
  | JArray (items : list json)
  | JObject (members : list (string * json)).
#[local] Set Elimination Schemes.

(** [info_data.get(key, default)]: a method of [dict] only. *)
Definition get (info_data : json) (key : string) (default : json) : result json :=
  match info_data with
  | JObject members =>
      match dict_get members key with
      | Some v => Ok v
      | None => Ok default
      end
  | _ => Raise AttributeError
  end.

Inductive message : Type :=
  | MsgSidecarWarning (info_file_path base_symbol : string)
  | MsgEmptyFile (file_path : string)
  | MsgInserted (file_path stock_symbol : string)
  | MsgSummary (processed total : nat).

Definition row : Type := list cell.

(** The connection: the rows committed so far, the rows the open transaction
    sees, and what was printed. *)
Record session : Type := mkSession {
  committed : list row;
  working : list row;
  stdout : list message
}.

Definition print (m : message) : M session unit :=
  modify (fun s => mkSession (committed s) (working s) (stdout s ++ [m])).

(** [conn.commit()] *)
Definition commit : M session unit :=
  modify (fun s => mkSession (working s) (working s) (stdout s)).

(** [conn.close()] with a transaction open: its work is rolled back. *)
Definition close : M session unit :=
  modify (fun s => mkSession (committed s) (committed s) (stdout s)).

(** *** The storage engine *)

Record insert_statement : Type := mkInsert {
  into_table : string;
  into_columns : list string;
  (** [ON CONFLICT (cols) DO NOTHING], when present *)
  on_conflict_do_nothing : option (list string)
}.

(** Modelled from the spec: the definition of table [stock_data] is not in
    the repository.  The spec gives its columns, in this order, and the
    composite primary key [(stock_symbol, date_time)]. *)
Definition stock_data_columns : list string :=
  ["stock_symbol"; "date_time"; "open"; "high"; "low"; "close"; "volume";
   "dividends"; "stock_splits"; "stock_exchange"].
Definition stock_data_primary_key : list string := ["stock_symbol"; "date_time"].

(** The key of a row of [stock_data]: its first two fields.  A primary key
    admits no [NULL]. *)
Definition key_of (r : row) : result (cell * cell) :=
  if (length r =? length stock_data_columns)%nat
  then
    match r with
    | sym :: dt :: _ =>
        match sym, dt with
        | CNull, _ | _, CNull => Raise NotNullViolation
        | _, _ => Ok (sym, dt)
        end
    | _ => Raise ProgrammingError
    end
  else Raise ProgrammingError.

Definition has_key (tbl : list row) (k : cell * cell) : bool :=
  existsb (fun r => match key_of r with
                    | Ok k' => bool_decide (k' = k)
                    | Raise _ => false
                    end) tbl.

(** One row of an [INSERT]: a row whose key is taken is skipped under
    [ON CONFLICT DO NOTHING] and is a unique violation without it. *)
Definition insert_row (stmt : insert_statement) (tbl : list row) (r : row)
  : result (list row) :=
  rbind (key_of r) (fun k =>
    if has_key tbl k
    then
      match on_conflict_do_nothing stmt with
      | Some _ => Ok tbl
      | None => Raise UniqueViolation
      end
    else Ok (tbl ++ [r])).

Fixpoint insert_rows (stmt : insert_statement) (tbl : list row) (data : list row)
  : result (list row) :=
  match data with
  | [] => Ok tbl
  | r :: data' => rbind (insert_row stmt tbl r) (fun tbl' => insert_rows stmt tbl' data')
  end.

(** [execute_values(cursor, stmt, data)] against [stock_data].  The statement
    has to name the table's columns, and an [ON CONFLICT] target has to be a
    unique key of the table.  A statement that fails changes nothing. *)
Definition execute_values (stmt : insert_statement) (data : list row) : M session unit :=
  fun s =>
    if bool_decide (into_table stmt = "stock_data")
       && bool_decide (into_columns stmt = stock_data_columns)
       && match on_conflict_do_nothing stmt with
          | Some cols => bool_decide (cols = stock_data_primary_key)
          | None => true
          end
    then
      match insert_rows stmt (working s) data with
      | Ok tbl => (Ok tt, mkSession (committed s) tbl (stdout s))
      | Raise e => (Raise e, s)
      end
    else (Raise ProgrammingError, s).

(** *** The script *)

Definition extract_stock_symbol (file_path : string) : string :=
  let base := basename file_path in
  replace base "_daily_ohlc.csv" "".

(** The columns of a reshaped frame, in storage order (line 65). *)
Definition canonical_columns : list string :=
  ["stock_symbol"; "date_time"; "open"; "high"; "low"; "close"; "volume";
   "dividends"; "stock_splits"; "stock_exchange"].

Definition insert_query : insert_statement :=
  mkInsert "stock_data"
    ["stock_symbol"; "date_time"; "open"; "high"; "low"; "close"; "volume";
     "dividends"; "stock_splits"; "stock_exchange"]
    (Some ["stock_symbol"; "date_time"]).

Definition insert_stock_data (data : list row) : M session unit :=
  execute_values insert_query data.

Section Environment.

(** [os.path.exists] *)
Variable path_exists : string -> bool.
(** [with open(path, 'r') as f: json.load(f)]: the parsed value, or the
    exception of [open] or of the parser. *)
Variable json_load : string -> result json.
(** [pd.read_csv] *)
Variable read_csv : string -> result DataFrame.
(** [pd.to_datetime] on one value of a column *)
Variable to_datetime : cell -> result cell.
(** [val.item()] on a numpy [datetime64]: what is left of a timestamp cell
    after [to_records] and the unboxing pass. *)
Variable timestamp_item : Z -> cell.
(** [glob.glob(os.path.join(data_dir, "*_daily_ohlc.csv"))] *)
Variable glob_csv : string -> list string.

Definition get_csv_files (data_dir : string) : list string := glob_csv data_dir.

(** [df[col] = 0.0] for each of the two columns that may be missing. *)
Definition fill_missing (df : DataFrame) (col : string) : DataFrame :=
  if negb (has_column df col) then set_scalar df col (CFloat 0) else df.

Fixpoint map_result {A B} (f : A -> result B) (l : list A) : result (list B) :=
  match l with
  | [] => Ok []
  | x :: l' => rbind (f x) (fun y => rbind (map_result f l') (fun ys => Ok (y :: ys)))
  end.

(** [pd.to_datetime(series)] *)
Definition pd_to_datetime (col : list cell) : result (list cell) :=
  map_result to_datetime col.

(** The [columns=] argument of [df.rename] *)
Definition column_renames : list (string * string) :=
  [("Datetime", "date_time"); ("Open", "open"); ("High", "high");
   ("Low", "low"); ("Close", "close"); ("Volume", "volume");
   ("Dividends", "dividends"); ("Stock Splits", "stock_splits")].

Definition clean_dataframe (df : DataFrame) (stock_symbol : string) : result DataFrame :=
  let df := rename column_renames df in
  let df := fold_left fill_missing ["dividends"; "stock_splits"] df in
  let df := if negb (has_column df "stock_exchange")
            then set_scalar df "stock_exchange" CNull else df in
  rbind (match labelled df "date_time" with
         | [] => Raise KeyError
         | [(_, col)] => pd_to_datetime col
         | _ :: _ :: _ => Raise ValueError
         end) (fun stamps =>
  let df := set_column df "date_time" stamps in
  let df := set_scalar df "stock_symbol" (CStr stock_symbol) in
  select df ["stock_symbol"; "date_time"; "open"; "high"; "low"; "close"; "volume";
             "dividends"; "stock_splits"; "stock_exchange"]).

(** [val.item() if isinstance(val, np.generic) else val]: strings and [None]
    are Python objects and stay, numpy numbers become Python numbers of the
    same value. *)
Definition unbox (val : cell) : cell :=
  match val with
  | CTime t => timestamp_item t
  | _ => val
  end.

Definition prepare_data_for_insert (df : DataFrame) : list row :=
  let records := to_records df in
  map (fun r => map unbox r) records.

(** The identity chosen by lines 83-97, before the CSV is read. *)
Definition resolve_symbol (file_path : string) : M session json :=
  let base_symbol := extract_stock_symbol file_path in
  let info_file_path := replace file_path "_daily_ohlc.csv" "_info.json" in
  let stock_symbol_to_use := JString base_symbol in
  if path_exists info_file_path
  then
    match json_load info_file_path with
    | Ok info_data =>
        lift (get info_data "descriptive_symbol" (JString base_symbol))
    | Raise JSONDecodeError | Raise FileNotFoundError =>
        print (MsgSidecarWarning info_file_path base_symbol) ;;;
        ret stock_symbol_to_use
    | Raise e => raise e
    end
  else ret stock_symbol_to_use.

(** [clean_dataframe] is declared for a [str] identity; what pandas and the
    driver do with a sidecar value of another type is left out of the model
    and shown as [OutsideModel]. *)
Definition process_single_file (file_path : string) : M session bool :=
  stock_symbol_to_use <- resolve_symbol file_path ;;
  df <- lift (read_csv file_path) ;;
  if empty df
  then print (MsgEmptyFile file_path) ;;; ret false
  else
    match stock_symbol_to_use with
    | JString stock_symbol =>
        cleaned_df <- lift (clean_dataframe df stock_symbol) ;;
        let data := prepare_data_for_insert cleaned_df in
        insert_stock_data data ;;;
        print (MsgInserted file_path stock_symbol) ;;;
        ret true
    | _ => raise OutsideModel
    end.

(** [try: body finally: cleanup] *)
Definition try_finally {A} (body : M session A) (cleanup : M session unit)
  : M session A :=
  fun s => match body s with
           | (r, s') =>
               match cleanup s' with
               | (Ok _, s'') => (r, s'')
               | (Raise e, s'') => (Raise e, s'')
               end
           end.

Fixpoint process_files (files : list string) (processed_count : nat) : M session nat :=
  match files with
  | [] => ret processed_count
  | file_path :: rest =>
      ok <- process_single_file file_path ;;
      let processed_count := if ok then S processed_count else processed_count in
      commit ;;;
      process_files rest processed_count
  end.

Definition main : M session unit :=
  try_finally
    (let csv_files := get_csv_files "nifty_500_data" in
     processed_count <- process_files csv_files O ;;
     print (MsgSummary processed_count (length csv_files)))
    close.

End Environment.

End Loader.

(** ** Auxiliary definitions for the loader proofs *)

Module LoaderAux.
Import PyStr Frame Loader.

(** The key of [r] is one of the keys stored in [tbl]. *)
Definition keyed_in (tbl : list row) (r : row) : Prop :=
  exists k, key_of r = Ok k /\ has_key tbl k = true.

Definition say (msgs : list message) (s : session) : session :=
  mkSession (committed s) (working s) (stdout s ++ msgs).

Section Environment.

Variable path_exists : string -> bool.
Variable json_load : string -> result json.
Variable read_csv : string -> result DataFrame.
Variable to_datetime : cell -> result cell.
Variable timestamp_item : Z -> cell.

(** What [resolve_symbol] prints and returns; it does not read the session. *)
Definition resolution (file_path : string) : list message * result json :=
  let base_symbol := extract_stock_symbol file_path in
  let info_file_path := replace file_path "_daily_ohlc.csv" "_info.json" in
  if path_exists info_file_path
  then
    match json_load info_file_path with
    | Ok info_data => ([], get info_data "descriptive_symbol" (JString base_symbol))
    | Raise JSONDecodeError | Raise FileNotFoundError =>
        ([MsgSidecarWarning info_file_path base_symbol], Ok (JString base_symbol))
    | Raise e => ([], Raise e)
    end
  else ([], Ok (JString base_symbol)).

(** What [process_single_file] prints before the insert, and the identity
    and rows it is about to insert ([None] for an empty artifact). *)
Definition plan (file_path : string)
  : list message * result (option (string * list row)) :=
  let '(msgs, identity) := resolution file_path in
  match identity with
  | Raise e => (msgs, Raise e)
  | Ok stock_symbol_to_use =>
      match read_csv file_path with
      | Raise e => (msgs, Raise e)
      | Ok df =>
          if empty df then (msgs ++ [MsgEmptyFile file_path], Ok None)
          else
            match stock_symbol_to_use with
            | JString stock_symbol =>
                match clean_dataframe to_datetime df stock_symbol with
                | Ok cleaned_df =>
                    (msgs,
                     Ok (Some (stock_symbol,
                               prepare_data_for_insert timestamp_item cleaned_df)))
                | Raise e => (msgs, Raise e)
                end
            | _ => (msgs, Raise OutsideModel)
            end
      end
  end.

End Environment.

End LoaderAux.

(** ** [fetchNplaceData.py] *)

Module Pipeline.
Import PyStr.

(** How [subprocess.run] ends: the child exited with a return code and its
    captured output, or the call itself raised before there was a return
    code ([CalledProcessError] comes from [check=True] on a non-zero code and
    is derived in [run_script]). *)
Inductive completion : Type :=
  | Exited (returncode : Z) (out err : string)
  | Failed (e : exn).

Inductive message : Type :=
  | MsgPipelineStart
  | MsgKickoff (script_name : string)
  | MsgOutput (script_name out : string)
  | MsgWarnings (script_name err : string)
  | MsgFinished (script_name : string)
  | MsgNotFound (script_name : string)
  | MsgFailed (script_name : string) (returncode : Z) (out err : string)
  | MsgUnexpected (script_name : string) (e : exn)
  | MsgStoppedFetching
  | MsgStoppedInsertion
  | MsgAllDone.

Inductive event : Type :=
  | Print (m : message)
  | Spawn (script_path : string).

Definition emit (e : event) : M (list event) unit :=
  modify (fun t => t ++ [e]).

(** [except Exception]: every exception but the two that derive from
    [BaseException] only. *)
Definition is_Exception (e : exn) : bool :=
  match e with
  | KeyboardInterrupt | SystemExit _ => false
  | _ => true
  end.

Section Processes.

(** The directory of the orchestrator script. *)
Variable script_dir : string.
(** [subprocess.run([sys.executable, script_path], ...)] *)
Variable subprocess_run : string -> completion.

Definition run_script (script_name : string) : M (list event) bool :=
  let script_path := path_join script_dir script_name in
  emit (Print (MsgKickoff script_name)) ;;;
  emit (Spawn script_path) ;;;
  match subprocess_run script_path with
  | Exited returncode out err =>
      if returncode =? 0
      then
        emit (Print (MsgOutput script_name out)) ;;;
        (if negb (String.eqb err "")
         then emit (Print (MsgWarnings script_name err))
         else ret tt) ;;;
        emit (Print (MsgFinished script_name)) ;;;
        ret true
      else
        (* [check=True] raises [CalledProcessError], caught below *)
        emit (Print (MsgFailed script_name returncode out err)) ;;;
        ret false
  | Failed FileNotFoundError =>
      emit (Print (MsgNotFound script_name)) ;;;
      ret false
  | Failed e =>
      if is_Exception e
      then emit (Print (MsgUnexpected script_name e)) ;;; ret false
      else raise e
  end.

Definition main_pipeline : M (list event) unit :=
  emit (Print MsgPipelineStart) ;;;
  ok <- run_script "nifty_ohlc_fetcher.py" ;;
  if negb ok
  then emit (Print MsgStoppedFetching) ;;; raise (SystemExit 1)
  else
    ok <- run_script "send_new_data_to_postgre.py" ;;
    if negb ok
    then emit (Print MsgStoppedInsertion) ;;; raise (SystemExit 1)
    else emit (Print MsgAllDone).

End Processes.

End Pipeline.

(** ** Auxiliary definitions for the pipeline proofs *)

Module PipelineAux.
Import PyStr Pipeline.

(** The scripts started, in order. *)
Definition spawned (t : list event) : list string :=
  omap (fun ev => match ev with Spawn script_path => Some script_path | _ => None end) t.

(** A stage fails at the process level: its script ends with a non-zero
    return code, or cannot be run at all. *)
Definition stage_failed (c : completion) : Prop :=
  match c with
  | Exited returncode _ _ => returncode <> 0
  | Failed e => is_Exception e = true
  end.

End PipelineAux.

(** ** Auxiliary definitions for the further properties *)

Module MoreAux.
Import PyStr Calendar Frame Fetcher FetcherAux Loader LoaderAux Pipeline PipelineAux.

(** What [run_script] returns for a way [subprocess.run] ended. *)
Definition verdict (c : completion) : result bool :=
  match c with
  | Exited returncode _ _ => Ok (returncode =? 0)
  | Failed e => if is_Exception e then Ok false else Raise e
  end.

(** [c] does not occur in [s]. *)
Fixpoint lacks (c : ascii) (s : string) : bool :=
  match s with
  | EmptyString => true
  | String a s' => negb (Ascii.eqb a c) && lacks c s'
  end.

(** In [x +:+ pat], the text [pat] is found at the end only: no match starts
    inside [x]. *)
Fixpoint no_early_match (pat x : string) : bool :=
  match x with
  | EmptyString => true
  | String _ x' => negb (startswith (x +:+ pat) pat) && no_early_match pat x'
  end.


(** Seconds spent in [time.sleep] along a trace. *)
Fixpoint slept (tr : list Fetcher.event) : Z :=
  match tr with
  | [] => 0
  | Fetcher.Sleep seconds :: tr' => seconds + slept tr'
  | _ :: tr' => slept tr'
  end.

(** The tickers the provider was asked about, in order. *)
Definition queried (tr : list Fetcher.event) : list TickerObj :=
  omap (fun ev => match ev with
                  | Fetcher.History t _ _ _ => Some t
                  | _ => None
                  end) tr.

(** The path of the artifact of [symbol] under [output_folder] (lines 93-94
    of [run]). *)
Definition ohlc_file_path (output_folder symbol : string) : string :=
  path_join output_folder
    (_sanitize_filename_component symbol +:+ "_daily_ohlc.csv").

(** A frame as the fetch stage stores it for [exchange]: its index carries
    the zone [zone] and every [stock_exchange] column holds [exchange] in
    each row. *)
Definition stored_for (zone exchange : string) (df : DataFrame) : Prop :=
  (exists stamps, df_index df = DatetimeIndex stamps (Some zone))
  /\ empty df = false
  /\ has_column df "stock_exchange" = true
  /\ Forall (fun p => snd p = repeat (CStr exchange) (nrows df))
            (labelled df "stock_exchange").

Section Loading.

Variable path_exists : string -> bool.
Variable json_load : string -> result json.
Variable read_csv : string -> result DataFrame.
Variable to_datetime : cell -> result cell.
Variable timestamp_item : Z -> cell.

(** The artifact at [file_path] can be processed and none of its rows is new
    to [tbl]. *)
Definition covered (tbl : list row) (file_path : string) : Prop :=
  match plan path_exists json_load read_csv to_datetime timestamp_item file_path with
  | (_, Raise _) => False
  | (_, Ok None) => True
  | (_, Ok (Some (_, data))) => Forall (keyed_in tbl) data
  end.

End Loading.

End MoreAux.

(** ** Concrete inputs

    The inputs at which the properties below are exercised. *)

Module Examples.
Import PyStr Calendar Frame Fetcher Loader Pipeline.

Definition newline : string := String "010" EmptyString.

(** A disk with the second symbol list only. *)
Definition disk_sp500_only : gmap string node :=
  {[ "sp500_symbols.txt" :=
       RegularFile ("AAPL" +:+ newline +:+ "# comment" +:+ newline
                    +:+ newline +:+ "  MSFT " +:+ newline) ]}.

Definition jan_10 : date := mkDate 2024 1 10.
Definition jan_11 : date := mkDate 2024 1 11.

(** A run started on 2024-01-10 at 18:30. *)
Definition run_clock : datetime := mkDatetime jan_10 66600000000.

Definition blank_world : world := mkWorld ∅ [].

Definition reliance : TickerObj := mkTicker "RELIANCE.NS".
Definition apple : TickerObj := mkTicker "AAPL".
Definition ticker_of (symbol : string) : TickerObj := mkTicker symbol.

(** Two one-minute bars whose index has no zone (wall-clock seconds). *)
Definition bars_naive : DataFrame :=
  mkFrame (DatetimeIndex [1704878100; 1704878160] None)
    [("Open", [CFloat (2650 # 1); CFloat (2651 # 1)]);
     ("High", [CFloat (2652 # 1); CFloat (2653 # 1)]);
     ("Low", [CFloat (2649 # 1); CFloat (2650 # 1)]);
     ("Close", [CFloat (2651 # 1); CFloat (2652 # 1)]);
     ("Volume", [CInt 1200; CInt 900])].

(** The same bars with a UTC index. *)
Definition bars_utc : DataFrame :=
  mkFrame (DatetimeIndex [1704858300; 1704858360] (Some "UTC"))
    (df_columns bars_naive).

(** Fixed offsets: +05:30 for Asia/Kolkata, -05:00 for America/New_York. *)
Definition fixed_offsets (zone : string) (wall : Z) : option Z :=
  if String.eqb zone "Asia/Kolkata" then Some (wall - 19800)
  else if String.eqb zone "America/New_York" then Some (wall + 18000)
  else None.

Definition provider_naive (t : TickerObj) (start end_ interval : string)
  : result DataFrame := Ok bars_naive.

Definition provider_utc (t : TickerObj) (start end_ interval : string)
  : result DataFrame := Ok bars_utc.

(** A provider that has bars for [RELIANCE.NS] and fails for everything
    else. *)
Definition provider_reliance_only (t : TickerObj) (start end_ interval : string)
  : result DataFrame :=
  if String.eqb (ticker t) "RELIANCE.NS" then Ok bars_utc else Raise OtherException.

(** An artifact of two rows without the optional columns. *)
Definition artifact_path : string := "nifty_500_data/RELIANCE.NS_daily_ohlc.csv".

Definition artifact_frame : DataFrame :=
  mkFrame (RangeIndex 2)
    [("Datetime", [CTime 1704858300; CTime 1704858360]);
     ("Open", [CFloat (2650 # 1); CFloat (2651 # 1)]);
     ("High", [CFloat (2652 # 1); CFloat (2653 # 1)]);
     ("Low", [CFloat (2649 # 1); CFloat (2650 # 1)]);
     ("Close", [CFloat (2651 # 1); CFloat (2652 # 1)]);
     ("Volume", [CInt 1200; CInt 900])].

Definition reads_artifact (path : string) : result DataFrame := Ok artifact_frame.

(** Timestamps already parsed stay; anything else but a missing value is
    rejected. *)
Definition parse_timestamp (c : cell) : result cell :=
  match c with
  | CTime t => Ok (CTime t)
  | CNull => Ok CNull
  | _ => Raise ValueError
  end.

Definition keep_timestamp (t : Z) : cell := CTime t.

Definition sidecar_present (path : string) : bool := true.

(** A sidecar holding the JSON text [[]]. *)
Definition sidecar_is_array (path : string) : result json := Ok (JArray []).

(** A sidecar holding an object that lacks [descriptive_symbol]. *)
Definition sidecar_other_key (path : string) : result json :=
  Ok (JObject [("long_name", JString "Reliance Industries")]).

Definition one_artifact (data_dir : string) : list string := [artifact_path].

Definition fresh_session : session := mkSession [] [] [].

Definition two_rows : list row :=
  [[CStr "RELIANCE.NS"; CTime 1704858300; CFloat (2650 # 1); CFloat (2652 # 1);
    CFloat (2649 # 1); CFloat (2651 # 1); CInt 1200; CFloat 0; CFloat 0; CNull];
   [CStr "RELIANCE.NS"; CTime 1704858360; CFloat (2651 # 1); CFloat (2653 # 1);
    CFloat (2650 # 1); CFloat (2652 # 1); CInt 900; CFloat 0; CFloat 0; CNull]].

(** The fetch script exits with status 2; the load script would succeed. *)
Definition fetch_crashes (script_path : string) : completion :=
  if endswith script_path "nifty_ohlc_fetcher.py"
  then Exited 2 "" "Traceback"
  else Exited 0 "" "".

End Examples.

(** ** Further concrete inputs *)

Module MoreExamples.
Import PyStr Calendar Frame Fetcher Loader Pipeline Examples.

(** The fetch script succeeds; the load script exits with status 1. *)
Definition load_crashes (script_path : string) : completion :=
  if endswith script_path "send_new_data_to_postgre.py"
  then Exited 1 "" "psycopg2.OperationalError"
  else Exited 0 "Processing complete" "".

(** Both symbol lists; the first has an indented line, a comment and a blank
    line. *)
Definition disk_two_lists : gmap string node :=
  {[ "nifty_500_symbols.txt" :=
       RegularFile (" TCS " +:+ newline +:+ "# banks" +:+ newline
                    +:+ newline +:+ "INFY" +:+ newline);
     "sp500_symbols.txt" := RegularFile ("AAPL" +:+ newline) ]}.


(** The sidecar of [RELIANCE.NS] is there, and no other file. *)
Definition sidecar_of_reliance_only (path : string) : bool :=
  String.eqb path "nifty_500_data/RELIANCE.NS_info.json".

Definition no_sidecar (path : string) : bool := false.

(** Twenty-one symbols: one full batch and one more symbol. *)
Definition twenty_one_symbols : list (string * string) :=
  repeat ("RELIANCE.NS", "NSE") 20 ++ [("AAPL", "SnP")].

(** What the fetch returns for [RELIANCE.NS] from [provider_utc]. *)
Definition bars_kolkata : DataFrame :=
  mkFrame (DatetimeIndex [1704858300; 1704858360] (Some "Asia/Kolkata"))
    (df_columns bars_utc).

(** An artifact without the volume column. *)
Definition artifact_without_volume : DataFrame :=
  mkFrame (RangeIndex 2)
    [("Datetime", [CTime 1704858300; CTime 1704858360]);
     ("Open", [CFloat (2650 # 1); CFloat (2651 # 1)]);
     ("High", [CFloat (2652 # 1); CFloat (2653 # 1)]);
     ("Low", [CFloat (2649 # 1); CFloat (2650 # 1)]);
     ("Close", [CFloat (2651 # 1); CFloat (2652 # 1)])].

(** An artifact with a header and no rows. *)
Definition artifact_without_rows : DataFrame :=
  mkFrame (RangeIndex 0)
    [("Datetime", []); ("Open", []); ("High", []); ("Low", []); ("Close", []);
     ("Volume", [])].

Definition reads_nothing (path : string) : result DataFrame :=
  Ok artifact_without_rows.

Definition broken_path : string := "nifty_500_data/TCS.NS_daily_ohlc.csv".

(** The artifact of [RELIANCE.NS] is well formed, any other lacks the volume
    column. *)
Definition reads_one_good (path : string) : result DataFrame :=
  if String.eqb path artifact_path then Ok artifact_frame
  else Ok artifact_without_volume.

Definition two_artifacts (data_dir : string) : list string :=
  [artifact_path; broken_path].

(** A row stored by an earlier load. *)
Definition earlier_row : row :=
  [CStr "INFY.NS"; CTime 1704771900; CFloat (1500 # 1); CFloat (1502 # 1);
   CFloat (1499 # 1); CFloat (1501 # 1); CInt 700; CFloat 0; CFloat 0;
   CStr "NSE"].

Definition earlier_session : session := mkSession [earlier_row] [earlier_row] [].

End MoreExamples.

(** * Properties

    ** The calendar *)

Module CalendarFacts.
Import Calendar CalendarAux.

Lemma all_from_spec (P : Z -> bool) (n : nat) :
  forall a, all_from P a n = true ->
  forall i, a <= i < a + Z.of_nat n -> P i = true.
Proof.
  induction n as [|k IH]; intros a H i Hi; [lia|].
  simpl in H. apply andb_prop in H as [Ha Hrest].
  destruct (Z.eq_dec i a) as [->|Hne]; [exact Ha|].
  apply (IH (a + 1)); [exact Hrest | lia].
Qed.

Lemma month_day_check :
  all_from (month_day_ok true) 0 366 = true /\ all_from (month_day_ok false) 0 365 = true.
Proof. split; vm_compute; reflexivity. Qed.

Lemma leap_of_parts a b c e :
  0 <= b <= 3 -> 0 <= c <= 24 -> 0 <= e <= 3 ->
  is_leap (a * 400 + 1 + b * 100 + c * 4 + e)
  = (e =? 3) && (negb (c =? 24) || (b =? 3)).
Proof.
  intros Hb Hc He. unfold is_leap.
  repeat match goal with
         | |- context [?x =? ?y] => destruct (Z.eqb_spec x y)
         end; simpl; try reflexivity; exfalso;
  Z.div_mod_to_equations; lia.
Qed.

Lemma dby_of_parts a b c e :
  0 <= b <= 3 -> 0 <= c <= 24 -> 0 <= e <= 3 ->
  days_before_year (a * 400 + 1 + b * 100 + c * 4 + e)
  = a * 146097 + b * 36524 + c * 1461 + e * 365.
Proof.
  intros Hb Hc He. unfold days_before_year. cbv zeta.
  Z.div_mod_to_equations. lia.
Qed.

Lemma ord2ymd_parts n :
  ord2ymd n =
  let a := (n - 1) / 146097 in
  let r400 := (n - 1) mod 146097 in
  let b := r400 / 36524 in
  let r100 := r400 mod 36524 in
  let c := r100 / 1461 in
  let r4 := r100 mod 1461 in
  let e := r4 / 365 in
  let r1 := r4 mod 365 in
  let y := a * 400 + 1 + b * 100 + c * 4 + e in
  if (e =? 4) || (b =? 4) then mkDate (y - 1) 12 31
  else
    let md := month_day ((e =? 3) && (negb (c =? 24) || (b =? 3))) r1 in
    mkDate y (fst md) (snd md).
Proof.
  unfold ord2ymd, month_day, DI400Y, DI100Y, DI4Y. cbv zeta.
  destruct (_ || _); [reflexivity|].
  destruct (_ <? _); reflexivity.
Qed.

Lemma month_day_spec (leapyear : bool) (n : Z) :
  0 <= n < (if leapyear then 366 else 365) ->
  let m := fst (month_day leapyear n) in
  let d := snd (month_day leapyear n) in
  1 <= m <= 12 /\ 1 <= d
  /\ d <= (if (m =? 2) && leapyear then 29 else nth (Z.to_nat m) DAYS_IN_MONTH 0)
  /\ nth (Z.to_nat m) DAYS_BEFORE_MONTH 0
     + (if (2 <? m) && leapyear then 1 else 0) + d = n + 1.
Proof.
  intros Hn.
  assert (Hok : month_day_ok leapyear n = true).
  { destruct month_day_check as [Ht Hf].
    destruct leapyear;
      [apply (all_from_spec _ _ _ Ht) | apply (all_from_spec _ _ _ Hf)]; lia. }
  unfold month_day_ok in Hok. cbv zeta.
  destruct (month_day leapyear n) as [m d]. simpl.
  repeat (apply andb_prop in Hok as [Hok ?]).
  repeat match goal with
         | H : (_ <=? _) = true |- _ => apply Z.leb_le in H
         | H : (_ =? _) = true |- _ => apply Z.eqb_eq in H
         end.
  repeat split; assumption.
Qed.

Lemma ord_roundtrip n : 1 <= n <= MAXORDINAL -> ymd2ord (ord2ymd n) = n.
Proof.
  intros Hn. unfold MAXORDINAL in Hn. rewrite ord2ymd_parts. cbv zeta.
  set (a := (n - 1) / 146097).
  set (r400 := (n - 1) mod 146097).
  set (b := r400 / 36524).
  set (r100 := r400 mod 36524).
  set (c := r100 / 1461).
  set (r4 := r100 mod 1461).
  set (e := r4 / 365).
  set (r1 := r4 mod 365).
  assert (Ha : n - 1 = 146097 * a + r400 /\ 0 <= r400 < 146097)
    by (subst a r400; split; [apply Z.div_mod | apply Z.mod_pos_bound]; lia).
  assert (Hb : r400 = 36524 * b + r100 /\ 0 <= r100 < 36524)
    by (subst b r100; split; [apply Z.div_mod | apply Z.mod_pos_bound]; lia).
  assert (Hc : r100 = 1461 * c + r4 /\ 0 <= r4 < 1461)
    by (subst c r4; split; [apply Z.div_mod | apply Z.mod_pos_bound]; lia).
  assert (He : r4 = 365 * e + r1 /\ 0 <= r1 < 365)
    by (subst e r1; split; [apply Z.div_mod | apply Z.mod_pos_bound]; lia).
  assert (Hb' : 0 <= b <= 4) by lia.
  assert (Hc' : 0 <= c <= 24) by lia.
  assert (He' : 0 <= e <= 4) by lia.
  clearbody a r400 b r100 c r4 e r1.
  destruct ((e =? 4) || (b =? 4)) eqn:Hspecial.
  - unfold ymd2ord; simpl year; simpl month; simpl day.
    apply orb_prop in Hspecial as [H4|H4]; apply Z.eqb_eq in H4; subst.
    + assert (Hb4 : b <= 3) by lia.
      replace (a * 400 + 1 + b * 100 + c * 4 + 4 - 1)
        with (a * 400 + 1 + b * 100 + c * 4 + 3) by lia.
      unfold days_before_month.
      rewrite leap_of_parts, dby_of_parts by lia.
      simpl.
      destruct (Z.eqb_spec c 24), (Z.eqb_spec b 3); simpl; lia.
    + assert (r100 = 0 /\ c = 0 /\ e = 0) as (-> & -> & ->) by lia.
      replace (a * 400 + 1 + 4 * 100 + 0 * 4 + 0 - 1)
        with (a * 400 + 1 + 3 * 100 + 24 * 4 + 3) by lia.
      unfold days_before_month.
      rewrite leap_of_parts, dby_of_parts by lia.
      simpl. lia.
  - apply orb_false_elim in Hspecial as [He4 Hb4].
    apply Z.eqb_neq in He4, Hb4.
    set (leap := (e =? 3) && (negb (c =? 24) || (b =? 3))).
    pose proof (month_day_spec leap r1) as Hmd. cbv zeta in Hmd.
    destruct Hmd as (Hm & Hd1 & Hd2 & Hsum).
    { destruct leap; lia. }
    unfold ymd2ord; simpl year; simpl month; simpl day.
    unfold days_before_month.
    rewrite leap_of_parts, dby_of_parts by lia.
    fold leap. lia.
Qed.

Lemma ord2ymd_valid n : 1 <= n <= MAXORDINAL -> valid_date (ord2ymd n).
Proof.
  intros Hn. unfold MAXORDINAL in Hn. unfold valid_date.
  rewrite ord2ymd_parts. cbv zeta.
  set (a := (n - 1) / 146097).
  set (r400 := (n - 1) mod 146097).
  set (b := r400 / 36524).
  set (r100 := r400 mod 36524).
  set (c := r100 / 1461).
  set (r4 := r100 mod 1461).
  set (e := r4 / 365).
  set (r1 := r4 mod 365).
  assert (Ha : n - 1 = 146097 * a + r400 /\ 0 <= r400 < 146097)
    by (subst a r400; split; [apply Z.div_mod | apply Z.mod_pos_bound]; lia).
  assert (Hb : r400 = 36524 * b + r100 /\ 0 <= r100 < 36524)
    by (subst b r100; split; [apply Z.div_mod | apply Z.mod_pos_bound]; lia).
  assert (Hc : r100 = 1461 * c + r4 /\ 0 <= r4 < 1461)
    by (subst c r4; split; [apply Z.div_mod | apply Z.mod_pos_bound]; lia).
  assert (He : r4 = 365 * e + r1 /\ 0 <= r1 < 365)
    by (subst e r1; split; [apply Z.div_mod | apply Z.mod_pos_bound]; lia).
  clearbody a r400 b r100 c r4 e r1.
  unfold valid_dateb, MINYEAR, MAXYEAR.
  destruct ((e =? 4) || (b =? 4)) eqn:Hspecial.
  - simpl year; simpl month; simpl day.
    change (days_in_month (a * 400 + 1 + b * 100 + c * 4 + e - 1) 12) with 31.
    repeat (apply andb_true_intro; split); apply Z.leb_le; try lia.
    all: apply orb_prop in Hspecial as [H4|H4]; apply Z.eqb_eq in H4; lia.
  - apply orb_false_elim in Hspecial as [He4 Hb4].
    apply Z.eqb_neq in He4, Hb4.
    set (leap := (e =? 3) && (negb (c =? 24) || (b =? 3))).
    pose proof (month_day_spec leap r1) as Hmd. cbv zeta in Hmd.
    destruct Hmd as (Hm & Hd1 & Hd2 & Hsum).
    { destruct leap; lia. }
    simpl year; simpl month; simpl day.
    unfold days_in_month. rewrite leap_of_parts by lia. fold leap.
    repeat (apply andb_true_intro; split); apply Z.leb_le; lia.
Qed.

Lemma month_day_inverse_check :
  all_from (month_day_inverse_ok true) 1 12 = true
  /\ all_from (month_day_inverse_ok false) 1 12 = true.
Proof. split; vm_compute; reflexivity. Qed.

Lemma month_day_inverse (leapyear : bool) (m d : Z) :
  1 <= m <= 12 ->
  1 <= d <= (if (m =? 2) && leapyear then 29 else nth (Z.to_nat m) DAYS_IN_MONTH 0) ->
  let n := nth (Z.to_nat m) DAYS_BEFORE_MONTH 0
           + (if (2 <? m) && leapyear then 1 else 0) + d - 1 in
  month_day leapyear n = (m, d) /\ 0 <= n < (if leapyear then 366 else 365).
Proof.
  intros Hm Hd n.
  assert (Hd31 : d <= 31).
  { destruct ((m =? 2) && leapyear); [lia|].
    assert (m = 1 \/ m = 2 \/ m = 3 \/ m = 4 \/ m = 5 \/ m = 6 \/ m = 7
            \/ m = 8 \/ m = 9 \/ m = 10 \/ m = 11 \/ m = 12) as Hcases by lia.
    repeat (destruct Hcases as [-> | Hcases]; [simpl in Hd; lia|]).
    subst; simpl in Hd; lia. }
  assert (Hok : month_day_inverse_ok leapyear m = true).
  { destruct month_day_inverse_check as [Ht Hf].
    destruct leapyear;
      [apply (all_from_spec _ _ _ Ht) | apply (all_from_spec _ _ _ Hf)]; lia. }
  unfold month_day_inverse_ok in Hok.
  pose proof (all_from_spec _ _ _ Hok d ltac:(lia)) as Hday.
  cbv beta zeta in Hday. fold n in Hday.
  destruct (d <=? _) eqn:Hle; [|apply Z.leb_gt in Hle; lia].
  repeat (apply andb_prop in Hday as [Hday ?]).
  apply Z.eqb_eq in Hday.
  repeat match goal with
         | H : (_ <=? _) = true |- _ => apply Z.leb_le in H
         | H : (_ <? _) = true |- _ => apply Z.ltb_lt in H
         | H : (_ =? _) = true |- _ => apply Z.eqb_eq in H
         end.
  split; [|lia].
  destruct (month_day leapyear n) as [m' d']. simpl in *. congruence.
Qed.

Lemma quotient_unique k q r q' r' :
  0 <= r < k -> 0 <= r' < k -> k * q + r = k * q' + r' -> q = q' /\ r = r'.
Proof. intros Hr Hr' Heq. assert (q = q') by nia. split; [assumption | nia]. Qed.

(** A date is the date of its ordinal. *)
Lemma ymd_roundtrip d : valid_date d -> ord2ymd (ymd2ord d) = d.
Proof.
  destruct d as [Y m dd]. unfold valid_date, valid_dateb, MINYEAR, MAXYEAR.
  simpl year; simpl month; simpl day. intros Hv.
  repeat (apply andb_prop in Hv as [Hv ?]).
  repeat match goal with
         | H : (_ <=? _) = true |- _ => apply Z.leb_le in H
         end.
  assert (HY : exists a b c e,
             Y = a * 400 + 1 + b * 100 + c * 4 + e
             /\ 0 <= a /\ 0 <= b <= 3 /\ 0 <= c <= 24 /\ 0 <= e <= 3).
  { exists ((Y - 1) / 400), ((Y - 1) mod 400 / 100),
           ((Y - 1) mod 100 / 4), ((Y - 1) mod 4).
    Z.div_mod_to_equations. lia. }
  destruct HY as (a & b & c & e & -> & Ha & Hb & Hc & He).
  unfold days_in_month in *. rewrite leap_of_parts in * by lia.
  set (leap := (e =? 3) && (negb (c =? 24) || (b =? 3))) in *.
  destruct (month_day_inverse leap m dd ltac:(lia) ltac:(lia)) as [Hmd Hyd].
  cbv zeta in Hmd, Hyd.
  set (yd := nth (Z.to_nat m) DAYS_BEFORE_MONTH 0
             + (if (2 <? m) && leap then 1 else 0) + dd - 1) in *.
  assert (Hord : ymd2ord (mkDate (a * 400 + 1 + b * 100 + c * 4 + e) m dd)
                 = a * 146097 + b * 36524 + c * 1461 + e * 365 + yd + 1).
  { unfold ymd2ord, days_before_month. simpl year; simpl month; simpl day.
    rewrite leap_of_parts, dby_of_parts by lia. fold leap. subst yd. lia. }
  rewrite Hord, ord2ymd_parts. cbv zeta.
  set (n := a * 146097 + b * 36524 + c * 1461 + e * 365 + yd + 1).
  set (a' := (n - 1) / 146097).
  set (r400 := (n - 1) mod 146097).
  set (b' := r400 / 36524).
  set (r100 := r400 mod 36524).
  set (c' := r100 / 1461).
  set (r4 := r100 mod 1461).
  set (e' := r4 / 365).
  set (r1 := r4 mod 365).
  assert (Ea : n - 1 = 146097 * a' + r400 /\ 0 <= r400 < 146097)
    by (subst a' r400; split; [apply Z.div_mod | apply Z.mod_pos_bound]; lia).
  assert (Eb : r400 = 36524 * b' + r100 /\ 0 <= r100 < 36524)
    by (subst b' r100; split; [apply Z.div_mod | apply Z.mod_pos_bound]; lia).
  assert (Ec : r100 = 1461 * c' + r4 /\ 0 <= r4 < 1461)
    by (subst c' r4; split; [apply Z.div_mod | apply Z.mod_pos_bound]; lia).
  assert (Ee : r4 = 365 * e' + r1 /\ 0 <= r1 < 365)
    by (subst e' r1; split; [apply Z.div_mod | apply Z.mod_pos_bound]; lia).
  clearbody a' r400 b' r100 c' r4 e' r1. subst n.
  assert (Hleap : leap = true -> e = 3 /\ (c <> 24 \/ b = 3)).
  { subst leap. intros Hl. apply andb_prop in Hl as [Hle3 Hlc3].
    apply Z.eqb_eq in Hle3. split; [exact Hle3|].
    destruct (Z.eqb_spec c 24), (Z.eqb_spec b 3); simpl in Hlc3;
      first [discriminate | lia]. }
  assert (Hlast : yd = 365 -> m = 12 /\ dd = 31).
  { intros Hy. rewrite Hy in Hmd.
    destruct leap; [|lia].
    change (month_day true 365) with (12, 31) in Hmd. split; congruence. }
  destruct (Z.eq_dec yd 365) as [Hy|Hy].
  - destruct (Hlast Hy) as [-> ->].
    assert (Hl : leap = true) by (destruct leap; [reflexivity | lia]).
    destruct (Hleap Hl) as [-> Hcb].
    assert (Hsp : (e' =? 4) || (b' =? 4) = true).
    { apply orb_true_iff.
      destruct (Z.eq_dec c 24) as [->|Hc24];
        [right | left]; apply Z.eqb_eq; lia. }
    rewrite Hsp. f_equal. lia.
  - assert (Hs : 0 <= yd <= 364) by (destruct leap; lia).
    destruct (quotient_unique 146097 a' r400 a
                (36524 * b + 1461 * c + 365 * e + yd)) as [-> ->]; try lia.
    destruct (quotient_unique 36524 b' r100 b (1461 * c + 365 * e + yd))
      as [-> ->]; try lia.
    destruct (quotient_unique 1461 c' r4 c (365 * e + yd)) as [-> ->]; try lia.
    destruct (quotient_unique 365 e' r1 e yd) as [-> ->]; try lia.
    assert (Hsp : (e =? 4) || (b =? 4) = false)
      by (apply orb_false_iff; split; apply Z.eqb_neq; lia).
    rewrite Hsp. fold leap. rewrite Hmd. reflexivity.
Qed.

Lemma ymd2ord_range d : valid_date d -> 1 <= ymd2ord d <= MAXORDINAL.
Proof.
  intros Hv. pose proof (ymd_roundtrip d Hv) as Hrt.
  destruct d as [Y m dd]. unfold valid_date, valid_dateb, MINYEAR, MAXYEAR in Hv.
  simpl year in Hv; simpl month in Hv; simpl day in Hv.
  repeat (apply andb_prop in Hv as [Hv ?]).
  repeat match goal with
         | H : (_ <=? _) = true |- _ => apply Z.leb_le in H
         end.
  assert (HY : exists a b c e,
             Y = a * 400 + 1 + b * 100 + c * 4 + e
             /\ 0 <= a /\ 0 <= b <= 3 /\ 0 <= c <= 24 /\ 0 <= e <= 3).
  { exists ((Y - 1) / 400), ((Y - 1) mod 400 / 100),
           ((Y - 1) mod 100 / 4), ((Y - 1) mod 4).
    Z.div_mod_to_equations. lia. }
  destruct HY as (a & b & c & e & -> & Ha & Hb & Hc & He).
  unfold days_in_month in *. rewrite leap_of_parts in * by lia.
  set (leap := (e =? 3) && (negb (c =? 24) || (b =? 3))) in *.
  destruct (month_day_inverse leap m dd ltac:(lia) ltac:(lia)) as [_ Hyd].
  cbv zeta in Hyd.
  unfold ymd2ord, days_before_month, MAXORDINAL.
  simpl year; simpl month; simpl day.
  rewrite leap_of_parts, dby_of_parts by lia. fold leap.
  assert (leap = true -> e = 3) by
    (subst leap; intros Hl; apply andb_prop in Hl as [Hle3 _];
     apply Z.eqb_eq in Hle3; exact Hle3).
  destruct leap; lia.
Qed.

(** Adding no days to a date gives the date back. *)
Lemma add_days_zero d : valid_date d -> add_days d 0 = Ok d.
Proof.
  intros Hv. pose proof (ymd2ord_range d Hv) as Hr. unfold add_days.
  rewrite Z.add_0_r.
  destruct (Z.ltb_spec 0 (ymd2ord d)); [|lia].
  destruct (Z.leb_spec (ymd2ord d) MAXORDINAL); [|lia].
  simpl. rewrite ymd_roundtrip by exact Hv. reflexivity.
Qed.

(** *** Text round trip of a date *)

Lemma digit_val_char k : 0 <= k <= 9 -> digit_val (digit_char k) = Some k.
Proof.
  intros Hk.
  assert (k = 0 \/ k = 1 \/ k = 2 \/ k = 3 \/ k = 4 \/ k = 5 \/ k = 6
          \/ k = 7 \/ k = 8 \/ k = 9) as Hcases by lia.
  repeat (destruct Hcases as [-> | Hcases]; [reflexivity|]).
  subst; reflexivity.
Qed.

Lemma parse_year_pad4 y rest :
  0 <= y <= 9999 -> parse_year (pad4 y +:+ rest) = Some (y, rest).
Proof.
  intros Hy. unfold pad4, pad2. simpl. unfold parse_year.
  rewrite !digit_val_char by (Z.div_mod_to_equations; lia).
  f_equal. f_equal. Z.div_mod_to_equations. lia.
Qed.

Lemma mod10_digit k : 0 <= k mod 10 <= 9.
Proof. Z.div_mod_to_equations; lia. Qed.

Lemma strptime_strftime d :
  valid_date d -> strptime (strftime_date d) = Ok (mkDatetime d 0).
Proof.
  intros Hv. destruct d as [y m dd].
  pose proof Hv as Hv'. unfold valid_date, valid_dateb in Hv'. simpl in Hv'.
  repeat (apply andb_prop in Hv' as [Hv' ?]).
  repeat match goal with
         | H : (_ <=? _) = true |- _ => apply Z.leb_le in H
         end.
  unfold MINYEAR, MAXYEAR in *.
  assert (Hdim : days_in_month y m <= 31).
  { unfold days_in_month. destruct (_ && _); [lia|].
    assert (m = 1 \/ m = 2 \/ m = 3 \/ m = 4 \/ m = 5 \/ m = 6 \/ m = 7
            \/ m = 8 \/ m = 9 \/ m = 10 \/ m = 11 \/ m = 12) as Hm by lia.
    repeat (destruct Hm as [-> | Hm]; [simpl; lia|]). subst; simpl; lia. }
  unfold strptime, strftime_date. simpl year; simpl month; simpl day.
  rewrite parse_year_pad4 by lia.
  change (expect_dash ("-" +:+ ?s)) with (Some s). cbv iota beta.
  assert (Hpm : forall rest, parse_month (pad2 m +:+ "-" +:+ rest) = Some (m, "-" +:+ rest)).
  { intros rest.
    assert (m = 1 \/ m = 2 \/ m = 3 \/ m = 4 \/ m = 5 \/ m = 6 \/ m = 7
            \/ m = 8 \/ m = 9 \/ m = 10 \/ m = 11 \/ m = 12) as Hm by lia.
    repeat (destruct Hm as [-> | Hm]; [reflexivity|]). subst; reflexivity. }
  rewrite Hpm.
  change (expect_dash ("-" +:+ ?s)) with (Some s). cbv iota beta.
  assert (Hpd : parse_day (pad2 dd) = Some (dd, EmptyString)).
  { assert (Hd : exists k : nat, dd = Z.of_nat k /\ (1 <= k <= 31)%nat)
      by (exists (Z.to_nat dd); lia).
    destruct Hd as (k & -> & Hk).
    do 32 (destruct k as [|k]; [first [lia | reflexivity]|]). lia. }
  rewrite Hpd. unfold valid_date in Hv. rewrite Hv. reflexivity.
Qed.

End CalendarFacts.

(** ** The fetcher *)

Module FetcherFacts.
Import PyStr Calendar Frame Fetcher FetcherAux CalendarFacts.

(** Running the monad's combinators. *)
Ltac run_monad :=
  cbv beta iota zeta
      delta [bind lift ret raise modify
             Fetcher.emit call_history to_csv try_except_all].

Lemma rbind_ok_r {A} (r : result A) : rbind r Ok = r.
Proof. destruct r; reflexivity. Qed.

(** C6. A symbol-list path that is not on disk contributes the empty list and
    raises nothing, and the universe is then what the other source gives. *)
Theorem missing_source_contributes_nothing
    (disk : gmap string node) (file_path exchange_name suffix : string) :
  disk !! file_path = None ->
  _load_symbols_from_file disk file_path exchange_name suffix = Ok []
  /\ (file_path = "nifty_500_symbols.txt" ->
      _load_all_symbols disk
      = _load_symbols_from_file disk "sp500_symbols.txt" "SnP" "")
  /\ (file_path = "sp500_symbols.txt" ->
      _load_all_symbols disk
      = _load_symbols_from_file disk "nifty_500_symbols.txt" "NSE" ".NS").
Proof.
  intros Hmissing.
  assert (Hempty : forall ex sfx,
             _load_symbols_from_file disk file_path ex sfx = Ok []).
  { intros ex sfx. unfold _load_symbols_from_file. rewrite Hmissing. reflexivity. }
  split; [apply Hempty|]. split; intros ->; unfold _load_all_symbols.
  - rewrite Hempty. simpl. apply rbind_ok_r.
  - rewrite (Hempty "SnP" ""). simpl.
    destruct (_load_symbols_from_file _ _ _ _) as [l|e]; simpl; [|reflexivity].
    rewrite app_nil_r. reflexivity.
Qed.

Lemma add_days_ordinal d k d' :
  add_days d k = Ok d' ->
  ymd2ord d' = ymd2ord d + k /\ valid_date d'.
Proof.
  unfold add_days. intros H.
  destruct ((0 <? ymd2ord d + k) && (ymd2ord d + k <=? MAXORDINAL)) eqn:Hrange;
    [|discriminate].
  apply andb_prop in Hrange as [Hlo Hhi].
  apply Z.ltb_lt in Hlo. apply Z.leb_le in Hhi.
  injection H as <-.
  split; [apply ord_roundtrip | apply ord2ymd_valid]; lia.
Qed.

Lemma add_days_in_range d k :
  0 < ymd2ord d + k <= MAXORDINAL -> add_days d k = Ok (ord2ymd (ymd2ord d + k)).
Proof.
  intros [Hlo Hhi]. unfold add_days.
  apply Z.ltb_lt in Hlo. apply Z.leb_le in Hhi. rewrite Hlo, Hhi. reflexivity.
Qed.

Section FetchFacts.

Variable history : TickerObj -> string -> string -> string -> result DataFrame.
Variable wall_to_instant : string -> Z -> option Z.

Lemma map_option_length {A B} (f : A -> option B) (l : list A) (l' : list B) :
  map_option f l = Some l' -> length l' = length l.
Proof.
  revert l'; induction l as [|x l IH]; intros l' H; simpl in H.
  - injection H as <-. reflexivity.
  - destruct (f x); [|discriminate].
    destruct (map_option f l) as [ys|]; [|discriminate].
    injection H as <-. simpl. f_equal. apply IH. reflexivity.
Qed.

Lemma trace_grows_not (l : list event) (x : event) : l <> l ++ [x].
Proof.
  intros H. apply (f_equal (@length event)) in H.
  rewrite length_app in H. simpl in H. lia.
Qed.

(** The fetch as a function of the provider's reply: at most one query, and
    every failure on the way becomes [None]. *)
Lemma fetch_ohlc_data_spec t s e w :
  fetch_ohlc_data history wall_to_instant t s e w =
  match fetch_request s e with
  | None => (Ok None, w)
  | Some (a, b) =>
      (Ok (normalized wall_to_instant t (history t a b "1m")),
       mkWorld (artifacts w) (trace w ++ [History t a b "1m"]))
  end.
Proof.
  unfold fetch_ohlc_data, fetch_request, normalized, exchange_zone. run_monad.
  destruct (String.eqb s e);
    [destruct (strptime s) as [dt|]; [|reflexivity];
     destruct (datetime_add_days dt 1) as [dt'|]; [|reflexivity]|].
  all: destruct (history t _ _ "1m") as [df|]; [|reflexivity].
  all: destruct (empty df); [reflexivity|].
  all: unfold set_index, nrows.
  all: destruct (df_index df) as [n|stamps [z|]];
    destruct (endswith (ticker t) ".NS"); simpl;
    rewrite ?Nat.eqb_refl; try reflexivity.
  all: destruct (map_option _ stamps) as [stamps'|] eqn:Hloc; simpl;
    [rewrite (map_option_length _ _ _ Hloc), Nat.eqb_refl|]; reflexivity.
Qed.

(** C3. Asked for a single day [D] (start equal to end), the fetch queries
    the provider once, with start [D] and exclusive end [D] plus one day. *)
Theorem single_day_window (t : TickerObj) (D D' : date) (w : world) :
  valid_date D ->
  add_days D 1 = Ok D' ->
  exists r,
    fetch_ohlc_data history wall_to_instant t (strftime_date D) (strftime_date D) w
    = (Ok r, mkWorld (artifacts w)
               (trace w ++ [History t (strftime_date D) (strftime_date D') "1m"]))
    /\ ymd2ord D' = ymd2ord D + 1.
Proof.
  intros Hvalid Hadd.
  destruct (add_days_ordinal _ _ _ Hadd) as [Hord _].
  rewrite fetch_ohlc_data_spec. unfold fetch_request.
  rewrite String.eqb_refl, (strptime_strftime _ Hvalid).
  unfold datetime_add_days. simpl dt_date. rewrite Hadd. simpl.
  eexists. split; [reflexivity | exact Hord].
Qed.

(** C2. For a non-empty reply of the provider, normalisation follows the
    index: without a zone it is localized to the zone of the exchange
    (Asia/Kolkata for a ticker ending in [.NS], America/New_York otherwise),
    with a zone it is converted to that zone and the instants stay. *)
Theorem timezone_normalization
    (t : TickerObj) (s e : string) (w w' : world) (r : result (option DataFrame))
    (s' e' i : string) (df : DataFrame) (stamps : list Z) (tz : option string) :
  fetch_ohlc_data history wall_to_instant t s e w = (r, w') ->
  trace w' = trace w ++ [History t s' e' i] ->
  history t s' e' i = Ok df ->
  empty df = false ->
  df_index df = DatetimeIndex stamps tz ->
  let zone := if endswith (ticker t) ".NS"
              then "Asia/Kolkata" else "America/New_York" in
  match tz with
  | None =>
      r = Ok (option_map
                (fun stamps' =>
                   mkFrame (DatetimeIndex stamps' (Some zone)) (df_columns df))
                (map_option (wall_to_instant zone) stamps))
  | Some _ =>
      r = Ok (Some (mkFrame (DatetimeIndex stamps (Some zone)) (df_columns df)))
  end.
Proof.
  intros Hfetch Htrace Hreply Hne Hix zone.
  rewrite fetch_ohlc_data_spec in Hfetch.
  destruct (fetch_request s e) as [[a b]|].
  - injection Hfetch as <- <-. simpl in Htrace.
    apply app_inv_head in Htrace. injection Htrace as <- <- <-.
    rewrite Hreply. unfold normalized. rewrite Hne, Hix.
    destruct tz; reflexivity.
  - injection Hfetch as <- <-. destruct (trace_grows_not _ _ Htrace).
Qed.

End FetchFacts.

(** C4. With run base date [B] and offset [p], the date fetched is [B - p]
    for a primary-exchange (NSE) symbol and [B - 1 - p] for a
    secondary-exchange (SnP) symbol: exactly one calendar day earlier. *)
Theorem reference_date_shift (B : datetime) (p : Z) :
  1 < ymd2ord (dt_date B) <= MAXORDINAL ->
  1 <= ymd2ord (dt_date B) - 1 - p ->
  ymd2ord (dt_date B) - p <= MAXORDINAL ->
  exists T_nse T_snp,
    target_date_for_fetch B p "NSE" = Ok T_nse
    /\ (forall exchange, String.eqb exchange "SnP" = false ->
                         target_date_for_fetch B p exchange = Ok T_nse)
    /\ target_date_for_fetch B p "SnP" = Ok T_snp
    /\ datetime_add_days B (- p) = Ok T_nse
    /\ datetime_add_days B (- (1 + p)) = Ok T_snp
    /\ ymd2ord (dt_date T_nse) = ymd2ord (dt_date B) - p
    /\ ymd2ord (dt_date T_snp) = ymd2ord (dt_date T_nse) - 1
    /\ dt_micros T_nse = dt_micros B /\ dt_micros T_snp = dt_micros B.
Proof.
  intros HB Hlo Hhi.
  set (o := ymd2ord (dt_date B)) in *.
  exists (mkDatetime (ord2ymd (o - p)) (dt_micros B)).
  exists (mkDatetime (ord2ymd (o - 1 - p)) (dt_micros B)).
  assert (Hnse : datetime_add_days B (- p)
                 = Ok (mkDatetime (ord2ymd (o - p)) (dt_micros B))).
  { unfold datetime_add_days. rewrite add_days_in_range by (fold o; lia).
    fold o. replace (o + - p) with (o - p) by lia. reflexivity. }
  assert (Hsnp : datetime_add_days B (- (1 + p))
                 = Ok (mkDatetime (ord2ymd (o - 1 - p)) (dt_micros B))).
  { unfold datetime_add_days. rewrite add_days_in_range by (fold o; lia).
    fold o. replace (o + - (1 + p)) with (o - 1 - p) by lia. reflexivity. }
  assert (Hto : forall exchange, String.eqb exchange "SnP" = false ->
                target_date_for_fetch B p exchange
                = Ok (mkDatetime (ord2ymd (o - p)) (dt_micros B))).
  { intros exchange Hex. unfold target_date_for_fetch. rewrite Hex. exact Hnse. }
  assert (Htn : target_date_for_fetch B p "NSE"
                = Ok (mkDatetime (ord2ymd (o - p)) (dt_micros B)))
    by (apply Hto; reflexivity).
  assert (Hts : target_date_for_fetch B p "SnP"
                = Ok (mkDatetime (ord2ymd (o - 1 - p)) (dt_micros B))).
  { unfold target_date_for_fetch.
    change (String.eqb "SnP" "SnP") with true. cbv iota.
    unfold datetime_add_days at 1.
    rewrite add_days_in_range by (fold o; lia). fold o.
    cbv beta iota delta [rbind].
    unfold datetime_add_days. simpl dt_date. simpl dt_micros.
    replace (o + -1) with (o - 1) by lia.
    rewrite add_days_in_range; rewrite ord_roundtrip by lia; [|lia].
    replace (o - 1 + - p) with (o - 1 - p) by lia. reflexivity. }
  assert (Ho1 : ymd2ord (ord2ymd (o - p)) = o - p) by (apply ord_roundtrip; lia).
  assert (Ho2 : ymd2ord (ord2ymd (o - 1 - p)) = o - 1 - p)
    by (apply ord_roundtrip; lia).
  simpl dt_date. simpl dt_micros.
  repeat split; try assumption; lia.
Qed.

(** *** The batch loop *)

Lemma for_each_app {S A} (l1 l2 : list A) (body : A -> M S unit) (s : S) :
  for_each (l1 ++ l2) body s = (for_each l1 body ;;; for_each l2 body) s.
Proof.
  revert s; induction l1 as [|x l1 IH]; intros s; simpl.
  - reflexivity.
  - unfold bind in *. destruct (body x s) as [[[]|e] s']; [apply IH | reflexivity].
Qed.

Lemma slices_cover {A} (l : list A) (m : nat) :
  concat (map (fun i => slice l i (i + 20)) (map (fun k => (k * 20)%nat) (seq 0 m)))
  = take (m * 20) l.
Proof.
  induction m as [|m IH].
  - reflexivity.
  - rewrite seq_S, !map_app, concat_app, IH. simpl.
    rewrite app_nil_r. unfold slice.
    replace (m * 20 + 20 - m * 20)%nat with 20%nat by lia.
    rewrite take_take_drop. f_equal. lia.
Qed.

(** The batches, put end to end, are the symbol list. *)
Lemma batches_cover {A} (l : list A) :
  concat (map (fun i => slice l i (i + 20)) (py_range (length l) 20)) = l.
Proof.
  unfold py_range. rewrite slices_cover. apply take_ge.
  pose proof (Nat.div_mod_eq (length l + 20 - 1) 20) as Hdiv.
  pose proof (Nat.mod_upper_bound (length l + 20 - 1) 20) as Hmod.
  lia.
Qed.

Section RunFacts.

Variable history : TickerObj -> string -> string -> string -> result DataFrame.
Variable yf_Ticker : string -> TickerObj.
Variable wall_to_instant : string -> Z -> option Z.
Variable output_folder : string.
Variable base_date_for_run : datetime.
Variable past_days : Z.

Abbreviation step := (run_symbol history yf_Ticker wall_to_instant output_folder
                    base_date_for_run past_days).

(** One symbol changes the world by what it appends and writes, whatever the
    world was. *)
Lemma run_symbol_same entry w1 w2 :
  artifacts w1 = artifacts w2 ->
  same_outcome (step entry w1) (step entry w2).
Proof.
  intros Hart. destruct entry as [symbol exchange].
  unfold run_symbol. run_monad.
  destruct (target_date_for_fetch _ _ _) as [T|]; [|split; [reflexivity|exact Hart]].
  rewrite !fetch_ohlc_data_spec.
  destruct (fetch_request _ _) as [[a b]|].
  - destruct (normalized _ _ _); split; simpl; try reflexivity; congruence.
  - split; simpl; [reflexivity | exact Hart].
Qed.

Lemma for_each_same {A} (body : A -> M world unit) :
  (forall x w1 w2, artifacts w1 = artifacts w2 ->
                   same_outcome (body x w1) (body x w2)) ->
  forall l w1 w2, artifacts w1 = artifacts w2 ->
                  same_outcome (for_each l body w1) (for_each l body w2).
Proof.
  intros Hbody l. induction l as [|x l IH]; intros w1 w2 Hart; simpl.
  - split; [reflexivity | exact Hart].
  - unfold bind. destruct (Hbody x w1 w2 Hart) as [Hr Ha].
    destruct (body x w1) as [[[]|e1] w1'], (body x w2) as [[[]|e2] w2'];
      simpl in Hr, Ha; try discriminate.
    + apply IH. exact Ha.
    + split; [exact Hr | exact Ha].
Qed.

Lemma run_batch_same n k b w1 w2 :
  artifacts w1 = artifacts w2 ->
  same_outcome
    (run_batch history yf_Ticker wall_to_instant output_folder
       base_date_for_run past_days n (k, b) w1)
    (for_each b step w2).
Proof.
  intros Hart. unfold run_batch. run_monad.
  destruct (0 <? k)%nat;
    apply (for_each_same step run_symbol_same); exact Hart.
Qed.

(** The loop over the batches does to the artifacts what a single loop over
    their symbols does. *)
Lemma batches_flatten n (bs : list (list (string * string))) :
  forall k w1 w2, artifacts w1 = artifacts w2 ->
    same_outcome
      (for_each (combine (seq k (length bs)) bs)
         (run_batch history yf_Ticker wall_to_instant output_folder
            base_date_for_run past_days n) w1)
      (for_each (concat bs) step w2).
Proof.
  induction bs as [|b bs IH]; intros k w1 w2 Hart;
    cbn [for_each combine seq length concat].
  - split; [reflexivity | exact Hart].
  - rewrite for_each_app. unfold bind.
    destruct (run_batch_same n k b w1 w2 Hart) as [Hr Ha].
    destruct (run_batch _ _ _ _ _ _ _ _ w1) as [[[]|e1] u1],
             (for_each b step w2) as [[[]|e2] u2];
      simpl in Hr, Ha; try discriminate.
    + apply IH. exact Ha.
    + split; [exact Hr | exact Ha].
Qed.

Lemma run_flatten symbols w :
  same_outcome
    (run history yf_Ticker wall_to_instant symbols output_folder
       base_date_for_run past_days w)
    (for_each symbols step w).
Proof.
  unfold run, enumerate. run_monad.
  match goal with
  | |- context [for_each (combine (seq 0 (length ?bs)) ?bs) (run_batch _ _ _ _ _ _ ?n) ?w1] =>
      pose proof (batches_flatten n bs 0%nat w1 w eq_refl) as [Hr Ha];
      destruct (for_each (combine (seq 0 (length bs)) bs)
                  (run_batch history yf_Ticker wall_to_instant output_folder
                     base_date_for_run past_days n) w1) as [[[]|e1] u1]
  end.
  all: rewrite batches_cover in Hr, Ha.
  all: destruct (for_each symbols step w) as [[[]|e2] u2];
    simpl in Hr, Ha; try discriminate; split; simpl; assumption.
Qed.

(** The provider is asked for the day of [target_date_for_fetch]: one query,
    from that day to the next. *)
Lemma run_symbol_queries_target symbol exchange T T1 w :
  target_date_for_fetch base_date_for_run past_days exchange = Ok T ->
  valid_date (dt_date T) ->
  add_days (dt_date T) 1 = Ok T1 ->
  exists r w' tr,
    step (symbol, exchange) w = (r, w')
    /\ trace w'
       = trace w
         ++ History (yf_Ticker symbol) (strftime T) (strftime_date T1) "1m" :: tr.
Proof.
  intros HT Hvalid Hnext. unfold run_symbol. run_monad. rewrite HT.
  rewrite fetch_ohlc_data_spec. unfold fetch_request.
  rewrite String.eqb_refl. unfold strftime at 1.
  rewrite (strptime_strftime _ Hvalid).
  unfold datetime_add_days. simpl dt_date. rewrite Hnext.
  cbv beta iota delta [rbind]. unfold strftime at 2. simpl dt_date.
  destruct (normalized _ _ _) as [df|]; simpl.
  - eexists _, _, [_; _]. split; [reflexivity|]. simpl.
    rewrite <- !app_assoc. reflexivity.
  - eexists _, _, [_]. split; [reflexivity|]. simpl.
    rewrite <- !app_assoc. reflexivity.
Qed.

Lemma same_outcome_trans {A} (x y z : result A * world) :
  same_outcome x y -> same_outcome y z -> same_outcome x z.
Proof. intros [H1 H2] [H3 H4]. split; congruence. Qed.

Lemma same_outcome_sym {A} (x y : result A * world) :
  same_outcome x y -> same_outcome y x.
Proof. intros [H1 H2]. split; congruence. Qed.

Lemma no_data_normalized t :
  no_data history t ->
  forall a b i, normalized wall_to_instant t (history t a b i) = None.
Proof.
  intros Hnone a b i. specialize (Hnone a b i). unfold normalized.
  destruct (history t a b i) as [df|]; [|reflexivity].
  rewrite Hnone. reflexivity.
Qed.

Lemma run_symbol_no_data symbol exchange T w :
  no_data history (yf_Ticker symbol) ->
  target_date_for_fetch base_date_for_run past_days exchange = Ok T ->
  exists tr,
    step (symbol, exchange) w = (Ok tt, mkWorld (artifacts w) (trace w ++ tr))
    /\ written tr = [].
Proof.
  intros Hnone HT. unfold run_symbol. run_monad. rewrite HT.
  rewrite fetch_ohlc_data_spec.
  destruct (fetch_request _ _) as [[a b]|].
  - rewrite no_data_normalized by exact Hnone. simpl.
    exists [History (yf_Ticker symbol) a b "1m"; Sleep 1].
    rewrite <- app_assoc. split; reflexivity.
  - exists [Sleep 1]. split; reflexivity.
Qed.

(** C8. A symbol whose fetch raises or comes back empty yields no data, has
    no artifact written, and the batch and the run go on with the next
    symbol. *)
Theorem failed_fetch_is_skipped (symbol exchange : string) (T : datetime) :
  no_data history (yf_Ticker symbol) ->
  target_date_for_fetch base_date_for_run past_days exchange = Ok T ->
  (forall s e w,
      exists w', fetch_ohlc_data history wall_to_instant (yf_Ticker symbol) s e w
                 = (Ok None, w')
                 /\ artifacts w' = artifacts w)
  /\ (forall w,
        exists tr,
          step (symbol, exchange) w = (Ok tt, mkWorld (artifacts w) (trace w ++ tr))
          /\ written tr = [])
  /\ (forall rest w,
        same_outcome (for_each ((symbol, exchange) :: rest) step w)
                     (for_each rest step w))
  /\ (forall before after w,
        same_outcome
          (run history yf_Ticker wall_to_instant
             (before ++ (symbol, exchange) :: after) output_folder
             base_date_for_run past_days w)
          (run history yf_Ticker wall_to_instant
             (before ++ after) output_folder base_date_for_run past_days w)).
Proof.
  intros Hnone HT.
  assert (Hskip : forall rest w,
             same_outcome (for_each ((symbol, exchange) :: rest) step w)
                          (for_each rest step w)).
  { intros rest w. cbn [for_each]. unfold bind.
    destruct (run_symbol_no_data symbol exchange T w Hnone HT) as (tr & -> & _).
    apply (for_each_same step run_symbol_same). reflexivity. }
  split; [|split; [|split]].
  - intros s e w. rewrite fetch_ohlc_data_spec.
    destruct (fetch_request s e) as [[a b]|].
    + rewrite no_data_normalized by exact Hnone. eexists; split; reflexivity.
    + eexists; split; reflexivity.
  - intros w. exact (run_symbol_no_data symbol exchange T w Hnone HT).
  - exact Hskip.
  - intros before after w.
    eapply same_outcome_trans; [apply run_flatten|].
    eapply same_outcome_trans; [|apply same_outcome_sym, run_flatten].
    rewrite !for_each_app. unfold bind.
    destruct (for_each before step w) as [[[]|e1] w1].
    + apply Hskip.
    + split; reflexivity.
Qed.

End RunFacts.

End FetcherFacts.

(** ** Frames *)

Module FrameFacts.
Import Frame.

Ltac eqb_to_prop :=
  repeat match goal with
         | H : String.eqb _ _ = true |- _ => apply String.eqb_eq in H
         | H : String.eqb _ _ = false |- _ => apply String.eqb_neq in H
         end.

Lemma dict_get_absent {A} (d : list (string * A)) (k : string) :
  ~ In k (map fst d) -> dict_get d k = None.
Proof.
  induction d as [|[k' v] d IH]; simpl; intros Hnot; [reflexivity|].
  destruct (String.eqb_spec k k') as [->|Hne]; [tauto|].
  apply IH. tauto.
Qed.

Lemma dict_get_present {A} (d : list (string * A)) (k : string) (v : A) :
  dict_get d k = Some v -> In k (map fst d).
Proof.
  induction d as [|[k' v'] d IH]; simpl; [discriminate|].
  destruct (String.eqb_spec k k') as [->|Hne]; [auto|].
  intros H. right. apply IH. exact H.
Qed.

Lemma has_column_lookup df c :
  has_column df c
  = match dict_get (df_columns df) c with Some _ => true | None => false end.
Proof.
  unfold has_column, columns.
  induction (df_columns df) as [|[k v] l IH]; simpl; [reflexivity|].
  destruct (String.eqb c k); [reflexivity | exact IH].
Qed.

Lemma has_column_false df c : has_column df c = false -> ~ In c (columns df).
Proof.
  unfold has_column. intros H Hin.
  assert (existsb (String.eqb c) (columns df) = true)
    by (apply existsb_exists; exists c; split; [exact Hin | apply String.eqb_refl]).
  congruence.
Qed.

(** Without repeated labels, a label selects at most one column. *)
Lemma labelled_lookup df c :
  NoDup (columns df) ->
  labelled df c
  = match dict_get (df_columns df) c with Some v => [(c, v)] | None => [] end.
Proof.
  unfold labelled, columns.
  induction (df_columns df) as [|[k v] l IH]; simpl; intros Hnd; [reflexivity|].
  apply NoDup_cons in Hnd as [Hk Hnd].
  rewrite list_elem_of_In in Hk.
  rewrite (String.eqb_sym k c).
  destruct (String.eqb_spec c k) as [->|Hne].
  - rewrite (IH Hnd), (dict_get_absent l k Hk). reflexivity.
  - apply IH. exact Hnd.
Qed.

Lemma nrows_set_column df c data : nrows (set_column df c data) = nrows df.
Proof. unfold set_column. destruct (has_column df c); reflexivity. Qed.

Lemma columns_set_column df c data :
  columns (set_column df c data)
  = if has_column df c then columns df else columns df ++ [c].
Proof.
  unfold set_column, columns. destruct (has_column df c); simpl.
  - rewrite map_map. apply map_ext. intros [k v]. simpl.
    destruct (String.eqb k c); reflexivity.
  - rewrite map_app. reflexivity.
Qed.

Lemma NoDup_set_column df c data :
  NoDup (columns df) -> NoDup (columns (set_column df c data)).
Proof.
  intros Hnd. rewrite columns_set_column.
  destruct (has_column df c) eqn:Hc; [exact Hnd|].
  apply has_column_false in Hc.
  apply NoDup_app. repeat split.
  - exact Hnd.
  - intros x Hx Hx'. apply list_elem_of_In in Hx. apply list_elem_of_In in Hx'.
    destruct Hx' as [<-|[]]. tauto.
  - apply NoDup_singleton.
Qed.

Lemma lookup_replace (l : list (string * list cell)) c data c' :
  dict_get
    (map (fun p => if String.eqb (fst p) c then (fst p, data) else p) l) c'
  = if String.eqb c' c
    then match dict_get l c with Some _ => Some data | None => None end
    else dict_get l c'.
Proof.
  induction l as [|[k v] l IH]; simpl.
  - destruct (String.eqb c' c); reflexivity.
  - destruct (String.eqb k c) eqn:Hkc; simpl; rewrite IH; clear IH;
      destruct (String.eqb c' k) eqn:Hck;
      destruct (String.eqb c' c) eqn:Hcc;
      destruct (String.eqb c k) eqn:Hck';
      try reflexivity; exfalso;
      repeat match goal with
             | H : String.eqb _ _ = true |- _ => apply String.eqb_eq in H
             | H : String.eqb _ _ = false |- _ => apply String.eqb_neq in H
             end; congruence.
Qed.

Lemma lookup_append (l : list (string * list cell)) c data c' :
  dict_get (l ++ [(c, data)]) c'
  = match dict_get l c' with
    | Some v => Some v
    | None => if String.eqb c' c then Some data else None
    end.
Proof.
  induction l as [|[k v] l IH]; simpl; [reflexivity|].
  destruct (String.eqb c' k); [reflexivity | exact IH].
Qed.

Lemma lookup_set_column df c data c' :
  dict_get (df_columns (set_column df c data)) c'
  = if String.eqb c' c then Some data else dict_get (df_columns df) c'.
Proof.
  unfold set_column. rewrite has_column_lookup.
  destruct (dict_get (df_columns df) c) as [v|] eqn:Hc; simpl.
  - rewrite lookup_replace, Hc. reflexivity.
  - rewrite lookup_append.
    destruct (String.eqb_spec c' c) as [->|Hne].
    + rewrite Hc. reflexivity.
    + destruct (dict_get (df_columns df) c'); reflexivity.
Qed.

(** Selecting present labels from a frame without repeated labels gives
    exactly those columns, in the order asked. *)
Lemma select_columns_present df labels :
  NoDup (columns df) ->
  (forall c, In c labels -> has_column df c = true) ->
  select_columns df labels
  = Ok (map (fun c => (c, match dict_get (df_columns df) c with
                          | Some v => v
                          | None => []
                          end)) labels).
Proof.
  intros Hnd. induction labels as [|c labels IH]; intros Hall; simpl.
  - reflexivity.
  - rewrite (labelled_lookup df c Hnd).
    pose proof (Hall c (or_introl eq_refl)) as Hc.
    rewrite has_column_lookup in Hc.
    destruct (dict_get (df_columns df) c) as [v|]; [|discriminate].
    rewrite IH by (intros c' Hc'; apply Hall; right; exact Hc').
    reflexivity.
Qed.

End FrameFacts.

(** ** The loader *)

Module LoaderFacts.
Import PyStr Frame Loader LoaderAux FrameFacts.

(** Running the monad's combinators. *)
Ltac run_loader :=
  cbv beta iota zeta
      delta [bind lift ret raise modify Loader.print commit close
             insert_stock_data].

(** *** The conflict-safe insert *)

Lemma has_key_app tbl r k :
  has_key tbl k = true -> has_key (tbl ++ [r]) k = true.
Proof.
  unfold has_key. rewrite existsb_app. intros ->. reflexivity.
Qed.

Lemma has_key_last tbl r k :
  key_of r = Ok k -> has_key (tbl ++ [r]) k = true.
Proof.
  intros Hk. unfold has_key. rewrite existsb_app. simpl. rewrite Hk.
  rewrite bool_decide_true by reflexivity. apply orb_true_iff. right. reflexivity.
Qed.

Lemma insert_row_keeps stmt tbl r tbl' :
  insert_row stmt tbl r = Ok tbl' ->
  (forall k, has_key tbl k = true -> has_key tbl' k = true)
  /\ exists k, key_of r = Ok k /\ has_key tbl' k = true.
Proof.
  unfold insert_row. destruct (key_of r) as [k|] eqn:Hk; simpl; [|discriminate].
  destruct (has_key tbl k) eqn:Hin.
  - destruct (on_conflict_do_nothing stmt); [|discriminate].
    intros [= <-]. split; [auto|]. exists k. auto.
  - intros [= <-]. split.
    + intros k' Hk'. apply has_key_app. exact Hk'.
    + exists k. split; [reflexivity|]. apply has_key_last. exact Hk.
Qed.

Lemma insert_rows_covered stmt data :
  forall tbl tbl',
    insert_rows stmt tbl data = Ok tbl' ->
    (forall k, has_key tbl k = true -> has_key tbl' k = true)
    /\ Forall (keyed_in tbl') data.
Proof.
  induction data as [|r data IH]; intros tbl tbl' H; simpl in H.
  - injection H as <-. split; [auto | constructor].
  - destruct (insert_row stmt tbl r) as [tbl1|] eqn:Hrow; simpl in H; [|discriminate].
    destruct (insert_row_keeps _ _ _ _ Hrow) as [Hmono (k & Hk & Hin)].
    destruct (IH _ _ H) as [Hmono' Hall].
    split; [auto|]. constructor; [|exact Hall].
    exists k. auto.
Qed.

(** Rows whose keys are all taken leave the table as it is. *)
Lemma insert_rows_noop stmt cols data tbl :
  on_conflict_do_nothing stmt = Some cols ->
  Forall (keyed_in tbl) data ->
  insert_rows stmt tbl data = Ok tbl.
Proof.
  intros Hstmt Hall. induction Hall as [|r data (k & Hk & Hin) _ IH]; simpl.
  - reflexivity.
  - unfold insert_row. rewrite Hk. simpl. rewrite Hin, Hstmt. simpl. exact IH.
Qed.

(** C1. Loading a batch of rows a second time stores nothing new: the insert
    is issued with [ON CONFLICT (stock_symbol, date_time) DO NOTHING], and a
    row whose key is already stored changes nothing. *)
Theorem reload_is_idempotent (data : list row) (s s1 : session) :
  insert_stock_data data s = (Ok tt, s1) ->
  insert_stock_data data s1 = (Ok tt, s1)
  /\ on_conflict_do_nothing insert_query = Some ["stock_symbol"; "date_time"]
  /\ (forall r, keyed_in (working s) r ->
                insert_row insert_query (working s) r = Ok (working s)).
Proof.
  intros Hfirst. split; [|split].
  - revert Hfirst. unfold insert_stock_data, execute_values.
    change (bool_decide (into_table insert_query = "stock_data")
            && bool_decide (into_columns insert_query = stock_data_columns)
            && match on_conflict_do_nothing insert_query with
               | Some cols => bool_decide (cols = stock_data_primary_key)
               | None => true
               end) with true.
    cbv iota.
    destruct (insert_rows insert_query (working s) data) as [tbl|] eqn:Hrows;
      [|discriminate].
    intros [= <-]. simpl.
    destruct (insert_rows_covered _ _ _ _ Hrows) as [_ Hall].
    rewrite (insert_rows_noop insert_query _ data tbl eq_refl Hall).
    reflexivity.
  - reflexivity.
  - intros r (k & Hk & Hin). unfold insert_row. rewrite Hk. simpl.
    rewrite Hin. reflexivity.
Qed.

(** *** Reshaping to the storage schema *)

Lemma columns_rename mapping df :
  columns (rename mapping df) = map (rename_label mapping) (columns df).
Proof. unfold columns, rename. simpl. rewrite !map_map. reflexivity. Qed.

Lemma nrows_fill_missing df c : nrows (fill_missing df c) = nrows df.
Proof.
  unfold fill_missing, set_scalar.
  destruct (negb (has_column df c)); [apply nrows_set_column | reflexivity].
Qed.

Lemma NoDup_fill_missing df c :
  NoDup (columns df) -> NoDup (columns (fill_missing df c)).
Proof.
  unfold fill_missing, set_scalar. intros Hnd.
  destruct (negb (has_column df c)); [apply NoDup_set_column|]; exact Hnd.
Qed.

Lemma lookup_fill_missing df c c' :
  dict_get (df_columns (fill_missing df c)) c'
  = if String.eqb c' c
    then Some (match dict_get (df_columns df) c with
               | Some v => v
               | None => repeat (CFloat 0) (nrows df)
               end)
    else dict_get (df_columns df) c'.
Proof.
  unfold fill_missing, set_scalar. rewrite has_column_lookup.
  destruct (dict_get (df_columns df) c) as [v|] eqn:Hc; simpl.
  - destruct (String.eqb_spec c' c) as [->|]; [exact Hc | reflexivity].
  - apply lookup_set_column.
Qed.

Section Clean.

Variable to_datetime : cell -> result cell.

(** C7. Reshaping an artifact frame fills a missing [dividends] or
    [stock_splits] column with zero and a missing [stock_exchange] column
    with the empty marker, and returns the columns in the storage order. *)
Theorem clean_dataframe_fills_defaults
    (df : DataFrame) (stock_symbol : string) (col stamps : list cell) :
  let df0 := rename column_renames df in
  NoDup (columns df0) ->
  (forall c, In c ["open"; "high"; "low"; "close"; "volume"] ->
             has_column df0 c = true) ->
  dict_get (df_columns df0) "date_time" = Some col ->
  pd_to_datetime to_datetime col = Ok stamps ->
  exists out,
    clean_dataframe to_datetime df stock_symbol = Ok out
    /\ columns out = canonical_columns
    /\ (has_column df0 "dividends" = false ->
        dict_get (df_columns out) "dividends"
        = Some (repeat (CFloat 0) (nrows df)))
    /\ (has_column df0 "stock_splits" = false ->
        dict_get (df_columns out) "stock_splits"
        = Some (repeat (CFloat 0) (nrows df)))
    /\ (has_column df0 "stock_exchange" = false ->
        dict_get (df_columns out) "stock_exchange"
        = Some (repeat CNull (nrows df))).
Proof.
  intros df0 Hnd Hprices Hdt Hconv.
  unfold clean_dataframe. fold df0. cbn [fold_left].
  set (df1 := fill_missing df0 "dividends").
  set (df2 := fill_missing df1 "stock_splits").
  set (df3 := if negb (has_column df2 "stock_exchange")
              then set_scalar df2 "stock_exchange" CNull else df2).
  assert (Hn0 : nrows df0 = nrows df) by reflexivity.
  assert (Hn2 : nrows df2 = nrows df)
    by (subst df2 df1; rewrite !nrows_fill_missing; exact Hn0).
  assert (Hnd2 : NoDup (columns df2))
    by (subst df2 df1; apply NoDup_fill_missing, NoDup_fill_missing, Hnd).
  assert (Hl2 : forall c',
             dict_get (df_columns df2) c'
             = if String.eqb c' "stock_splits"
               then Some (match dict_get (df_columns df0) "stock_splits" with
                          | Some v => v
                          | None => repeat (CFloat 0) (nrows df)
                          end)
               else if String.eqb c' "dividends"
                    then Some (match dict_get (df_columns df0) "dividends" with
                               | Some v => v
                               | None => repeat (CFloat 0) (nrows df)
                               end)
                    else dict_get (df_columns df0) c').
  { intros c'. subst df2 df1. rewrite !lookup_fill_missing.
    rewrite nrows_fill_missing, Hn0.
    change (String.eqb "stock_splits" "dividends") with false. cbv iota.
    reflexivity. }
  assert (Hn3 : nrows df3 = nrows df).
  { subst df3. destruct (negb _); [unfold set_scalar; rewrite nrows_set_column|];
      exact Hn2. }
  assert (Hnd3 : NoDup (columns df3)).
  { subst df3. destruct (negb _); [apply NoDup_set_column|]; exact Hnd2. }
  assert (Hl3 : forall c',
             dict_get (df_columns df3) c'
             = if String.eqb c' "stock_exchange"
               then Some (match dict_get (df_columns df0) "stock_exchange" with
                          | Some v => v
                          | None => repeat CNull (nrows df)
                          end)
               else dict_get (df_columns df2) c').
  { intros c'. subst df3. rewrite has_column_lookup, Hl2.
    change (String.eqb "stock_exchange" "stock_splits") with false.
    change (String.eqb "stock_exchange" "dividends") with false. cbv iota.
    destruct (dict_get (df_columns df0) "stock_exchange") as [v|] eqn:Hx; simpl.
    - destruct (String.eqb_spec c' "stock_exchange") as [->|]; [|reflexivity].
      rewrite Hl2. exact Hx.
    - unfold set_scalar. rewrite lookup_set_column, Hn2. reflexivity. }
  rewrite (labelled_lookup df3 "date_time" Hnd3), Hl3, Hl2.
  change (String.eqb "date_time" "stock_exchange") with false.
  change (String.eqb "date_time" "stock_splits") with false.
  change (String.eqb "date_time" "dividends") with false. cbv iota.
  rewrite Hdt, Hconv. cbv beta iota delta [rbind].
  set (df4 := set_column df3 "date_time" stamps).
  set (df5 := set_scalar df4 "stock_symbol" (CStr stock_symbol)).
  assert (Hnd5 : NoDup (columns df5))
    by (subst df5 df4; unfold set_scalar; apply NoDup_set_column, NoDup_set_column, Hnd3).
  assert (Hl5 : forall c',
             dict_get (df_columns df5) c'
             = if String.eqb c' "stock_symbol"
               then Some (repeat (CStr stock_symbol) (nrows df))
               else if String.eqb c' "date_time" then Some stamps
                    else dict_get (df_columns df3) c').
  { intros c'. subst df5 df4. unfold set_scalar.
    rewrite !lookup_set_column, nrows_set_column, Hn3. reflexivity. }
  assert (Hhas : forall c, In c canonical_columns -> has_column df5 c = true).
  { intros c Hc. rewrite has_column_lookup, Hl5, Hl3, Hl2.
    assert (Hp : forall c0, In c0 ["open"; "high"; "low"; "close"; "volume"] ->
                 exists v, dict_get (df_columns df0) c0 = Some v).
    { intros c0 Hc0. specialize (Hprices c0 Hc0).
      rewrite has_column_lookup in Hprices.
      destruct (dict_get (df_columns df0) c0) as [v|]; [eauto | discriminate]. }
    simpl in Hc.
    repeat (destruct Hc as [<-|Hc]; [try reflexivity|]); try contradiction.
    all: cbn [String.eqb Ascii.eqb Bool.eqb].
    all: match goal with
         | |- context [dict_get (df_columns ?d) ?c0] =>
             destruct (Hp c0) as [v ->]; [simpl; tauto | reflexivity]
         end. }
  unfold canonical_columns in Hhas.
  unfold select. rewrite (select_columns_present df5 _ Hnd5 Hhas).
  cbv beta iota delta [rbind].
  eexists. split; [reflexivity|]. split; [reflexivity|].
  cbn [df_columns map dict_get String.eqb Ascii.eqb Bool.eqb].
  rewrite !Hl5, !Hl3, !Hl2.
  cbn [String.eqb Ascii.eqb Bool.eqb].
  repeat split; intros Habs; rewrite has_column_lookup in Habs;
    match type of Habs with
    | context [dict_get (df_columns ?d) ?c0] =>
        destruct (dict_get (df_columns d) c0); [discriminate | reflexivity]
    end.
Qed.

End Clean.

Lemma labelled_set_column df c data p :
  In p (labelled (set_column df c data) c) -> snd p = data.
Proof.
  unfold labelled, set_column. intros Hin.
  apply filter_In in Hin as [Hin Hc].
  destruct (has_column df c) eqn:Hhas; simpl in Hin.
  - apply in_map_iff in Hin as (q & <- & _).
    destruct (String.eqb (fst q) c) eqn:Hq; [reflexivity|].
    rewrite Hq in Hc. discriminate.
  - apply in_app_iff in Hin as [Hin|[<-|[]]]; [|reflexivity].
    apply has_column_false in Hhas. exfalso. apply Hhas.
    apply String.eqb_eq in Hc. subst c.
    unfold columns. apply in_map. exact Hin.
Qed.

Lemma nth_repeat_lt {A} (x d : A) (n i : nat) :
  (i < n)%nat -> nth i (repeat x n) d = x.
Proof.
  revert i; induction n as [|n IH]; intros i Hi; [lia|].
  destruct i as [|i]; simpl; [reflexivity|]. apply IH. lia.
Qed.

(** Every row handed to the insert carries the identity the frame was
    cleaned with. *)
Lemma cleaned_rows_carry_symbol to_datetime timestamp_item df stock_symbol out :
  clean_dataframe to_datetime df stock_symbol = Ok out ->
  Forall (fun r : row => head r = Some (CStr stock_symbol))
         (prepare_data_for_insert timestamp_item out).
Proof.
  unfold clean_dataframe. cbn [fold_left].
  match goal with
  | |- rbind ?x _ = _ -> _ => destruct x as [stamps|]; [|discriminate]
  end.
  cbv beta iota delta [rbind].
  match goal with
  | |- select (set_scalar ?d _ _) _ = _ -> _ => set (df4 := d)
  end.
  unfold select. cbn [select_columns].
  destruct (labelled (set_scalar df4 "stock_symbol" (CStr stock_symbol)) "stock_symbol")
    as [|p0 ps] eqn:Hlab; [discriminate|].
  match goal with
  | |- rbind (rbind ?x _) _ = _ -> _ => destruct x as [more|]; [|discriminate]
  end.
  cbv beta iota delta [rbind]. intros [= <-].
  assert (Hp0 : snd p0 = repeat (CStr stock_symbol) (nrows df4)).
  { apply (labelled_set_column df4 "stock_symbol").
    unfold set_scalar in Hlab. rewrite Hlab. left. reflexivity. }
  unfold prepare_data_for_insert, to_records, nrows. cbn [df_index df_columns].
  change (index_length (df_index (set_scalar df4 "stock_symbol" (CStr stock_symbol))))
    with (nrows (set_scalar df4 "stock_symbol" (CStr stock_symbol))).
  unfold set_scalar at 1. rewrite nrows_set_column.
  apply Forall_forall. intros r Hr.
  apply list_elem_of_In in Hr.
  apply in_map_iff in Hr as (r0 & <- & Hr0).
  apply in_map_iff in Hr0 as (i & <- & Hi).
  apply in_seq in Hi. cbn [app map head].
  rewrite Hp0, nth_repeat_lt by lia. reflexivity.
Qed.


(** *** One artifact *)

Lemma say_nil s : say [] s = s.
Proof. destruct s. unfold say. simpl. rewrite app_nil_r. reflexivity. Qed.

Lemma say_say a b s : say b (say a s) = say (a ++ b) s.
Proof. unfold say. simpl. rewrite app_assoc. reflexivity. Qed.

Section Environment.

Variable path_exists : string -> bool.
Variable json_load : string -> result json.
Variable read_csv : string -> result DataFrame.
Variable to_datetime : cell -> result cell.
Variable timestamp_item : Z -> cell.

Lemma resolve_symbol_spec file_path s :
  resolve_symbol path_exists json_load file_path s
  = (snd (resolution path_exists json_load file_path),
     say (fst (resolution path_exists json_load file_path)) s).
Proof.
  unfold resolve_symbol, resolution. run_loader.
  destruct (path_exists _); [|simpl; rewrite say_nil; reflexivity].
  destruct (json_load _) as [info|e].
  - simpl. rewrite say_nil. reflexivity.
  - destruct e; simpl; rewrite ?say_nil; reflexivity.
Qed.

Lemma process_single_file_spec file_path s :
  process_single_file path_exists json_load read_csv to_datetime timestamp_item
    file_path s
  = match plan path_exists json_load read_csv to_datetime timestamp_item file_path with
    | (msgs, Raise e) => (Raise e, say msgs s)
    | (msgs, Ok None) => (Ok false, say msgs s)
    | (msgs, Ok (Some (stock_symbol, data))) =>
        match insert_rows insert_query (working s) data with
        | Ok tbl =>
            (Ok true,
             mkSession (committed s) tbl
               (stdout s ++ msgs ++ [MsgInserted file_path stock_symbol]))
        | Raise e => (Raise e, say msgs s)
        end
    end.
Proof.
  unfold process_single_file, plan.
  unfold bind at 1. rewrite resolve_symbol_spec.
  destruct (resolution path_exists json_load file_path) as [msgs [j|e]];
    cbn [fst snd]; [|reflexivity].
  run_loader.
  destruct (read_csv file_path) as [df|e]; [|reflexivity].
  destruct (empty df).
  - rewrite <- say_say. reflexivity.
  - destruct j; try reflexivity.
    destruct (clean_dataframe to_datetime df s0) as [cdf|e]; [|reflexivity].
    unfold execute_values.
    change (bool_decide (into_table insert_query = "stock_data")
            && bool_decide (into_columns insert_query = stock_data_columns)
            && match on_conflict_do_nothing insert_query with
               | Some cols => bool_decide (cols = stock_data_primary_key)
               | None => true
               end) with true.
    cbv iota. cbn [working say committed stdout].
    destruct (insert_rows insert_query (working s) _) as [tbl|e]; [|reflexivity].
    rewrite app_assoc. reflexivity.
Qed.

(** The parts of the sidecar rule that hold as written. *)

Lemma sidecar_symbol_is_used file_path members descriptive_symbol s :
  path_exists (replace file_path "_daily_ohlc.csv" "_info.json") = true ->
  json_load (replace file_path "_daily_ohlc.csv" "_info.json") = Ok (JObject members) ->
  dict_get members "descriptive_symbol" = Some descriptive_symbol ->
  resolve_symbol path_exists json_load file_path s = (Ok descriptive_symbol, s).
Proof.
  intros Hex Hload Hkey. rewrite resolve_symbol_spec. unfold resolution.
  rewrite Hex, Hload. simpl. rewrite Hkey, say_nil. reflexivity.
Qed.

Lemma sidecar_syntax_error_falls_back file_path s :
  path_exists (replace file_path "_daily_ohlc.csv" "_info.json") = true ->
  json_load (replace file_path "_daily_ohlc.csv" "_info.json") = Raise JSONDecodeError ->
  resolve_symbol path_exists json_load file_path s
  = (Ok (JString (extract_stock_symbol file_path)),
     say [MsgSidecarWarning (replace file_path "_daily_ohlc.csv" "_info.json")
            (extract_stock_symbol file_path)] s).
Proof.
  intros Hex Hload. rewrite resolve_symbol_spec. unfold resolution.
  rewrite Hex, Hload. reflexivity.
Qed.

Lemma sidecar_absent_falls_back file_path s :
  path_exists (replace file_path "_daily_ohlc.csv" "_info.json") = false ->
  resolve_symbol path_exists json_load file_path s
  = (Ok (JString (extract_stock_symbol file_path)), s).
Proof.
  intros Hex. rewrite resolve_symbol_spec. unfold resolution.
  rewrite Hex. simpl. rewrite say_nil. reflexivity.
Qed.

(** A sidecar that parses to anything but an object stops the artifact, and
    the exception is not one the loader catches. *)
Lemma sidecar_not_object_raises file_path info_data s :
  path_exists (replace file_path "_daily_ohlc.csv" "_info.json") = true ->
  json_load (replace file_path "_daily_ohlc.csv" "_info.json") = Ok info_data ->
  (forall members, info_data <> JObject members) ->
  process_single_file path_exists json_load read_csv to_datetime timestamp_item
    file_path s = (Raise AttributeError, s).
Proof.
  intros Hex Hload Hno. rewrite process_single_file_spec.
  unfold plan, resolution. rewrite Hex, Hload.
  destruct info_data; simpl; rewrite ?say_nil; try reflexivity.
  destruct (Hno members). reflexivity.
Qed.

(** C10. A sidecar that parses to an object without [descriptive_symbol]
    makes the loader use the base symbol of the artifact name, without a
    warning, and the rows are stored under that base symbol. *)
Theorem sidecar_without_key_uses_base
    (file_path : string) (members : list (string * json)) (s : session) :
  let info_file_path := replace file_path "_daily_ohlc.csv" "_info.json" in
  let base_symbol := extract_stock_symbol file_path in
  path_exists info_file_path = true ->
  json_load info_file_path = Ok (JObject members) ->
  dict_get members "descriptive_symbol" = None ->
  resolve_symbol path_exists json_load file_path s = (Ok (JString base_symbol), s)
  /\ (forall r s',
        process_single_file path_exists json_load read_csv to_datetime
          timestamp_item file_path s = (r, s') ->
        (exists msgs,
            stdout s' = stdout s ++ msgs
            /\ forall a b, ~ In (MsgSidecarWarning a b) msgs)
        /\ (r = Ok true ->
            exists data,
              insert_rows insert_query (working s) data = Ok (working s')
              /\ Forall (fun row : row => head row = Some (CStr base_symbol)) data
              /\ stdout s' = stdout s ++ [MsgInserted file_path base_symbol]))
  /\ (forall df cleaned_df tbl,
        read_csv file_path = Ok df ->
        empty df = false ->
        clean_dataframe to_datetime df base_symbol = Ok cleaned_df ->
        insert_rows insert_query (working s)
          (prepare_data_for_insert timestamp_item cleaned_df) = Ok tbl ->
        process_single_file path_exists json_load read_csv to_datetime
          timestamp_item file_path s
        = (Ok true,
           mkSession (committed s) tbl
             (stdout s ++ [MsgInserted file_path base_symbol]))).
Proof.
  intros info_file_path base_symbol Hex Hload Hkey.
  assert (Hres : resolution path_exists json_load file_path
                 = ([], Ok (JString base_symbol))).
  { unfold resolution. fold info_file_path base_symbol.
    rewrite Hex, Hload. simpl. rewrite Hkey. reflexivity. }
  split; [|split].
  - rewrite resolve_symbol_spec, Hres. simpl. rewrite say_nil. reflexivity.
  - intros r s'. rewrite process_single_file_spec. unfold plan. rewrite Hres.
    destruct (read_csv file_path) as [df|e].
    + destruct (empty df).
      * intros [= <- <-]. split; [|discriminate].
        exists [MsgEmptyFile file_path]. split; [reflexivity|].
        intros a b [Hin|[]]. discriminate.
      * destruct (clean_dataframe to_datetime df base_symbol) as [cdf|e] eqn:Hclean.
        -- destruct (insert_rows _ _ _) as [tbl|e] eqn:Hins.
           ++ intros [= <- <-]. split.
              ** exists [MsgInserted file_path base_symbol]. split; [reflexivity|].
                 intros a b [Hin|[]]. discriminate.
              ** intros _. eexists. split; [exact Hins|]. split; [|reflexivity].
                 apply (cleaned_rows_carry_symbol _ _ _ _ _ Hclean).
           ++ intros [= <- <-]. split; [|discriminate].
              exists []. split; [reflexivity | intros a b []].
        -- intros [= <- <-]. split; [|discriminate].
           exists []. split; [reflexivity | intros a b []].
    + intros [= <- <-]. split; [|discriminate].
      exists []. split; [reflexivity | intros a b []].
  - intros df cdf tbl Hread Hne Hclean Hins.
    rewrite process_single_file_spec. unfold plan.
    rewrite Hres, Hread, Hne, Hclean, Hins. reflexivity.
Qed.

(** Loading the same artifact again stores nothing new. *)
Lemma reload_file_is_idempotent file_path s s1 :
  process_single_file path_exists json_load read_csv to_datetime timestamp_item
    file_path s = (Ok true, s1) ->
  exists s2,
    process_single_file path_exists json_load read_csv to_datetime timestamp_item
      file_path s1 = (Ok true, s2)
    /\ working s2 = working s1 /\ committed s2 = committed s1.
Proof.
  rewrite !process_single_file_spec.
  destruct (plan _ _ _ _ _ _) as [msgs [[[sym data]|]|e]]; try discriminate.
  destruct (insert_rows insert_query (working s) data) as [tbl|e] eqn:Hins;
    [|discriminate].
  intros [= <-]. cbn [working].
  destruct (insert_rows_covered _ _ _ _ Hins) as [_ Hall].
  rewrite (insert_rows_noop insert_query _ data tbl eq_refl Hall).
  eexists. split; [reflexivity|]. split; reflexivity.
Qed.

End Environment.

(** C5. The sidecar rule holds for a sidecar that is absent, that is not
    valid JSON, or that is an object; but a sidecar that is valid JSON and
    not an object is fatal.  Here the sidecar is the text [[]]:
    [info_data.get] raises [AttributeError], which the handler for
    [JSONDecodeError] and [FileNotFoundError] lets through, and the load
    stage ends without storing the artifact. *)
Theorem sidecar_array_is_fatal :
  process_single_file Examples.sidecar_present Examples.sidecar_is_array
    Examples.reads_artifact Examples.parse_timestamp Examples.keep_timestamp
    Examples.artifact_path Examples.fresh_session
  = (Raise AttributeError, Examples.fresh_session)
  /\ main Examples.sidecar_present Examples.sidecar_is_array
       Examples.reads_artifact Examples.parse_timestamp Examples.keep_timestamp
       Examples.one_artifact Examples.fresh_session
     = (Raise AttributeError, Examples.fresh_session).
Proof. split; vm_compute; reflexivity. Qed.

End LoaderFacts.

(** ** The orchestrator *)

Module PipelineFacts.
Import PyStr Pipeline PipelineAux.

Ltac run_pipeline :=
  cbv beta iota zeta delta [bind lift ret raise modify Pipeline.emit].

Lemma append_inj_l (a x y : string) : a +:+ x = a +:+ y -> x = y.
Proof.
  induction a as [|c a IH]; simpl; intros H; [exact H|].
  injection H as H. apply IH. exact H.
Qed.

Lemma stage_paths_differ script_dir :
  path_join script_dir "nifty_ohlc_fetcher.py"
  <> path_join script_dir "send_new_data_to_postgre.py".
Proof.
  unfold path_join.
  change (startswith "nifty_ohlc_fetcher.py" "/") with false.
  change (startswith "send_new_data_to_postgre.py" "/") with false.
  cbv iota.
  destruct ((String.length script_dir =? 0)%nat || endswith script_dir "/");
    intros H; apply append_inj_l in H; discriminate.
Qed.

Section Processes.

Variable script_dir : string.
Variable subprocess_run : string -> completion.

Lemma run_script_spawns_once script_name t :
  exists ok_or_exn t',
    run_script script_dir subprocess_run script_name t = (ok_or_exn, t')
    /\ spawned t' = spawned t ++ [path_join script_dir script_name]
    /\ (ok_or_exn = Ok true ->
        exists out err,
          subprocess_run (path_join script_dir script_name) = Exited 0 out err)
    /\ (stage_failed (subprocess_run (path_join script_dir script_name)) ->
        ok_or_exn = Ok false).
Proof.
  unfold run_script, spawned. run_pipeline.
  destruct (subprocess_run _) as [rc out err|e].
  - destruct (Z.eqb_spec rc 0) as [->|Hrc].
    + destruct (negb (String.eqb err "")); do 2 eexists;
        (split; [reflexivity|]); rewrite !omap_app; simpl; rewrite ?app_nil_r;
        (split; [reflexivity|]); (split; [eauto|]); simpl; congruence.
    + do 2 eexists. split; [reflexivity|]. rewrite !omap_app. simpl.
      rewrite ?app_nil_r. split; [reflexivity|]. split; [discriminate | reflexivity].
  - destruct e; simpl; do 2 eexists; (split; [reflexivity|]);
      rewrite !omap_app; simpl; rewrite ?app_nil_r;
      (split; [reflexivity|]); (split; [discriminate|]);
      first [reflexivity | discriminate].
Qed.

(** C9. The load stage runs only after the fetch stage succeeded: when the
    fetch script fails at the process level the orchestrator exits with
    status 1 and the load script is never started. *)
Theorem load_only_after_fetch (r : result unit) (t' : list event) :
  main_pipeline script_dir subprocess_run [] = (r, t') ->
  let fetch_path := path_join script_dir "nifty_ohlc_fetcher.py" in
  let load_path := path_join script_dir "send_new_data_to_postgre.py" in
  (In load_path (spawned t') ->
   exists out err, subprocess_run fetch_path = Exited 0 out err)
  /\ (stage_failed (subprocess_run fetch_path) ->
      r = Raise (SystemExit 1)
      /\ spawned t' = [fetch_path]
      /\ ~ In load_path (spawned t')).
Proof.
  intros Hrun fetch_path load_path.
  pose proof (stage_paths_differ script_dir) as Hdiff.
  fold fetch_path load_path in Hdiff.
  revert Hrun. unfold main_pipeline. unfold bind at 1. unfold Pipeline.emit at 1.
  unfold modify. cbv beta iota. unfold bind at 1.
  destruct (run_script_spawns_once "nifty_ohlc_fetcher.py" ([] ++ [Print MsgPipelineStart]))
    as (r1 & t1 & -> & Hsp1 & Hok1 & Hfail1).
  fold fetch_path in Hsp1, Hok1, Hfail1. simpl in Hsp1.
  destruct r1 as [[|]|e1].
  - (* the fetch stage succeeded *)
    cbn [negb]. unfold bind at 1.
    destruct (run_script_spawns_once "send_new_data_to_postgre.py" t1)
      as (r2 & t2 & -> & Hsp2 & _ & _).
    fold load_path in Hsp2. rewrite Hsp1 in Hsp2.
    assert (Hcontra : stage_failed (subprocess_run fetch_path) -> False)
      by (intros Hf; specialize (Hfail1 Hf); discriminate).
    destruct r2 as [[|]|e2]; run_pipeline; intros [= <- <-];
      (split; [intros _; apply Hok1; reflexivity | intros Hf; destruct (Hcontra Hf)]).
  - (* the fetch stage failed: exit before the load stage *)
    cbn [negb]. run_pipeline. intros [= <- <-].
    assert (Hsp : spawned (t1 ++ [Print MsgStoppedFetching]) = [fetch_path])
      by (unfold spawned in *; rewrite omap_app, Hsp1; reflexivity).
    rewrite Hsp. split.
    + intros [Heq|[]]. destruct (Hdiff Heq).
    + intros _. split; [reflexivity|]. split; [reflexivity|].
      intros [Heq|[]]. destruct (Hdiff Heq).
  - (* an exception that [run_script] lets through *)
    intros [= <- <-]. rewrite Hsp1. split.
    + intros [Heq|[]]. destruct (Hdiff Heq).
    + intros Hf. specialize (Hfail1 Hf). discriminate.
Qed.

End Processes.

End PipelineFacts.

(** ** The properties at concrete inputs *)

Module Witnesses.
Import PyStr Calendar Frame Fetcher FetcherAux Loader LoaderAux Pipeline PipelineAux.
Import Examples.

(** Two rows loaded into an empty table, then loaded again. *)
Lemma reload_is_idempotent_witness :
  insert_stock_data two_rows fresh_session = (Ok tt, mkSession [] two_rows [])
  /\ insert_stock_data two_rows (mkSession [] two_rows [])
     = (Ok tt, mkSession [] two_rows []).
Proof.
  split; [vm_compute; reflexivity|].
  apply (LoaderFacts.reload_is_idempotent two_rows fresh_session).
  vm_compute; reflexivity.
Defined.

(** A reply without a zone for [RELIANCE.NS] is localized to Asia/Kolkata;
    a UTC reply for [AAPL] is converted to America/New_York. *)
Lemma timezone_normalization_witness :
  fst (fetch_ohlc_data provider_naive fixed_offsets reliance
         "2024-01-10" "2024-01-11" blank_world)
  = Ok (Some (mkFrame (DatetimeIndex [1704858300; 1704858360] (Some "Asia/Kolkata"))
                (df_columns bars_naive)))
  /\ fst (fetch_ohlc_data provider_utc fixed_offsets apple
            "2024-01-09" "2024-01-10" blank_world)
     = Ok (Some (mkFrame (DatetimeIndex [1704858300; 1704858360]
                            (Some "America/New_York"))
                   (df_columns bars_utc))).
Proof.
  split.
  - apply (FetcherFacts.timezone_normalization provider_naive fixed_offsets
             reliance "2024-01-10" "2024-01-11" blank_world
             (snd (fetch_ohlc_data provider_naive fixed_offsets reliance
                     "2024-01-10" "2024-01-11" blank_world))
             _ "2024-01-10" "2024-01-11" "1m" bars_naive
             [1704878100; 1704878160] None);
      vm_compute; reflexivity.
  - apply (FetcherFacts.timezone_normalization provider_utc fixed_offsets
             apple "2024-01-09" "2024-01-10" blank_world
             (snd (fetch_ohlc_data provider_utc fixed_offsets apple
                     "2024-01-09" "2024-01-10" blank_world))
             _ "2024-01-09" "2024-01-10" "1m" bars_utc
             [1704858300; 1704858360] (Some "UTC"));
      vm_compute; reflexivity.
Defined.

(** The single day 2024-01-10 is asked for as 2024-01-10 to 2024-01-11. *)
Lemma single_day_window_witness :
  valid_date jan_10 /\ add_days jan_10 1 = Ok jan_11
  /\ exists r,
       fetch_ohlc_data provider_utc fixed_offsets reliance "2024-01-10" "2024-01-10"
         blank_world
       = (Ok r, mkWorld ∅ [History reliance "2024-01-10" "2024-01-11" "1m"])
       /\ ymd2ord jan_11 = ymd2ord jan_10 + 1.
Proof.
  split; [vm_compute; reflexivity|]. split; [vm_compute; reflexivity|].
  apply (FetcherFacts.single_day_window provider_utc fixed_offsets reliance
           jan_10 jan_11 blank_world); vm_compute; reflexivity.
Defined.

(** A run on 2024-01-10 with no offset: 2024-01-10 for NSE, 2024-01-09 for
    SnP. *)
Lemma reference_date_shift_witness :
  exists T_nse T_snp,
    target_date_for_fetch run_clock 0 "NSE" = Ok T_nse
    /\ (forall exchange, String.eqb exchange "SnP" = false ->
                         target_date_for_fetch run_clock 0 exchange = Ok T_nse)
    /\ target_date_for_fetch run_clock 0 "SnP" = Ok T_snp
    /\ datetime_add_days run_clock (- 0) = Ok T_nse
    /\ datetime_add_days run_clock (- (1 + 0)) = Ok T_snp
    /\ ymd2ord (dt_date T_nse) = ymd2ord (dt_date run_clock) - 0
    /\ ymd2ord (dt_date T_snp) = ymd2ord (dt_date T_nse) - 1
    /\ dt_micros T_nse = dt_micros run_clock
    /\ dt_micros T_snp = dt_micros run_clock.
Proof.
  apply (FetcherFacts.reference_date_shift run_clock 0);
    change (ymd2ord (dt_date run_clock)) with 738895; unfold MAXORDINAL; lia.
Defined.

(** Without the first symbol list the universe is the second list. *)
Lemma missing_source_witness :
  disk_sp500_only !! "nifty_500_symbols.txt" = None
  /\ _load_symbols_from_file disk_sp500_only "nifty_500_symbols.txt" "NSE" ".NS"
     = Ok []
  /\ _load_all_symbols disk_sp500_only = Ok [("AAPL", "SnP"); ("MSFT", "SnP")].
Proof.
  split; [vm_compute; reflexivity|].
  destruct (FetcherFacts.missing_source_contributes_nothing disk_sp500_only
              "nifty_500_symbols.txt" "NSE" ".NS") as (H1 & H2 & _);
    [vm_compute; reflexivity|].
  split; [exact H1|].
  rewrite (H2 eq_refl). vm_compute. reflexivity.
Defined.

(** An artifact with the price and volume columns only. *)
Lemma clean_dataframe_witness :
  exists out,
    clean_dataframe parse_timestamp artifact_frame "RELIANCE.NS" = Ok out
    /\ columns out = canonical_columns
    /\ dict_get (df_columns out) "dividends" = Some [CFloat 0; CFloat 0]
    /\ dict_get (df_columns out) "stock_splits" = Some [CFloat 0; CFloat 0]
    /\ dict_get (df_columns out) "stock_exchange" = Some [CNull; CNull].
Proof.
  destruct (LoaderFacts.clean_dataframe_fills_defaults parse_timestamp
              artifact_frame "RELIANCE.NS"
              [CTime 1704858300; CTime 1704858360]
              [CTime 1704858300; CTime 1704858360])
    as (out & Hout & Hcols & Hdiv & Hsplit & Hex).
  - apply NoDup_ListNoDup. vm_compute. repeat constructor; simpl; intuition discriminate.
  - intros c Hc. simpl in Hc.
    repeat (destruct Hc as [<-|Hc]; [vm_compute; reflexivity|]). destruct Hc.
  - vm_compute; reflexivity.
  - vm_compute; reflexivity.
  - exists out. split; [exact Hout|]. split; [exact Hcols|].
    split; [apply Hdiv | split; [apply Hsplit | apply Hex]];
      vm_compute; reflexivity.
Defined.

(** The provider fails for [AAPL], between two symbols it serves. *)
Lemma failed_fetch_witness :
  no_data provider_reliance_only (ticker_of "AAPL")
  /\ same_outcome
       (run provider_reliance_only ticker_of fixed_offsets
          ([("RELIANCE.NS", "NSE")] ++ ("AAPL", "SnP") :: [("RELIANCE.NS", "NSE")])
          "nifty_500_data" run_clock 0 blank_world)
       (run provider_reliance_only ticker_of fixed_offsets
          ([("RELIANCE.NS", "NSE")] ++ [("RELIANCE.NS", "NSE")])
          "nifty_500_data" run_clock 0 blank_world).
Proof.
  assert (Hnone : no_data provider_reliance_only (ticker_of "AAPL"))
    by (intros start end_ interval; exact I).
  split; [exact Hnone|].
  destruct (FetcherFacts.failed_fetch_is_skipped provider_reliance_only ticker_of
              fixed_offsets "nifty_500_data" run_clock 0 "AAPL" "SnP"
              (mkDatetime (mkDate 2024 1 9) 66600000000) Hnone)
    as (_ & _ & _ & Hrun); [vm_compute; reflexivity|].
  apply Hrun.
Defined.

(** The fetch script exits with status 2. *)
Lemma load_only_after_fetch_witness :
  stage_failed (fetch_crashes (path_join "/opt/pipeline" "nifty_ohlc_fetcher.py"))
  /\ fst (main_pipeline "/opt/pipeline" fetch_crashes []) = Raise (SystemExit 1)
  /\ spawned (snd (main_pipeline "/opt/pipeline" fetch_crashes []))
     = ["/opt/pipeline/nifty_ohlc_fetcher.py"].
Proof.
  assert (Hfail : stage_failed
                    (fetch_crashes (path_join "/opt/pipeline" "nifty_ohlc_fetcher.py")))
    by (vm_compute; discriminate).
  split; [exact Hfail|].
  destruct (PipelineFacts.load_only_after_fetch "/opt/pipeline" fetch_crashes
              (fst (main_pipeline "/opt/pipeline" fetch_crashes []))
              (snd (main_pipeline "/opt/pipeline" fetch_crashes []))
              (surjective_pairing _)) as [_ H].
  destruct (H Hfail) as (Hr & Hsp & _).
  split; [exact Hr | exact Hsp].
Defined.

(** A sidecar object with another key: the rows go in as [RELIANCE.NS]. *)
Lemma sidecar_without_key_witness :
  sidecar_present (replace artifact_path "_daily_ohlc.csv" "_info.json") = true
  /\ sidecar_other_key (replace artifact_path "_daily_ohlc.csv" "_info.json")
     = Ok (JObject [("long_name", JString "Reliance Industries")])
  /\ process_single_file sidecar_present sidecar_other_key reads_artifact
       parse_timestamp keep_timestamp artifact_path fresh_session
     = (Ok true,
        mkSession [] two_rows [MsgInserted artifact_path "RELIANCE.NS"]).
Proof.
  split; [reflexivity|]. split; [reflexivity|].
  destruct (LoaderFacts.sidecar_without_key_uses_base sidecar_present
              sidecar_other_key reads_artifact parse_timestamp keep_timestamp
              artifact_path [("long_name", JString "Reliance Industries")]
              fresh_session eq_refl eq_refl eq_refl) as (_ & _ & H).
  rewrite (H artifact_frame
             (mkFrame (RangeIndex 2)
                [("stock_symbol", [CStr "RELIANCE.NS"; CStr "RELIANCE.NS"]);
                 ("date_time", [CTime 1704858300; CTime 1704858360]);
                 ("open", [CFloat (2650 # 1); CFloat (2651 # 1)]);
                 ("high", [CFloat (2652 # 1); CFloat (2653 # 1)]);
                 ("low", [CFloat (2649 # 1); CFloat (2650 # 1)]);
                 ("close", [CFloat (2651 # 1); CFloat (2652 # 1)]);
                 ("volume", [CInt 1200; CInt 900]);
                 ("dividends", [CFloat 0; CFloat 0]);
                 ("stock_splits", [CFloat 0; CFloat 0]);
                 ("stock_exchange", [CNull; CNull])])
             two_rows); vm_compute; reflexivity.
Defined.

End Witnesses.

(** ** More on the orchestrator *)

Module PipelineMore.
Import PyStr Pipeline PipelineAux MoreAux PipelineFacts.

Section Processes.

Variable script_dir : string.
Variable subprocess_run : string -> completion.

Lemma run_script_verdict (script_name : string) (t : list event) :
  exists t',
    run_script script_dir subprocess_run script_name t
    = (verdict (subprocess_run (path_join script_dir script_name)), t')
    /\ spawned t' = spawned t ++ [path_join script_dir script_name].
Proof.
  unfold run_script, spawned, verdict. run_pipeline.
  destruct (subprocess_run _) as [rc out err|e].
  - destruct (rc =? 0); [destruct (negb (String.eqb err ""))|];
      eexists; (split; [reflexivity|]);
      rewrite !omap_app; simpl; rewrite ?app_nil_r; reflexivity.
  - destruct e; simpl; eexists; (split; [reflexivity|]);
      rewrite !omap_app; simpl; rewrite ?app_nil_r; reflexivity.
Qed.

Lemma verdict_true c :
  verdict c = Ok true <-> exists out err, c = Exited 0 out err.
Proof.
  destruct c as [rc out err|e]; simpl.
  - destruct (Z.eqb_spec rc 0) as [->|Hrc]; split.
    + intros _. eauto.
    + reflexivity.
    + discriminate.
    + intros (o & e' & [= H _ _]). contradiction.
  - split; [destruct (is_Exception e); discriminate|].
    intros (o & e' & H). discriminate.
Qed.

Lemma verdict_false c : verdict c = Ok false <-> stage_failed c.
Proof.
  destruct c as [rc out err|e]; simpl.
  - destruct (Z.eqb_spec rc 0) as [->|Hrc]; split;
      try discriminate; try reflexivity; try (intros; assumption).
    intros H. destruct H. reflexivity.
  - destruct (is_Exception e); split;
      try discriminate; try reflexivity.
Qed.

Lemma verdict_raise c e :
  verdict c = Raise e <-> c = Failed e /\ is_Exception e = false.
Proof.
  destruct c as [rc out err|e']; simpl.
  - split; [discriminate | intros [H _]; discriminate].
  - destruct (is_Exception e') eqn:He; split.
    + discriminate.
    + intros [[= <-] H]. congruence.
    + intros [= <-]. split; [reflexivity | exact He].
    + intros [[= <-] _]. reflexivity.
Qed.

(** X23. [run_script] starts its script once and reports how it ended: [True]
    exactly for exit code 0, [False] for any other exit code and for every
    exception that is an [Exception]; only an exception outside [Exception]
    gets out. *)
Theorem run_script_outcome (script_name : string) (t : list event) :
  exists r t',
    run_script script_dir subprocess_run script_name t = (r, t')
    /\ spawned t' = spawned t ++ [path_join script_dir script_name]
    /\ (r = Ok true <->
        exists out err,
          subprocess_run (path_join script_dir script_name) = Exited 0 out err)
    /\ (r = Ok false <->
        stage_failed (subprocess_run (path_join script_dir script_name)))
    /\ (forall e,
          r = Raise e <->
          subprocess_run (path_join script_dir script_name) = Failed e
          /\ is_Exception e = false).
Proof.
  destruct (run_script_verdict script_name t) as (t' & Hrun & Hsp).
  exists (verdict (subprocess_run (path_join script_dir script_name))), t'.
  split; [exact Hrun|]. split; [exact Hsp|].
  split; [apply verdict_true|]. split; [apply verdict_false|].
  intros e. apply verdict_raise.
Qed.

Lemma main_pipeline_verdicts :
  let fetch_path := path_join script_dir "nifty_ohlc_fetcher.py" in
  let load_path := path_join script_dir "send_new_data_to_postgre.py" in
  exists r t',
    main_pipeline script_dir subprocess_run [] = (r, t')
    /\ match verdict (subprocess_run fetch_path) with
       | Ok true =>
           spawned t' = [fetch_path; load_path]
           /\ match verdict (subprocess_run load_path) with
              | Ok true => r = Ok tt /\ last t' = Some (Print MsgAllDone)
              | Ok false =>
                  r = Raise (SystemExit 1)
                  /\ last t' = Some (Print MsgStoppedInsertion)
              | Raise e => r = Raise e
              end
       | Ok false =>
           spawned t' = [fetch_path]
           /\ r = Raise (SystemExit 1)
           /\ last t' = Some (Print MsgStoppedFetching)
       | Raise e => spawned t' = [fetch_path] /\ r = Raise e
       end.
Proof.
  intros fetch_path load_path.
  unfold main_pipeline. unfold bind at 1. unfold Pipeline.emit at 1.
  unfold modify. cbv beta iota. unfold bind at 1.
  destruct (run_script_verdict "nifty_ohlc_fetcher.py" ([] ++ [Print MsgPipelineStart]))
    as (t1 & -> & Hsp1).
  fold fetch_path in Hsp1 |- *. simpl in Hsp1.
  destruct (verdict (subprocess_run fetch_path)) as [[|]|e1].
  - cbn [negb]. unfold bind at 1.
    destruct (run_script_verdict "send_new_data_to_postgre.py" t1) as (t2 & -> & Hsp2).
    fold load_path in Hsp2 |- *. rewrite Hsp1 in Hsp2. simpl in Hsp2.
    destruct (verdict (subprocess_run load_path)) as [[|]|e2]; run_pipeline;
      do 2 eexists; (split; [reflexivity|]).
    + split; [|split; [reflexivity | apply last_snoc]].
      unfold spawned in *. rewrite omap_app, Hsp2. reflexivity.
    + split; [|split; [reflexivity | apply last_snoc]].
      unfold spawned in *. rewrite omap_app, Hsp2. reflexivity.
    + split; [exact Hsp2 | reflexivity].
  - cbn [negb]. run_pipeline. do 2 eexists. split; [reflexivity|].
    split; [|split; [reflexivity | apply last_snoc]].
    unfold spawned in *. rewrite omap_app, Hsp1. reflexivity.
  - do 2 eexists. split; [reflexivity|]. split; [exact Hsp1 | reflexivity].
Qed.

(** X24. The pipeline ends normally exactly when both scripts exit with code 0;
    it then has started the fetch script and the load script, in this order,
    and its last line is the closing message.  Whatever happens, it starts
    the fetch script first and at most these two scripts. *)
Theorem pipeline_completes_iff_both_succeed :
  let fetch_path := path_join script_dir "nifty_ohlc_fetcher.py" in
  let load_path := path_join script_dir "send_new_data_to_postgre.py" in
  exists r t',
    main_pipeline script_dir subprocess_run [] = (r, t')
    /\ (r = Ok tt <->
        (exists out err, subprocess_run fetch_path = Exited 0 out err)
        /\ (exists out err, subprocess_run load_path = Exited 0 out err))
    /\ (r = Ok tt ->
        spawned t' = [fetch_path; load_path]
        /\ last t' = Some (Print MsgAllDone))
    /\ (spawned t' = [fetch_path] \/ spawned t' = [fetch_path; load_path]).
Proof.
  intros fetch_path load_path.
  destruct main_pipeline_verdicts as (r & t' & Hrun & Hcases).
  fold fetch_path load_path in Hcases.
  exists r, t'. split; [exact Hrun|].
  rewrite <- !verdict_true.
  destruct (verdict (subprocess_run fetch_path)) as [[|]|e1].
  - destruct Hcases as [Hsp Hload].
    destruct (verdict (subprocess_run load_path)) as [[|]|e2].
    + destruct Hload as [-> Hlast].
      split; [tauto|]. split; [auto|]. right. exact Hsp.
    + destruct Hload as [-> Hlast].
      split; [split; [discriminate | intros [_ H]; discriminate]|].
      split; [discriminate|]. right. exact Hsp.
    + subst r.
      split; [split; [discriminate | intros [_ H]; discriminate]|].
      split; [discriminate|]. right. exact Hsp.
  - destruct Hcases as (Hsp & -> & _).
    split; [split; [discriminate | intros [H _]; discriminate]|].
    split; [discriminate|]. left. exact Hsp.
  - destruct Hcases as (Hsp & ->).
    split; [split; [discriminate | intros [H _]; discriminate]|].
    split; [discriminate|]. left. exact Hsp.
Qed.

(** X25. When the fetch script succeeded and the load script fails at the process
    level, the pipeline exits with status 1 after both scripts were started,
    and its last line says that the insertion step stopped it. *)
Theorem load_failure_stops_pipeline (out err : string) :
  let fetch_path := path_join script_dir "nifty_ohlc_fetcher.py" in
  let load_path := path_join script_dir "send_new_data_to_postgre.py" in
  subprocess_run fetch_path = Exited 0 out err ->
  stage_failed (subprocess_run load_path) ->
  exists t',
    main_pipeline script_dir subprocess_run [] = (Raise (SystemExit 1), t')
    /\ spawned t' = [fetch_path; load_path]
    /\ last t' = Some (Print MsgStoppedInsertion).
Proof.
  intros fetch_path load_path Hfetch Hload.
  destruct main_pipeline_verdicts as (r & t' & Hrun & Hcases).
  fold fetch_path load_path in Hcases.
  assert (Hvf : verdict (subprocess_run fetch_path) = Ok true)
    by (apply verdict_true; eauto).
  apply verdict_false in Hload.
  rewrite Hvf, Hload in Hcases. destruct Hcases as (Hsp & -> & Hlast).
  exists t'. auto.
Qed.

End Processes.

End PipelineMore.

(** ** Text operations *)

Module PyStrFacts.
Import PyStr MoreAux.

Lemma append_nil_l (s : string) : "" +:+ s = s.
Proof. reflexivity. Qed.

Lemma append_cons (c : ascii) (s t : string) :
  String c s +:+ t = String c (s +:+ t).
Proof. reflexivity. Qed.

(** Unfolding [+:+] on texts that start with a known character. *)
Ltac push_append := rewrite ?append_cons, ?append_nil_l.

Lemma append_nil_r (s : string) : s +:+ "" = s.
Proof.
  induction s as [|c s IH]; push_append; [reflexivity | rewrite IH; reflexivity].
Qed.

Lemma append_assoc (a b c : string) : (a +:+ b) +:+ c = a +:+ (b +:+ c).
Proof.
  induction a as [|x a IH]; push_append; [reflexivity | rewrite IH; reflexivity].
Qed.

Lemma rev_app_spec (s t : string) : String.rev_app s t = String.rev s +:+ t.
Proof.
  revert t. induction s as [|c s IH]; intros t; [reflexivity|].
  unfold String.rev. cbn [String.rev_app].
  rewrite (IH (String c t)), (IH (String c "")), append_assoc. reflexivity.
Qed.

Lemma rev_cons (c : ascii) (s : string) :
  String.rev (String c s) = String.rev s +:+ String c "".
Proof. unfold String.rev at 1. cbn [String.rev_app]. apply rev_app_spec. Qed.

Lemma rev_append (a b : string) :
  String.rev (a +:+ b) = String.rev b +:+ String.rev a.
Proof.
  induction a as [|x a IH]; push_append.
  - symmetry. apply append_nil_r.
  - rewrite !rev_cons, IH, append_assoc. reflexivity.
Qed.

Lemma rev_involutive (s : string) : String.rev (String.rev s) = s.
Proof.
  induction s as [|c s IH]; [reflexivity|].
  rewrite rev_cons, rev_append, IH. reflexivity.
Qed.

Lemma startswith_nil (s : string) : startswith s "" = true.
Proof. destruct s; reflexivity. Qed.

Lemma startswith_append (p s : string) : startswith (p +:+ s) p = true.
Proof.
  induction p as [|c p IH]; push_append; simpl; [destruct s; reflexivity|].
  rewrite Ascii.eqb_refl, IH. reflexivity.
Qed.

Lemma endswith_append (s p : string) : endswith (s +:+ p) p = true.
Proof. unfold endswith. rewrite rev_append. apply startswith_append. Qed.

(** *** [strip] *)

Lemma lstrip_head (s : string) :
  lstrip s = "" \/ exists c t, lstrip s = String c t /\ is_space c = false.
Proof.
  induction s as [|c s IH]; simpl; [left; reflexivity|].
  destruct (is_space c) eqn:Hc; [exact IH|]. right. eauto.
Qed.

Lemma rstrip_idempotent (s : string) : rstrip (rstrip s) = rstrip s.
Proof.
  induction s as [|c s IH]; simpl; [reflexivity|].
  destruct (rstrip s) as [|d t] eqn:Hr.
  - destruct (is_space c) eqn:Hc; simpl; [reflexivity|]. rewrite Hc. reflexivity.
  - simpl in IH |- *. rewrite IH. reflexivity.
Qed.

Lemma rstrip_keeps_head (c : ascii) (s : string) :
  is_space c = false -> exists t, rstrip (String c s) = String c t.
Proof.
  intros Hc. simpl. destruct (rstrip s); [rewrite Hc|]; eauto.
Qed.

Lemma lstrip_of_stripped (s : string) : lstrip (strip s) = strip s.
Proof.
  unfold strip. destruct (lstrip_head s) as [->|(c & t & -> & Hc)]; [reflexivity|].
  destruct (rstrip_keeps_head c t Hc) as [u ->]. simpl. rewrite Hc. reflexivity.
Qed.

(** Stripping a stripped text changes nothing. *)
Lemma strip_idempotent (s : string) : strip (strip s) = strip s.
Proof.
  unfold strip at 1. rewrite lstrip_of_stripped.
  unfold strip. apply rstrip_idempotent.
Qed.




(** *** Characters that do not occur *)

Lemma lacks_append (c : ascii) (a b : string) :
  lacks c (a +:+ b) = lacks c a && lacks c b.
Proof.
  induction a as [|x a IH]; push_append; simpl; [reflexivity|].
  rewrite IH, andb_assoc. reflexivity.
Qed.

Lemma lacks_lstrip (c : ascii) (s : string) :
  lacks c s = true -> lacks c (lstrip s) = true.
Proof.
  induction s as [|a s IH]; simpl; [reflexivity|].
  intros H. apply andb_prop in H as [Ha Hs].
  destruct (is_space a); [apply IH; exact Hs|]. simpl. rewrite Ha, Hs. reflexivity.
Qed.

Lemma lacks_rstrip (c : ascii) (s : string) :
  lacks c s = true -> lacks c (rstrip s) = true.
Proof.
  induction s as [|a s IH]; simpl; [reflexivity|].
  intros H. apply andb_prop in H as [Ha Hs]. specialize (IH Hs).
  destruct (rstrip s) as [|d t].
  - destruct (is_space a); simpl; [reflexivity|]. rewrite Ha. reflexivity.
  - cbn [lacks] in IH |- *. rewrite Ha, IH. reflexivity.
Qed.

Lemma lacks_strip (c : ascii) (s : string) :
  lacks c s = true -> lacks c (strip s) = true.
Proof. intros H. apply lacks_rstrip, lacks_lstrip, H. Qed.

(** *** [replace] *)

Lemma replace_from_skips_all (old new s : string) :
  replace_from old new (String.length s) s = "".
Proof. induction s as [|c s IH]; simpl; [reflexivity | exact IH]. Qed.

(** Replacing a one-character text leaves no such character, when the new
    text has none. *)
Lemma replace_char_lacks (c : ascii) (new s : string) :
  lacks c new = true ->
  lacks c (replace s (String c "") new) = true.
Proof.
  intros Hnew. unfold replace.
  induction s as [|a s IH]; [reflexivity|].
  cbn [replace_from startswith String.length Nat.sub].
  rewrite startswith_nil, andb_true_r.
  destruct (Ascii.eqb c a) eqn:Hca.
  - rewrite lacks_append, Hnew, IH. reflexivity.
  - cbn [lacks]. rewrite Ascii.eqb_sym, Hca, IH. reflexivity.
Qed.

(** A text without the character is left as it is. *)
Lemma replace_char_absent (c : ascii) (new s : string) :
  lacks c s = true -> replace s (String c "") new = s.
Proof.
  unfold replace. induction s as [|a s IH]; [reflexivity|].
  cbn [replace_from startswith lacks]. rewrite startswith_nil, andb_true_r.
  intros H. apply andb_prop in H as [Ha Hs].
  rewrite Ascii.eqb_sym. destruct (Ascii.eqb a c); [discriminate|].
  rewrite (IH Hs). reflexivity.
Qed.

(** A pattern found at the end only is replaced there. *)
Lemma replace_at_end (pat new x : string) :
  pat <> "" ->
  no_early_match pat x = true ->
  replace (x +:+ pat) pat new = x +:+ new.
Proof.
  intros Hpat Hfree.
  assert (Hrep : replace (x +:+ pat) pat new = replace_from pat new O (x +:+ pat))
    by (unfold replace; destruct pat; [congruence | reflexivity]).
  rewrite Hrep. clear Hrep.
  induction x as [|a x IH]; push_append.
  - destruct pat as [|p0 pat']; [congruence|].
    cbn [replace_from].
    assert (Hs : startswith (String p0 pat') (String p0 pat') = true)
      by (rewrite <- (append_nil_r (String p0 pat')) at 1; apply startswith_append).
    rewrite Hs. cbn [String.length Nat.sub].
    rewrite Nat.sub_0_r, replace_from_skips_all, append_nil_r. reflexivity.
  - cbn [no_early_match] in Hfree. apply andb_prop in Hfree as [Hhere Hrest].
    apply negb_true_iff in Hhere. rewrite append_cons in Hhere.
    cbn [replace_from]. rewrite Hhere, (IH Hrest). reflexivity.
Qed.

Lemma no_early_match_tail (pat : string) (a : ascii) (x : string) :
  no_early_match pat (String a x) = true -> no_early_match pat x = true.
Proof. cbn [no_early_match]. intros H. apply andb_prop in H as [_ H]. exact H. Qed.

(** *** [basename] *)

Lemma basename_from_plain (cur p : string) :
  lacks "/" p = true -> basename_from cur p = String.rev cur +:+ p.
Proof.
  revert cur. induction p as [|c p IH]; intros cur H; simpl.
  - rewrite append_nil_r. reflexivity.
  - simpl in H. apply andb_prop in H as [Hc Hp]. apply negb_true_iff in Hc.
    rewrite Hc, (IH _ Hp).
    rewrite rev_cons, append_assoc. reflexivity.
Qed.

Lemma basename_from_append (cur s p : string) :
  lacks "/" p = true ->
  basename_from cur (s +:+ p) = basename_from cur s +:+ p.
Proof.
  intros Hp. revert cur. induction s as [|c s IH]; intros cur; push_append; simpl.
  - apply basename_from_plain. exact Hp.
  - destruct (Ascii.eqb c "/"); apply IH.
Qed.

(** The base name of [dir/name] is [name] when [name] has no slash. *)
Lemma basename_after_slash (dir name : string) :
  lacks "/" name = true -> basename (dir +:+ "/" +:+ name) = name.
Proof.
  intros Hn. unfold basename.
  rewrite <- append_assoc, basename_from_append by exact Hn.
  assert (H : forall cur, basename_from cur (dir +:+ "/") = "").
  { induction dir as [|c d IH]; intros cur; push_append; simpl; [reflexivity|].
    destruct (Ascii.eqb c "/"); apply IH. }
  rewrite H. reflexivity.
Qed.

Lemma basename_plain (name : string) :
  lacks "/" name = true -> basename name = name.
Proof. intros H. unfold basename. rewrite basename_from_plain by exact H. reflexivity. Qed.

End PyStrFacts.

(** ** More on the symbol registry and on file names *)

Module RegistryMore.
Import PyStr Frame Fetcher FetcherAux Loader MoreAux PyStrFacts.

(** *** The symbol lists *)

(** What a list that can be read gives: nothing, or one entry for each kept
    line of a regular file. *)
Lemma load_gives_kept_lines
    (disk : gmap string node) (file_path exchange_name suffix : string)
    (entries : list (string * string)) :
  _load_symbols_from_file disk file_path exchange_name suffix = Ok entries ->
  exists kept,
    Forall (fun line => String.eqb (strip line) "" = false) kept
    /\ entries = map (fun s => (s +:+ suffix, exchange_name)) (map strip kept).
Proof.
  unfold _load_symbols_from_file.
  destruct (disk !! file_path) as [[text|]|]; [|discriminate|].
  - set (kept := List.filter _ (lines text)).
    assert (Hkept : Forall (fun line => String.eqb (strip line) "" = false) kept).
    { apply Forall_forall. intros line Hin. apply list_elem_of_In in Hin.
      subst kept. apply filter_In in Hin as [_ Hk].
      apply andb_prop in Hk as [Hk _]. apply negb_true_iff in Hk. exact Hk. }
    intros Hentries. exists kept. split; [exact Hkept|].
    destruct (map strip kept) eqn:Hsym; injection Hentries as <-; reflexivity.
  - intros [= <-]. exists []. split; [constructor | reflexivity].
Qed.

(** X1. Every entry read from a symbol list carries the exchange of the list, and
    its ticker is a trimmed, non-empty text followed by the suffix. *)
Theorem registry_entries_are_trimmed
    (disk : gmap string node) (file_path exchange_name suffix : string)
    (entries : list (string * string)) :
  _load_symbols_from_file disk file_path exchange_name suffix = Ok entries ->
  Forall (fun entry =>
            snd entry = exchange_name
            /\ exists s, fst entry = s +:+ suffix
                         /\ String.eqb s "" = false /\ strip s = s)
         entries.
Proof.
  intros Hload.
  destruct (load_gives_kept_lines _ _ _ _ _ Hload) as (kept & Hkept & ->).
  clear Hload.
  induction Hkept as [|line kept Hline _ IH]; cbn [map]; constructor.
  - split; [reflexivity|]. exists (strip line).
    split; [reflexivity|]. split; [exact Hline | apply strip_idempotent].
  - exact IH.
Qed.





(** X3. The universe is the first list followed by the second; the entries of
    the first are tagged [NSE] and end in [.NS], those of the second are
    tagged [SnP]. *)
Theorem universe_is_tagged (disk : gmap string node) (symbols : list (string * string)) :
  _load_all_symbols disk = Ok symbols ->
  exists nifty_symbols sp500_symbols,
    symbols = nifty_symbols ++ sp500_symbols
    /\ _load_symbols_from_file disk "nifty_500_symbols.txt" "NSE" ".NS"
       = Ok nifty_symbols
    /\ _load_symbols_from_file disk "sp500_symbols.txt" "SnP" "" = Ok sp500_symbols
    /\ Forall (fun entry => snd entry = "NSE" /\ endswith (fst entry) ".NS" = true)
              nifty_symbols
    /\ Forall (fun entry => snd entry = "SnP") sp500_symbols.
Proof.
  unfold _load_all_symbols.
  destruct (_load_symbols_from_file disk "nifty_500_symbols.txt" "NSE" ".NS")
    as [nifty|] eqn:Hn; [|discriminate].
  destruct (_load_symbols_from_file disk "sp500_symbols.txt" "SnP" "")
    as [sp|] eqn:Hs; [|discriminate].
  simpl. intros [= <-]. exists nifty, sp.
  split; [reflexivity|]. split; [reflexivity|]. split; [reflexivity|].
  destruct (load_gives_kept_lines _ _ _ _ _ Hn) as (kept_n & _ & ->).
  destruct (load_gives_kept_lines _ _ _ _ _ Hs) as (kept_s & _ & ->).
  split; apply Forall_forall; intros entry Hin; apply list_elem_of_In in Hin;
    apply in_map_iff in Hin as (s & <- & _).
  - split; [reflexivity | apply endswith_append].
  - reflexivity.
Qed.


End RegistryMore.

(** ** File names: from the fetched symbol to the loaded symbol *)

Module NamingMore.
Import PyStr Frame Fetcher FetcherAux Loader LoaderAux MoreAux PyStrFacts.

Lemma lacks_slash_sanitized (text : string) :
  lacks "/" (_sanitize_filename_component text) = true.
Proof.
  unfold _sanitize_filename_component.
  apply lacks_strip, replace_char_lacks. reflexivity.
Qed.

Lemma sanitize_clean (name : string) :
  lacks "/" name = true -> strip name = name ->
  _sanitize_filename_component name = name.
Proof.
  intros Hl Hs. unfold _sanitize_filename_component.
  rewrite (replace_char_absent "/" "-" name Hl). exact Hs.
Qed.

(** X8. A sanitised name has no path separator and no blank at either end;
    sanitising it again changes nothing, and a name that is already clean is
    left as it is. *)
Theorem sanitized_name_is_clean (text : string) :
  lacks "/" (_sanitize_filename_component text) = true
  /\ strip (_sanitize_filename_component text) = _sanitize_filename_component text
  /\ _sanitize_filename_component (_sanitize_filename_component text)
     = _sanitize_filename_component text
  /\ (forall name, lacks "/" name = true -> strip name = name ->
                   _sanitize_filename_component name = name).
Proof.
  assert (Hs : strip (_sanitize_filename_component text)
               = _sanitize_filename_component text)
    by apply strip_idempotent.
  split; [apply lacks_slash_sanitized|]. split; [exact Hs|].
  split; [|apply sanitize_clean].
  apply sanitize_clean; [apply lacks_slash_sanitized | exact Hs].
Qed.

Lemma startswith_slash_lacks (name : string) :
  lacks "/" name = true -> startswith name "/" = false.
Proof.
  destruct name as [|a s]; [reflexivity|]. cbn [lacks startswith].
  intros H. apply andb_prop in H as [Ha _]. apply negb_true_iff in Ha.
  rewrite Ascii.eqb_sym, Ha. reflexivity.
Qed.

Lemma endswith_slash (folder : string) :
  endswith folder "/" = true -> exists dir, folder = dir +:+ "/".
Proof.
  unfold endswith. change (String.rev "/") with "/".
  destruct (String.rev folder) as [|b r] eqn:Hrev; [discriminate|].
  cbn [startswith]. intros H. apply andb_prop in H as [Hb _].
  apply Ascii.eqb_eq in Hb. subst b. exists (String.rev r).
  rewrite <- (rev_involutive folder), Hrev, rev_cons. reflexivity.
Qed.

Lemma length_zero (s : string) : (String.length s =? 0)%nat = true -> s = "".
Proof. destruct s; [reflexivity | discriminate]. Qed.

Lemma basename_path_join (folder name : string) :
  lacks "/" name = true -> basename (path_join folder name) = name.
Proof.
  intros Hn. unfold path_join. rewrite (startswith_slash_lacks name Hn).
  destruct (String.length folder =? 0)%nat eqn:Hlen; cbn [orb].
  - apply length_zero in Hlen. subst folder. rewrite append_nil_l.
    apply basename_plain. exact Hn.
  - destruct (endswith folder "/") eqn:Hend.
    + apply endswith_slash in Hend as [dir ->]. rewrite append_assoc.
      apply basename_after_slash. exact Hn.
    + apply basename_after_slash. exact Hn.
Qed.

Lemma pattern_nonempty : "_daily_ohlc.csv" <> "".
Proof. discriminate. Qed.

(** X13. The name under which the fetch stage stores a symbol is read back by the
    load stage as the sanitised symbol, whatever the output folder, provided
    the sanitised symbol followed by [_daily_ohlc.csv] contains that text
    only at its end. *)
Theorem stored_name_is_read_back (output_folder symbol : string) :
  no_early_match "_daily_ohlc.csv" (_sanitize_filename_component symbol) = true ->
  extract_stock_symbol
    (path_join output_folder
       (_sanitize_filename_component symbol +:+ "_daily_ohlc.csv"))
  = _sanitize_filename_component symbol.
Proof.
  intros Hfree. unfold extract_stock_symbol.
  rewrite basename_path_join.
  - rewrite (replace_at_end _ "" _ pattern_nonempty Hfree). apply append_nil_r.
  - rewrite lacks_append, lacks_slash_sanitized. reflexivity.
Qed.

Lemma basename_from_suffix (s cur : string) :
  exists pre, String.rev cur +:+ s = pre +:+ basename_from cur s.
Proof.
  revert cur. induction s as [|c s IH]; intros cur; cbn [basename_from].
  - exists "". rewrite append_nil_r, append_nil_l. reflexivity.
  - destruct (Ascii.eqb c "/").
    + destruct (IH "") as [pre Hpre]. change (String.rev "") with "" in Hpre.
      rewrite append_nil_l in Hpre.
      exists (String.rev cur +:+ String c pre).
      rewrite append_assoc. push_append. rewrite <- Hpre. reflexivity.
    + destruct (IH (String c cur)) as [pre Hpre]. exists pre.
      rewrite <- Hpre, rev_cons, append_assoc. reflexivity.
Qed.

Lemma no_early_match_suffix (pat pre x : string) :
  no_early_match pat (pre +:+ x) = true -> no_early_match pat x = true.
Proof.
  induction pre as [|a pre IH]; push_append; [auto|].
  intros H. apply IH. exact (no_early_match_tail pat a _ H).
Qed.

Section Sidecar.

Variables path_exists path_exists' : string -> bool.
Variables json_load json_load' : string -> result json.

(** X14. For an artifact [stem_daily_ohlc.csv], where that text occurs only at the
    end, the base symbol is the last path component of [stem] and the only
    file the environment is asked about is [stem_info.json]: two
    environments that agree on it resolve the same identity with the same
    output. *)
Theorem only_the_sidecar_is_consulted (stem : string) (s : session) :
  no_early_match "_daily_ohlc.csv" stem = true ->
  path_exists (stem +:+ "_info.json") = path_exists' (stem +:+ "_info.json") ->
  json_load (stem +:+ "_info.json") = json_load' (stem +:+ "_info.json") ->
  extract_stock_symbol (stem +:+ "_daily_ohlc.csv") = basename stem
  /\ resolve_symbol path_exists json_load (stem +:+ "_daily_ohlc.csv") s
     = resolve_symbol path_exists' json_load' (stem +:+ "_daily_ohlc.csv") s.
Proof.
  intros Hfree Hexists Hload. split.
  - unfold extract_stock_symbol, basename.
    rewrite basename_from_append by reflexivity.
    destruct (basename_from_suffix stem "") as [pre Hpre].
    change (String.rev "") with "" in Hpre. rewrite append_nil_l in Hpre.
    rewrite Hpre in Hfree. apply no_early_match_suffix in Hfree.
    rewrite (replace_at_end _ "" _ pattern_nonempty Hfree). apply append_nil_r.
  - unfold resolve_symbol.
    rewrite (replace_at_end _ "_info.json" _ pattern_nonempty Hfree).
    rewrite Hexists, Hload. reflexivity.
Qed.

End Sidecar.

End NamingMore.

(** ** More on the fetch stage *)

Module FetcherMore.
Import PyStr Calendar Frame Fetcher FetcherAux MoreAux.
Import CalendarFacts FetcherFacts FrameFacts PyStrFacts.

Lemma slept_app (a b : list event) : slept (a ++ b) = slept a + slept b.
Proof.
  induction a as [|ev a IH]; [reflexivity|].
  destruct ev; cbn [app slept]; rewrite IH; lia.
Qed.

Lemma queried_app (a b : list event) : queried (a ++ b) = queried a ++ queried b.
Proof. apply omap_app. Qed.

Lemma written_app (a b : list event) : written (a ++ b) = written a ++ written b.
Proof. apply omap_app. Qed.

Section FetchMore.

Variable history : TickerObj -> string -> string -> string -> result DataFrame.
Variable wall_to_instant : string -> Z -> option Z.

Lemma normalized_shape t reply df :
  normalized wall_to_instant t reply = Some df ->
  (exists stamps, df_index df = DatetimeIndex stamps (Some (exchange_zone t)))
  /\ empty df = false
  /\ exists df0, reply = Ok df0 /\ df_columns df = df_columns df0
                 /\ nrows df = nrows df0.
Proof.
  unfold normalized. destruct reply as [df0|]; [|discriminate].
  destruct (empty df0) eqn:Hempty; [discriminate|].
  destruct df0 as [ix cols]. cbn [df_index df_columns].
  destruct ix as [n|stamps [zone|]]; [discriminate| |].
  - intros [= <-]. split; [eauto|]. split; [exact Hempty|].
    eexists. split; [reflexivity|]. split; reflexivity.
  - destruct (map_option _ stamps) as [stamps'|] eqn:Hmap; [|discriminate].
    cbn [option_map]. intros [= <-].
    apply map_option_length in Hmap.
    split; [eauto|].
    unfold empty, nrows in *. cbn [df_index df_columns index_length] in *.
    rewrite Hmap. split; [exact Hempty|].
    eexists. split; [reflexivity|]. split; reflexivity.
Qed.

(** X5. A fetch never raises, never writes and never waits, whatever the provider
    does; it asks the provider at most once, about its own ticker.  A frame
    it returns is not empty and its index is in the zone of the exchange. *)
Theorem fetch_never_raises (t : TickerObj) (s e : string) (w : world) :
  exists r tr,
    fetch_ohlc_data history wall_to_instant t s e w
    = (Ok r, mkWorld (artifacts w) (trace w ++ tr))
    /\ written tr = []
    /\ slept tr = 0
    /\ (queried tr = [] \/ queried tr = [t])
    /\ match r with
       | Some df =>
           (exists stamps,
               df_index df = DatetimeIndex stamps (Some (exchange_zone t)))
           /\ empty df = false
           /\ queried tr = [t]
       | None => True
       end.
Proof.
  rewrite fetch_ohlc_data_spec.
  destruct (fetch_request s e) as [[a b]|].
  - eexists _, [_]. split; [reflexivity|].
    split; [reflexivity|]. split; [reflexivity|]. split; [right; reflexivity|].
    destruct (normalized _ _ _) as [df|] eqn:Hn; [|exact I].
    destruct (normalized_shape _ _ _ Hn) as (Hix & Hempty & _).
    split; [exact Hix|]. split; [exact Hempty | reflexivity].
  - exists None, []. rewrite app_nil_r. destruct w.
    split; [reflexivity|]. split; [reflexivity|]. split; [reflexivity|].
    split; [left; reflexivity | exact I].
Qed.

(** X6. A single-day fetch whose date does not parse, or whose next day does not
    exist, gives no data without asking the provider. *)
Theorem unusable_date_asks_nothing (t : TickerObj) (s : string) (w : world) :
  (exists e0, strptime s = Raise e0) \/ s = "9999-12-31" ->
  fetch_ohlc_data history wall_to_instant t s s w = (Ok None, w).
Proof.
  intros H. rewrite fetch_ohlc_data_spec. unfold fetch_request.
  rewrite String.eqb_refl.
  destruct H as [[e0 ->]| ->]; reflexivity.
Qed.

(** X7. A window of two different texts is handed to the provider as it is, in
    one query at one-minute interval: neither text is parsed. *)
Theorem longer_window_is_passed_on (t : TickerObj) (s e : string) (w : world) :
  String.eqb s e = false ->
  exists r,
    fetch_ohlc_data history wall_to_instant t s e w
    = (Ok r, mkWorld (artifacts w) (trace w ++ [History t s e "1m"])).
Proof.
  intros Hne. rewrite fetch_ohlc_data_spec. unfold fetch_request. rewrite Hne.
  eexists. reflexivity.
Qed.

End FetchMore.

End FetcherMore.

(** ** More on [run]: batches, pacing and what is stored *)

Module RunMore.
Import PyStr Calendar Frame Fetcher FetcherAux MoreAux.
Import CalendarFacts FetcherFacts FrameFacts PyStrFacts FetcherMore.

(** *** Batches *)

Lemma slice_length {A} (l : list A) (i j : nat) :
  length (slice l i j) = Nat.min (j - i) (length l - i).
Proof. unfold slice. rewrite length_take, length_drop. reflexivity. Qed.

Lemma batches_count {A} (symbols : list A) :
  length (map (fun i => slice symbols i (i + 20))
              (py_range (length symbols) 20))
  = ((length symbols + 19) / 20)%nat.
Proof.
  rewrite length_map. unfold py_range. rewrite length_map, length_seq.
  f_equal. lia.
Qed.

(** X9. The batches of [run] are the symbols cut into consecutive pieces, in
    order: each piece has between one and twenty symbols and there are
    [ceil(n / 20)] of them. *)
Theorem batches_partition_the_symbols {A} (symbols : list A) :
  concat (map (fun i => slice symbols i (i + 20))
              (py_range (length symbols) 20)) = symbols
  /\ Forall (fun batch => (1 <= length batch <= 20)%nat)
            (map (fun i => slice symbols i (i + 20))
                 (py_range (length symbols) 20))
  /\ length (map (fun i => slice symbols i (i + 20))
                 (py_range (length symbols) 20))
     = ((length symbols + 19) / 20)%nat.
Proof.
  split; [apply batches_cover|]. split.
  - apply Forall_forall. intros batch Hin. apply list_elem_of_In in Hin.
    apply in_map_iff in Hin as (i & <- & Hi).
    unfold py_range in Hi. apply in_map_iff in Hi as (k & <- & Hk).
    apply in_seq in Hk. rewrite slice_length.
    assert (Hdiv : (k < (length symbols + 20 - 1) / 20)%nat) by lia.
    assert (Hlt : (k * 20 < length symbols)%nat).
    { pose proof (Nat.div_mod_eq (length symbols + 20 - 1) 20) as Hdm.
      pose proof (Nat.mod_upper_bound (length symbols + 20 - 1) 20) as Hub.
      lia. }
    lia.
  - apply batches_count.
Qed.

Section RunMore.

Variable history : TickerObj -> string -> string -> string -> result DataFrame.
Variable yf_Ticker : string -> TickerObj.
Variable wall_to_instant : string -> Z -> option Z.
Variable output_folder : string.
Variable base_date_for_run : datetime.
Variable past_days : Z.

Abbreviation step := (run_symbol history yf_Ticker wall_to_instant output_folder
                    base_date_for_run past_days).

Lemma stored_for_tagged zone exchange df stamps :
  df_index df = DatetimeIndex stamps (Some zone) ->
  empty df = false ->
  stored_for zone exchange (set_scalar df "stock_exchange" (CStr exchange)).
Proof.
  intros Hix Hempty. unfold stored_for, set_scalar.
  split; [|split; [|split]].
  - exists stamps. rewrite <- Hix. unfold set_column.
    destruct (has_column df "stock_exchange"); reflexivity.
  - unfold empty in *. rewrite nrows_set_column.
    apply orb_false_iff in Hempty as [Hrows Hcols]. rewrite Hrows. cbn [orb].
    unfold set_column. destruct (has_column df "stock_exchange");
      cbn [df_columns]; [rewrite length_map; exact Hcols|].
    rewrite length_app. cbn [length]. apply Nat.eqb_neq. lia.
  - unfold has_column. rewrite columns_set_column.
    destruct (has_column df "stock_exchange") eqn:Hhas; [exact Hhas|].
    rewrite existsb_app. cbn [existsb]. rewrite String.eqb_refl.
    rewrite orb_true_r. reflexivity.
  - apply Forall_forall. intros p Hin. apply list_elem_of_In in Hin.
    rewrite nrows_set_column.
    exact (LoaderFacts.labelled_set_column _ _ _ _ Hin).
Qed.

Lemma datetime_add_days_raises t k e :
  datetime_add_days t k = Raise e -> e = OverflowError.
Proof.
  unfold datetime_add_days, add_days.
  destruct (_ && _); cbn [rbind]; congruence.
Qed.

Lemma target_date_raises exchange e :
  target_date_for_fetch base_date_for_run past_days exchange = Raise e ->
  e = OverflowError.
Proof.
  unfold target_date_for_fetch.
  destruct (String.eqb exchange "SnP").
  - destruct (datetime_add_days base_date_for_run (-1)) as [t|e1] eqn:H1;
      cbn [rbind].
    + apply datetime_add_days_raises.
    + intros [= <-]. exact (datetime_add_days_raises _ _ _ H1).
  - cbn [rbind]. apply datetime_add_days_raises.
Qed.

(** What one turn of the inner loop does. *)
Lemma run_symbol_effects symbol exchange w :
  match target_date_for_fetch base_date_for_run past_days exchange with
  | Raise e => step (symbol, exchange) w = (Raise e, w) /\ e = OverflowError
  | Ok T =>
      exists tr arts',
        step (symbol, exchange) w = (Ok tt, mkWorld arts' (trace w ++ tr))
        /\ slept tr = 1
        /\ (queried tr = [] \/ queried tr = [yf_Ticker symbol])
        /\ (fetch_request (strftime T) (strftime T) = None \/ 
            queried tr = [yf_Ticker symbol])
        /\ ((written tr = [] /\ arts' = artifacts w)
            \/ exists df,
                 written tr = [ohlc_file_path output_folder symbol]
                 /\ arts' = <[ohlc_file_path output_folder symbol := df]> (artifacts w)
                 /\ stored_for (exchange_zone (yf_Ticker symbol)) exchange df)
  end.
Proof.
  destruct (target_date_for_fetch base_date_for_run past_days exchange)
    as [T|e] eqn:HT.
  - unfold run_symbol. run_monad. rewrite HT.
    rewrite fetch_ohlc_data_spec.
    destruct (fetch_request (strftime T) (strftime T)) as [[a b]|].
    + destruct (normalized _ _ _) as [df|] eqn:Hn; cbn [fst snd artifacts trace].
      * destruct (normalized_shape _ _ _ _ Hn) as ([stamps Hix] & Hempty & _).
        eexists [_; _; _], _. rewrite <- !app_assoc.
        split; [reflexivity|]. split; [reflexivity|].
        split; [right; reflexivity|]. split; [right; reflexivity|].
        right. eexists. split; [reflexivity|]. split; [reflexivity|].
        exact (stored_for_tagged _ _ _ _ Hix Hempty).
      * eexists [_; _], _. rewrite <- !app_assoc.
        split; [reflexivity|]. split; [reflexivity|].
        split; [right; reflexivity|]. split; [right; reflexivity|].
        left. split; reflexivity.
    + cbn [fst snd artifacts trace]. eexists [_], _.
      split; [reflexivity|]. split; [reflexivity|].
      split; [left; reflexivity|]. split; [left; reflexivity|].
      left. split; reflexivity.
  - split; [|exact (target_date_raises _ _ HT)].
    unfold run_symbol. run_monad. rewrite HT. destruct w. reflexivity.
Qed.

(** X10. A symbol whose fetch gives data is stored under its sanitised name in the
    output folder, tagged with its exchange in every row; then the loop waits
    one second. *)
Theorem fetched_symbol_is_stored
    (symbol exchange : string) (T : datetime) (df : DataFrame) (w w1 : world) :
  target_date_for_fetch base_date_for_run past_days exchange = Ok T ->
  fetch_ohlc_data history wall_to_instant (yf_Ticker symbol)
    (strftime T) (strftime T) w = (Ok (Some df), w1) ->
  step (symbol, exchange) w
  = (Ok tt,
     mkWorld
       (<[ohlc_file_path output_folder symbol :=
            set_scalar df "stock_exchange" (CStr exchange)]> (artifacts w))
       (trace w1 ++ [ToCsv (ohlc_file_path output_folder symbol); Sleep 1]))
  /\ stored_for (exchange_zone (yf_Ticker symbol)) exchange
       (set_scalar df "stock_exchange" (CStr exchange))
  /\ nrows (set_scalar df "stock_exchange" (CStr exchange)) = nrows df.
Proof.
  intros HT Hfetch.
  assert (Hshape : (exists stamps,
                       df_index df
                       = DatetimeIndex stamps (Some (exchange_zone (yf_Ticker symbol))))
                   /\ empty df = false /\ artifacts w1 = artifacts w).
  { rewrite fetch_ohlc_data_spec in Hfetch.
    destruct (fetch_request (strftime T) (strftime T)) as [[a b]|];
      [|discriminate].
    injection Hfetch as Hn <-.
    destruct (normalized_shape _ _ _ _ Hn) as (Hix & Hempty & _).
    split; [exact Hix|]. split; [exact Hempty | reflexivity]. }
  destruct Hshape as ([stamps Hix] & Hempty & Harts).
  split; [|split].
  - unfold run_symbol. run_monad. rewrite HT, Hfetch.
    cbn [fst snd artifacts trace]. rewrite Harts, <- app_assoc. reflexivity.
  - exact (stored_for_tagged _ _ _ _ Hix Hempty).
  - apply nrows_set_column.
Qed.

Lemma lookup_after_insert (arts : gmap string DataFrame) key df path df' :
  <[key := df]> arts !! path = Some df' ->
  (path = key /\ df' = df) \/ arts !! path = Some df'.
Proof.
  destruct (decide (key = path)) as [->|Hne].
  - rewrite lookup_insert_eq. intros [= <-]. left. split; reflexivity.
  - rewrite lookup_insert_ne by exact Hne. right. assumption.
Qed.

Lemma for_each_stores (l : list (string * string)) :
  forall w, exists r w',
    for_each l step w = (r, w')
    /\ (r = Ok tt \/ r = Raise OverflowError)
    /\ (forall path df,
          artifacts w' !! path = Some df ->
          artifacts w !! path = Some df
          \/ exists symbol exchange,
               In (symbol, exchange) l
               /\ path = ohlc_file_path output_folder symbol
               /\ stored_for (exchange_zone (yf_Ticker symbol)) exchange df)
    /\ (forall path, is_Some (artifacts w !! path) ->
                     is_Some (artifacts w' !! path)).
Proof.
  induction l as [|[symbol exchange] l IH]; intros w.
  - exists (Ok tt), w. split; [reflexivity|]. split; [left; reflexivity|].
    split; [intros path df H; left; exact H | intros path H; exact H].
  - cbn [for_each]. unfold bind at 1.
    pose proof (run_symbol_effects symbol exchange w) as Hstep.
    destruct (target_date_for_fetch base_date_for_run past_days exchange)
      as [T|e].
    + destruct Hstep as (tr & arts' & -> & _ & _ & _ & Hw).
      destruct (IH (mkWorld arts' (trace w ++ tr)))
        as (r & w' & -> & Hr & Hnew & Hold).
      exists r, w'. split; [reflexivity|]. split; [exact Hr|].
      cbn [artifacts] in Hnew, Hold. split.
      * intros path df Hlook. destruct (Hnew path df Hlook) as [Hin|Hin].
        -- destruct Hw as [[_ ->]|(df0 & _ & -> & Hsf)]; [left; exact Hin|].
           apply lookup_after_insert in Hin as [[-> ->]|Hin]; [|left; exact Hin].
           right. exists symbol, exchange.
           split; [left; reflexivity|]. split; [reflexivity | exact Hsf].
        -- right. destruct Hin as (sy & ex & Hin & Hp & Hsf).
           exists sy, ex. split; [right; exact Hin|]. split; assumption.
      * intros path Hsome. apply Hold.
        destruct Hw as [[_ ->]|(df0 & _ & -> & _)]; [exact Hsome|].
        destruct (decide (ohlc_file_path output_folder symbol = path)) as [->|Hne].
        -- rewrite lookup_insert_eq. eauto.
        -- rewrite lookup_insert_ne by exact Hne. exact Hsome.
    + destruct Hstep as [-> ->].
      exists (Raise OverflowError), w. split; [reflexivity|].
      split; [right; reflexivity|].
      split; [intros path df H; left; exact H | intros path H; exact H].
Qed.

(** X11. Whatever the provider does, a run ends normally or with the overflow of a
    target date, and it keeps every artifact that was there.  An artifact
    found afterwards was there before, unchanged, or is the artifact of one
    of the symbols: at its sanitised name in the output folder, not empty,
    with an index in the zone of the symbol's exchange and tagged with the
    exchange in every row. *)
Theorem run_stores_only_its_symbols
    (symbols : list (string * string)) (w w' : world) (r : result unit) :
  run history yf_Ticker wall_to_instant symbols output_folder
    base_date_for_run past_days w = (r, w') ->
  (r = Ok tt \/ r = Raise OverflowError)
  /\ (forall path df,
        artifacts w' !! path = Some df ->
        artifacts w !! path = Some df
        \/ exists symbol exchange,
             In (symbol, exchange) symbols
             /\ path = ohlc_file_path output_folder symbol
             /\ stored_for (exchange_zone (yf_Ticker symbol)) exchange df)
  /\ (forall path, is_Some (artifacts w !! path) ->
                   is_Some (artifacts w' !! path)).
Proof.
  intros Hrun.
  pose proof (run_flatten history yf_Ticker wall_to_instant output_folder
                base_date_for_run past_days symbols w) as [Hres Harts].
  rewrite Hrun in Hres, Harts. cbn [fst snd] in Hres, Harts.
  destruct (for_each_stores symbols w) as (r0 & w0 & Heq & Hr & Hnew & Hold).
  rewrite Heq in Hres, Harts. cbn [fst snd] in Hres, Harts.
  subst r0. rewrite Harts. split; [exact Hr|]. split; assumption.
Qed.

(** *** Pacing *)

Lemma fetch_request_single_day T T1 :
  valid_date (dt_date T) ->
  add_days (dt_date T) 1 = Ok T1 ->
  fetch_request (strftime T) (strftime T) = Some (strftime T, strftime_date T1).
Proof.
  intros Hvalid Hnext. unfold fetch_request.
  rewrite String.eqb_refl. unfold strftime at 1.
  rewrite (strptime_strftime _ Hvalid).
  unfold datetime_add_days. cbn [dt_date]. rewrite Hnext. reflexivity.
Qed.

Lemma datetime_add_days_in_range t k :
  0 < ymd2ord (dt_date t) + k <= MAXORDINAL ->
  datetime_add_days t k
  = Ok (mkDatetime (ord2ymd (ymd2ord (dt_date t) + k)) (dt_micros t)).
Proof.
  intros H. unfold datetime_add_days. rewrite (add_days_in_range _ _ H).
  reflexivity.
Qed.

Lemma target_dates_usable exchange :
  1 < ymd2ord (dt_date base_date_for_run) <= MAXORDINAL ->
  1 <= ymd2ord (dt_date base_date_for_run) - 1 - past_days ->
  ymd2ord (dt_date base_date_for_run) - past_days < MAXORDINAL ->
  exists T T1,
    target_date_for_fetch base_date_for_run past_days exchange = Ok T
    /\ valid_date (dt_date T)
    /\ add_days (dt_date T) 1 = Ok T1.
Proof.
  intros Hnow Hlow Hhigh. unfold target_date_for_fetch.
  destruct (String.eqb exchange "SnP").
  - rewrite (datetime_add_days_in_range base_date_for_run (-1)) by lia.
    cbn [rbind].
    rewrite datetime_add_days_in_range;
      cbn [dt_date dt_micros]; rewrite ord_roundtrip by lia; [|lia].
    eexists _, _. split; [reflexivity|]. cbn [dt_date].
    split; [apply ord2ymd_valid; lia|].
    apply add_days_in_range. rewrite ord_roundtrip by lia. lia.
  - cbn [rbind].
    rewrite (datetime_add_days_in_range base_date_for_run (- past_days)) by lia.
    eexists _, _. split; [reflexivity|]. cbn [dt_date].
    split; [apply ord2ymd_valid; lia|].
    apply add_days_in_range. rewrite ord_roundtrip by lia. lia.
Qed.

Section Usable.

Hypothesis usable :
  forall exchange, exists T T1,
    target_date_for_fetch base_date_for_run past_days exchange = Ok T
    /\ valid_date (dt_date T)
    /\ add_days (dt_date T) 1 = Ok T1.

Lemma step_paced symbol exchange w :
  exists tr arts',
    step (symbol, exchange) w = (Ok tt, mkWorld arts' (trace w ++ tr))
    /\ slept tr = 1
    /\ queried tr = [yf_Ticker symbol]
    /\ (length (written tr) <= 1)%nat.
Proof.
  destruct (usable exchange) as (T & T1 & HT & Hvalid & Hnext).
  pose proof (run_symbol_effects symbol exchange w) as Hstep.
  rewrite HT in Hstep.
  destruct Hstep as (tr & arts' & Heq & Hslept & _ & Hq & Hw).
  exists tr, arts'. split; [exact Heq|]. split; [exact Hslept|]. split.
  - destruct Hq as [Hq|Hq]; [|exact Hq].
    rewrite (fetch_request_single_day T T1 Hvalid Hnext) in Hq. discriminate.
  - destruct Hw as [[-> _]|(df & -> & _)]; cbn [length]; lia.
Qed.

Lemma for_each_paced (l : list (string * string)) :
  forall w, exists tr arts',
    for_each l step w = (Ok tt, mkWorld arts' (trace w ++ tr))
    /\ slept tr = Z.of_nat (length l)
    /\ queried tr = map (fun entry => yf_Ticker (fst entry)) l
    /\ (length (written tr) <= length l)%nat.
Proof.
  induction l as [|[symbol exchange] l IH]; intros w.
  - exists [], (artifacts w). rewrite app_nil_r. destruct w.
    split; [reflexivity|]. split; [reflexivity|]. split; [reflexivity|].
    exact (le_n 0).
  - cbn [for_each]. unfold bind at 1.
    destruct (step_paced symbol exchange w) as (tr1 & arts1 & -> & Hs1 & Hq1 & Hw1).
    destruct (IH (mkWorld arts1 (trace w ++ tr1)))
      as (tr2 & arts2 & -> & Hs2 & Hq2 & Hw2).
    cbn [trace]. exists (tr1 ++ tr2), arts2. rewrite app_assoc.
    split; [reflexivity|].
    rewrite slept_app, queried_app, written_app, length_app, Hs1, Hs2, Hq1, Hq2.
    split; [cbn [length]; lia|]. split; [reflexivity|]. cbn [length]. lia.
Qed.

Lemma run_batch_paced n i (b : list (string * string)) w :
  exists tr arts',
    run_batch history yf_Ticker wall_to_instant output_folder
      base_date_for_run past_days n (i, b) w
    = (Ok tt, mkWorld arts' (trace w ++ tr))
    /\ slept tr = Z.of_nat (length b) + (if (0 <? i)%nat then 5 else 0)
    /\ queried tr = map (fun entry => yf_Ticker (fst entry)) b
    /\ (length (written tr) <= length b)%nat.
Proof.
  unfold run_batch. run_monad. cbn [fst snd artifacts trace].
  destruct (0 <? i)%nat; cbn [fst snd artifacts trace].
  - match goal with
    | |- context [for_each b _ ?w0] =>
        destruct (for_each_paced b w0) as (tr & arts' & -> & Hs & Hq & Hw)
    end.
    cbn [trace]. exists ([Print (MsgBatch (i + 1) n); Sleep 5] ++ tr), arts'.
    rewrite <- !app_assoc. split; [reflexivity|].
    rewrite slept_app, queried_app, written_app, Hs, Hq.
    split; [cbn [slept]; lia|]. split; [reflexivity | exact Hw].
  - match goal with
    | |- context [for_each b _ ?w0] =>
        destruct (for_each_paced b w0) as (tr & arts' & -> & Hs & Hq & Hw)
    end.
    cbn [trace]. exists ([Print (MsgBatch (i + 1) n)] ++ tr), arts'.
    rewrite <- !app_assoc. split; [reflexivity|].
    rewrite slept_app, queried_app, written_app, Hs, Hq.
    split; [cbn [slept]; lia|]. split; [reflexivity | exact Hw].
Qed.

Lemma batches_paced n (bs : list (list (string * string))) :
  forall k w, exists tr arts',
    for_each (combine (seq k (length bs)) bs)
      (run_batch history yf_Ticker wall_to_instant output_folder
         base_date_for_run past_days n) w
    = (Ok tt, mkWorld arts' (trace w ++ tr))
    /\ slept tr
       = Z.of_nat (length (concat bs))
         + 5 * Z.of_nat (if (0 <? k)%nat then length bs else length bs - 1)
    /\ queried tr = map (fun entry => yf_Ticker (fst entry)) (concat bs)
    /\ (length (written tr) <= length (concat bs))%nat.
Proof.
  induction bs as [|b bs IH]; intros k w.
  - exists [], (artifacts w). rewrite app_nil_r. destruct w.
    split; [reflexivity|].
    split; [destruct (0 <? k)%nat; reflexivity|].
    split; [reflexivity | exact (le_n 0)].
  - cbn [length seq combine for_each]. unfold bind at 1.
    destruct (run_batch_paced n k b w) as (tr1 & arts1 & -> & Hs1 & Hq1 & Hw1).
    destruct (IH (S k) (mkWorld arts1 (trace w ++ tr1)))
      as (tr2 & arts2 & -> & Hs2 & Hq2 & Hw2).
    cbn [trace]. exists (tr1 ++ tr2), arts2. rewrite app_assoc.
    split; [reflexivity|].
    cbn [concat]. rewrite slept_app, queried_app, written_app, !length_app,
      map_app, Hs1, Hs2, Hq1, Hq2.
    split; [|split; [reflexivity | lia]].
    change (0 <? S k)%nat with true. cbv iota.
    destruct (0 <? k)%nat; lia.
Qed.

Lemma run_paced (symbols : list (string * string)) (w : world) :
  exists tr arts',
    run history yf_Ticker wall_to_instant symbols output_folder
      base_date_for_run past_days w
    = (Ok tt, mkWorld arts' (trace w ++ tr))
    /\ queried tr = map (fun entry => yf_Ticker (fst entry)) symbols
    /\ slept tr
       = Z.of_nat (length symbols)
         + 5 * Z.of_nat ((length symbols + 19) / 20 - 1)
    /\ (length (written tr) <= length symbols)%nat.
Proof.
  pose proof (batches_cover symbols) as Hcover.
  pose proof (batches_count symbols) as Hcount.
  unfold run, enumerate. run_monad. cbn [fst snd artifacts trace].
  match goal with
  | |- context [for_each (combine (seq 0 (length ?bs)) ?bs)
                  (run_batch _ _ _ _ _ _ ?n) ?w0] =>
      destruct (batches_paced n bs 0%nat w0) as (tr & arts' & -> & Hs & Hq & Hw)
  end.
  cbn [fst snd artifacts trace].
  exists ([Print (MsgProcessing (length symbols))] ++ tr ++ [Print MsgComplete]),
    arts'.
  rewrite <- !app_assoc. split; [reflexivity|].
  rewrite Hcover, Hcount in *.
  rewrite !queried_app, !slept_app, !written_app, !length_app, Hs, Hq.
  change (0 <? 0)%nat with false in *. cbv iota.
  cbn [queried slept written omap length app].
  rewrite app_nil_r.
  split; [reflexivity|]. split; [lia|].
  change (length (written [Print (MsgProcessing (length symbols))])) with 0%nat.
  change (length (written [Print MsgComplete])) with 0%nat. lia.
Qed.

End Usable.

(** X12. When the target dates are inside the calendar and have a next day, a run
    over [n] symbols returns whatever the provider does; it asks the provider
    once per symbol, in list order, writes at most one file per symbol, and
    sleeps [n + 5 * (ceil(n / 20) - 1)] seconds: one per symbol and five
    before each batch but the first. *)
Theorem run_asks_once_and_paces
    (symbols : list (string * string)) (w : world) :
  1 < ymd2ord (dt_date base_date_for_run) <= MAXORDINAL ->
  1 <= ymd2ord (dt_date base_date_for_run) - 1 - past_days ->
  ymd2ord (dt_date base_date_for_run) - past_days < MAXORDINAL ->
  exists tr arts',
    run history yf_Ticker wall_to_instant symbols output_folder
      base_date_for_run past_days w
    = (Ok tt, mkWorld arts' (trace w ++ tr))
    /\ queried tr = map (fun entry => yf_Ticker (fst entry)) symbols
    /\ slept tr
       = Z.of_nat (length symbols)
         + 5 * Z.of_nat ((length symbols + 19) / 20 - 1)
    /\ (length (written tr) <= length symbols)%nat.
Proof.
  intros Hnow Hlow Hhigh. apply run_paced.
  intros exchange. exact (target_dates_usable exchange Hnow Hlow Hhigh).
Qed.

End RunMore.

End RunMore.

(** ** More on the load stage *)

Module LoaderMore.
Import PyStr Frame Loader LoaderAux MoreAux FrameFacts LoaderFacts.

(** *** The reshaping of a frame *)

Lemma has_column_set_column df c data c' :
  has_column (set_column df c data) c' = has_column df c' || String.eqb c' c.
Proof.
  unfold has_column at 1. rewrite columns_set_column.
  destruct (has_column df c) eqn:Hc.
  - fold (has_column df c').
    destruct (String.eqb c' c) eqn:Heq; [|rewrite orb_false_r; reflexivity].
    apply String.eqb_eq in Heq. subst c'. rewrite Hc. reflexivity.
  - rewrite existsb_app. cbn [existsb]. rewrite orb_false_r. reflexivity.
Qed.

Lemma has_column_fill_missing df c c' :
  has_column (fill_missing df c) c' = has_column df c' || String.eqb c' c.
Proof.
  unfold fill_missing. destruct (has_column df c) eqn:Hc; cbn [negb].
  - destruct (String.eqb c' c) eqn:Heq; [|rewrite orb_false_r; reflexivity].
    apply String.eqb_eq in Heq. subst c'. rewrite Hc. reflexivity.
  - apply has_column_set_column.
Qed.

Lemma labelled_nil df c : has_column df c = false -> labelled df c = [].
Proof.
  unfold has_column, columns, labelled.
  induction (df_columns df) as [|[c0 v] l IH]; [reflexivity|].
  cbn [map existsb List.filter fst]. rewrite String.eqb_sym.
  destruct (String.eqb c0 c); [discriminate|]. exact IH.
Qed.

Lemma select_columns_missing df labels c :
  In c labels -> has_column df c = false ->
  exists e, select_columns df labels = Raise e.
Proof.
  intros Hin Hc. induction labels as [|c0 labels IH]; [destruct Hin|].
  cbn [select_columns]. destruct Hin as [->|Hin].
  - rewrite (labelled_nil _ _ Hc). eauto.
  - destruct (IH Hin) as [e He].
    destruct (labelled df c0); [eauto|]. rewrite He. cbn [rbind]. eauto.
Qed.

Section Clean.

Variable to_datetime : cell -> result cell.

(** X15. An artifact that lacks the time column or one of the five price and
    volume columns cannot be reshaped: [clean_dataframe] raises, and it is a
    [KeyError] when the time column is the one that is missing.  Only
    dividends, stock splits and the exchange have defaults. *)
Theorem missing_required_column_raises
    (df : DataFrame) (stock_symbol c : string) :
  In c ["date_time"; "open"; "high"; "low"; "close"; "volume"] ->
  has_column (rename column_renames df) c = false ->
  (exists e, clean_dataframe to_datetime df stock_symbol = Raise e)
  /\ (c = "date_time" ->
      clean_dataframe to_datetime df stock_symbol = Raise KeyError).
Proof.
  intros Hin Hc. unfold clean_dataframe. cbn [fold_left].
  set (df0 := rename column_renames df) in *.
  set (df1 := fill_missing (fill_missing df0 "dividends") "stock_splits").
  set (df2 := if negb (has_column df1 "stock_exchange")
              then set_scalar df1 "stock_exchange" CNull else df1).
  assert (H2 : forall c', has_column df2 c'
                          = has_column df0 c'
                            || String.eqb c' "dividends"
                            || String.eqb c' "stock_splits"
                            || String.eqb c' "stock_exchange").
  { intros c'. subst df2 df1.
    destruct (has_column _ "stock_exchange") eqn:Hex; cbn [negb].
    - rewrite !has_column_fill_missing.
      destruct (String.eqb c' "stock_exchange") eqn:Heq;
        [|rewrite orb_false_r; reflexivity].
      apply String.eqb_eq in Heq. subst c'.
      rewrite !has_column_fill_missing in Hex. rewrite Hex. reflexivity.
    - unfold set_scalar. rewrite has_column_set_column,
        !has_column_fill_missing. reflexivity. }
  assert (Hcase : c = "date_time"
                  \/ String.eqb c "date_time" = false
                     /\ has_column df2 c = false).
  { cbn [In] in Hin.
    destruct Hin as [<-|[<-|[<-|[<-|[<-|[<-|[]]]]]]]; [left; reflexivity|..];
      right; (split; [reflexivity|]); rewrite H2, Hc; reflexivity. }
  destruct Hcase as [->|[Hne Hc2]].
  - assert (Hno : has_column df2 "date_time" = false)
      by (rewrite H2, Hc; reflexivity).
    rewrite (labelled_nil _ _ Hno). cbn [rbind]. split; [eauto | reflexivity].
  - split; [|intros ->; discriminate].
    destruct (match labelled df2 "date_time" with
              | [] => Raise KeyError
              | [(_, col)] => pd_to_datetime to_datetime col
              | _ :: _ :: _ => Raise ValueError
              end) as [stamps|e]; cbn [rbind]; [|eauto].
    unfold select.
    destruct (select_columns_missing
                (set_scalar (set_column df2 "date_time" stamps) "stock_symbol"
                   (CStr stock_symbol))
                ["stock_symbol"; "date_time"; "open"; "high"; "low"; "close";
                 "volume"; "dividends"; "stock_splits"; "stock_exchange"] c)
      as [e He].
    + cbn [In] in Hin |- *. tauto.
    + unfold set_scalar. rewrite !has_column_set_column, Hc2, Hne.
      cbn [In] in Hin.
      destruct Hin as [<-|[<-|[<-|[<-|[<-|[<-|[]]]]]]]; reflexivity.
    + rewrite He. cbn [rbind]. eauto.
Qed.

End Clean.

(** *** One file, then all files *)

Lemma insert_rows_extends stmt data :
  forall tbl tbl',
    insert_rows stmt tbl data = Ok tbl' ->
    exists added, tbl' = tbl ++ added /\ sublist added data.
Proof.
  induction data as [|r data IH]; intros tbl tbl' H; cbn [insert_rows] in H.
  - injection H as <-. exists []. rewrite app_nil_r. split; constructor.
  - destruct (insert_row stmt tbl r) as [tbl1|] eqn:Hrow; cbn [rbind] in H;
      [|discriminate].
    destruct (IH _ _ H) as (added & -> & Hsub).
    unfold insert_row in Hrow.
    destruct (key_of r) as [k|]; cbn [rbind] in Hrow; [|discriminate].
    destruct (has_key tbl k).
    + destruct (on_conflict_do_nothing stmt); [|discriminate].
      injection Hrow as <-. exists added. split; [reflexivity|].
      apply sublist_cons. exact Hsub.
    + injection Hrow as <-. exists (r :: added).
      rewrite <- app_assoc. split; [reflexivity|].
      apply sublist_skip. exact Hsub.
Qed.


Section Rows.

Variable timestamp_item : Z -> cell.


End Rows.

Section Environment.

Variable path_exists : string -> bool.
Variable json_load : string -> result json.
Variable read_csv : string -> result DataFrame.
Variable to_datetime : cell -> result cell.
Variable timestamp_item : Z -> cell.
Variable glob_csv : string -> list string.

Abbreviation one_file := (process_single_file path_exists json_load read_csv
                        to_datetime timestamp_item).
Abbreviation all_files := (process_files path_exists json_load read_csv
                         to_datetime timestamp_item).
Abbreviation the_plan := (plan path_exists json_load read_csv to_datetime
                        timestamp_item).
Abbreviation is_covered := (covered path_exists json_load read_csv to_datetime
                          timestamp_item).

(** X18. An artifact that reads as an empty frame is skipped: nothing is
    inserted, the file does not count as processed, and the only output
    after the resolution of the identity is the note on the empty file. *)
Theorem empty_artifact_is_skipped
    (file_path : string) (df : DataFrame) (identity : json) (s s1 : session) :
  read_csv file_path = Ok df ->
  empty df = true ->
  resolve_symbol path_exists json_load file_path s = (Ok identity, s1) ->
  one_file file_path s
  = (Ok false,
     mkSession (committed s) (working s) (stdout s1 ++ [MsgEmptyFile file_path])).
Proof.
  intros Hread Hempty Hres. rewrite resolve_symbol_spec in Hres.
  rewrite process_single_file_spec. unfold plan.
  destruct (resolution path_exists json_load file_path) as [msgs identity0].
  cbn [fst snd] in Hres. injection Hres as -> <-.
  rewrite Hread, Hempty. unfold say. cbn [committed working stdout].
  rewrite app_assoc. reflexivity.
Qed.

Lemma one_file_effects file_path s r s' :
  one_file file_path s = (r, s') ->
  committed s' = committed s
  /\ (exists added, working s' = working s ++ added)
  /\ (exists msgs, stdout s' = stdout s ++ msgs)
  /\ (forall e, r = Raise e -> working s' = working s).
Proof.
  rewrite process_single_file_spec.
  destruct (the_plan file_path) as [msgs [[[sym data]|]|e]].
  - destruct (insert_rows insert_query (working s) data) as [tbl|e] eqn:Hins;
      intros [= <- <-]; cbn [committed working stdout say].
    + destruct (insert_rows_extends _ _ _ _ Hins) as (added & -> & _).
      split; [reflexivity|]. split; [eauto|]. split; [eauto | discriminate].
    + split; [reflexivity|]. split; [exists []; symmetry; apply app_nil_r|].
      split; [eauto | reflexivity].
  - intros [= <- <-]; cbn [committed working stdout say].
    split; [reflexivity|]. split; [exists []; symmetry; apply app_nil_r|].
    split; [eauto | reflexivity].
  - intros [= <- <-]; cbn [committed working stdout say].
    split; [reflexivity|]. split; [exists []; symmetry; apply app_nil_r|].
    split; [eauto | reflexivity].
Qed.

Lemma all_files_app (before after : list string) :
  forall n s,
    all_files (before ++ after) n s
    = match all_files before n s with
      | (Ok n', s') => all_files after n' s'
      | (Raise e, s') => (Raise e, s')
      end.
Proof.
  induction before as [|f before IH]; intros n s; [reflexivity|].
  cbn [app process_files]. unfold bind, commit, modify.
  destruct (one_file f s) as [[ok|e] s1]; [apply IH | reflexivity].
Qed.

Lemma all_files_effects (files : list string) :
  forall n s r s' base extra,
    all_files files n s = (r, s') ->
    committed s = base ++ extra ->
    (exists open_rows, working s = committed s ++ open_rows) ->
    (exists extra', committed s' = base ++ extra')
    /\ (exists open_rows, working s' = committed s' ++ open_rows)
    /\ (exists msgs, stdout s' = stdout s ++ msgs)
    /\ (forall n', r = Ok n' -> (n <= n' <= n + length files)%nat).
Proof.
  induction files as [|f files IH]; intros n s r s' base extra Hrun Hbase Hopen.
  - injection Hrun as <- <-. split; [eauto|]. split; [exact Hopen|].
    split; [exists []; symmetry; apply app_nil_r|].
    intros n' [= <-]; cbn [length]; lia.
  - cbn [process_files] in Hrun. unfold bind at 1 in Hrun.
    destruct (one_file f s) as [[ok|e] s1] eqn:Hone.
    + destruct (one_file_effects _ _ _ _ Hone)
        as (Hc & [added Hw] & [msgs Hout] & _).
      unfold bind at 1 in Hrun. unfold commit at 1, modify in Hrun.
      destruct Hopen as [open_rows Hopen].
      destruct (IH _ _ _ _ base (extra ++ open_rows ++ added) Hrun)
        as (Hb' & Ho' & [msgs' Hout'] & Hcount).
      { cbn [committed]. rewrite Hw, Hopen, Hbase, <- !app_assoc. reflexivity. }
      { cbn [committed working]. exists []. symmetry. apply app_nil_r. }
      split; [exact Hb'|]. split; [exact Ho'|].
      split; [exists (msgs ++ msgs'); rewrite Hout'; cbn [stdout];
              rewrite Hout, app_assoc; reflexivity|].
      intros n' Hr. specialize (Hcount n' Hr). cbn [length].
      destruct ok; lia.
    + injection Hrun as <- <-.
      destruct (one_file_effects _ _ _ _ Hone)
        as (Hc & [added Hw] & [msgs Hout] & _).
      destruct Hopen as [open_rows Hopen].
      split; [exists extra; rewrite Hc; exact Hbase|].
      split; [exists (open_rows ++ added);
              rewrite Hw, Hc, Hopen, app_assoc; reflexivity|].
      split; [eauto | discriminate].
Qed.

Lemma all_files_synced (files : list string) :
  forall n s n' s',
    files <> [] ->
    all_files files n s = (Ok n', s') ->
    committed s' = working s'.
Proof.
  induction files as [|f files IH]; intros n s n' s' Hne Hrun; [congruence|].
  cbn [process_files] in Hrun. unfold bind at 1 in Hrun.
  destruct (one_file f s) as [[ok|e] s1]; [|discriminate].
  unfold bind at 1 in Hrun. unfold commit at 1, modify in Hrun.
  destruct files as [|f' files'].
  - injection Hrun as _ <-. reflexivity.
  - assert (Hne' : f' :: files' <> []) by discriminate.
    exact (IH _ _ _ _ Hne' Hrun).
Qed.

(** X19. The load stage only adds rows: whatever happens, what was committed
    before is still there, in place, at the front of the table; the session
    is left without open work and the earlier output is kept. *)
Theorem load_stage_only_appends (s s' : session) (r : result unit) :
  working s = committed s ->
  main path_exists json_load read_csv to_datetime timestamp_item glob_csv s
  = (r, s') ->
  (exists added, committed s' = committed s ++ added)
  /\ working s' = committed s'
  /\ exists msgs, stdout s' = stdout s ++ msgs.
Proof.
  intros Hfresh. unfold main, try_finally, get_csv_files.
  unfold bind at 1.
  destruct (all_files (glob_csv "nifty_500_data") 0%nat s) as [[n|e] s1] eqn:Hrun.
  - destruct (all_files_effects _ _ _ _ _ (committed s) [] Hrun)
      as ([extra' Hb] & _ & [msgs Hout] & _).
    { symmetry. apply app_nil_r. }
    { exists []. rewrite Hfresh. symmetry. apply app_nil_r. }
    run_loader. cbn [committed working stdout]. intros [= <- <-].
    cbn [committed working stdout].
    split; [eauto|]. split; [reflexivity|].
    rewrite Hout, <- app_assoc. eauto.
  - destruct (all_files_effects _ _ _ _ _ (committed s) [] Hrun)
      as ([extra' Hb] & _ & [msgs Hout] & _).
    { symmetry. apply app_nil_r. }
    { exists []. rewrite Hfresh. symmetry. apply app_nil_r. }
    run_loader. cbn [committed working stdout]. intros [= <- <-].
    cbn [committed working stdout].
    split; [eauto|]. split; [reflexivity | eauto].
Qed.

(** X20. Files are committed one by one.  When the files before [file_path] are
    processed and [file_path] raises, the load stage raises the same
    exception: the rows of the earlier files stay committed, the later files
    are not looked at and no summary is printed. *)
Theorem failure_keeps_earlier_files
    (before after : list string) (file_path : string)
    (n : nat) (e : exn) (s s1 s2 : session) :
  glob_csv "nifty_500_data" = before ++ file_path :: after ->
  all_files before 0%nat s = (Ok n, s1) ->
  one_file file_path s1 = (Raise e, s2) ->
  main path_exists json_load read_csv to_datetime timestamp_item glob_csv s
  = (Raise e, mkSession (committed s1) (committed s1) (stdout s2))
  /\ (before <> [] -> committed s1 = working s1).
Proof.
  intros Hglob Hbefore Hfile. split.
  - unfold main, try_finally, get_csv_files. rewrite Hglob.
    unfold bind at 1. rewrite all_files_app, Hbefore.
    cbn [process_files]. unfold bind at 1. rewrite Hfile.
    destruct (one_file_effects _ _ _ _ Hfile) as (Hc & _).
    run_loader. rewrite Hc. reflexivity.
  - intros Hne. exact (all_files_synced _ _ _ _ _ Hne Hbefore).
Qed.

Lemma all_files_output (files : list string) :
  forall n s r s',
    all_files files n s = (r, s') ->
    (exists msgs, stdout s' = stdout s ++ msgs)
    /\ (forall n', r = Ok n' -> (n <= n' <= n + length files)%nat).
Proof.
  induction files as [|f files IH]; intros n s r s' Hrun.
  - injection Hrun as <- <-. split; [exists []; symmetry; apply app_nil_r|].
    intros n' [= <-]. cbn [length]. lia.
  - cbn [process_files] in Hrun. unfold bind at 1 in Hrun.
    destruct (one_file f s) as [[ok|e] s1] eqn:Hone.
    + destruct (one_file_effects _ _ _ _ Hone) as (_ & _ & [msgs Hout] & _).
      unfold bind at 1 in Hrun. unfold commit at 1, modify in Hrun.
      destruct (IH _ _ _ _ Hrun) as ([msgs' Hout'] & Hcount).
      cbn [stdout] in Hout'. split.
      * exists (msgs ++ msgs'). rewrite Hout', Hout, app_assoc. reflexivity.
      * intros n' Hr. specialize (Hcount n' Hr). cbn [length].
        destruct ok; lia.
    + injection Hrun as <- <-.
      destruct (one_file_effects _ _ _ _ Hone) as (_ & _ & Hout & _).
      split; [exact Hout | discriminate].
Qed.

(** X21. When the load stage returns, the last line printed is the summary; the
    number of processed files it gives is at most the number of files
    found. *)
Theorem summary_counts_files (s s' : session) :
  main path_exists json_load read_csv to_datetime timestamp_item glob_csv s
  = (Ok tt, s') ->
  exists processed_count msgs,
    stdout s'
    = stdout s ++ msgs
      ++ [MsgSummary processed_count (length (glob_csv "nifty_500_data"))]
    /\ (processed_count <= length (glob_csv "nifty_500_data"))%nat.
Proof.
  unfold main, try_finally, get_csv_files. unfold bind at 1.
  destruct (all_files (glob_csv "nifty_500_data") 0%nat s) as [[n|e] s1] eqn:Hrun;
    run_loader; cbn [committed working stdout]; [|discriminate].
  intros [= <-]. cbn [stdout].
  destruct (all_files_output _ _ _ _ _ Hrun) as ([msgs Hout] & Hcount).
  exists n, msgs. rewrite Hout, <- app_assoc.
  split; [reflexivity|]. specialize (Hcount n eq_refl). lia.
Qed.

(** *** Loading everything again *)

Lemma keyed_in_grows (tbl tbl' : list row) (r : row) :
  (forall k, has_key tbl k = true -> has_key tbl' k = true) ->
  keyed_in tbl r -> keyed_in tbl' r.
Proof. intros Hmono (k & Hk & Hin). exists k. auto. Qed.

Lemma covered_grows (tbl tbl' : list row) (file_path : string) :
  (forall k, has_key tbl k = true -> has_key tbl' k = true) ->
  is_covered tbl file_path -> is_covered tbl' file_path.
Proof.
  intros Hmono. unfold covered.
  destruct (the_plan file_path) as [msgs [[[sym data]|]|e]]; auto.
  intros Hall. eapply Forall_impl; [exact Hall|].
  intros r. apply keyed_in_grows. exact Hmono.
Qed.

Lemma first_load_covers (files : list string) :
  forall n s n' s',
    all_files files n s = (Ok n', s') ->
    (forall k, has_key (working s) k = true -> has_key (working s') k = true)
    /\ Forall (is_covered (working s')) files.
Proof.
  induction files as [|f files IH]; intros n s n' s' Hrun.
  - injection Hrun as _ <-. split; [auto | constructor].
  - cbn [process_files] in Hrun. unfold bind at 1 in Hrun.
    destruct (one_file f s) as [[ok|e] s1] eqn:Hone; [|discriminate].
    unfold bind at 1 in Hrun. unfold commit at 1, modify in Hrun.
    destruct (IH _ _ _ _ Hrun) as [Hmono Hall]. cbn [working] in Hmono.
    rewrite process_single_file_spec in Hone.
    assert (Hfirst : (forall k, has_key (working s) k = true ->
                                has_key (working s1) k = true)
                     /\ is_covered (working s1) f).
    { unfold covered.
      destruct (the_plan f) as [msgs [[[sym data]|]|e]]; [| |discriminate].
      - destruct (insert_rows insert_query (working s) data) as [tbl|e] eqn:Hins;
          [|discriminate].
        injection Hone as _ <-. cbn [working].
        exact (insert_rows_covered _ _ _ _ Hins).
      - injection Hone as _ <-. cbn [working say]. split; [auto | exact I]. }
    destruct Hfirst as [Hmono1 Hcov]. split; [auto|].
    constructor; [|exact Hall].
    exact (covered_grows _ _ _ Hmono Hcov).
Qed.

Lemma second_load_adds_nothing (files : list string) :
  forall m s,
    Forall (is_covered (working s)) files ->
    exists m' s',
      all_files files m s = (Ok m', s')
      /\ working s' = working s
      /\ (committed s' = committed s \/ committed s' = working s).
Proof.
  induction files as [|f files IH]; intros m s Hall.
  - exists m, s. split; [reflexivity|]. split; [reflexivity | left; reflexivity].
  - apply Forall_cons in Hall as [Hcov Hall].
    cbn [process_files]. unfold bind at 1.
    rewrite process_single_file_spec. unfold covered in Hcov.
    destruct (the_plan f) as [msgs [[[sym data]|]|e]]; [| |destruct Hcov].
    + rewrite (insert_rows_noop insert_query _ data (working s) eq_refl Hcov).
      unfold bind at 1. unfold commit at 1, modify. cbn [working committed stdout].
      match goal with
      | |- context [all_files files ?k ?s0] =>
          destruct (IH k s0 Hall) as (m' & s' & -> & Hw & Hc)
      end.
      cbn [working committed] in Hw, Hc.
      exists m', s'. split; [reflexivity|]. split; [exact Hw|].
      right. destruct Hc as [Hc|Hc]; exact Hc.
    + unfold bind at 1. unfold commit at 1, modify. cbn [working committed stdout say].
      match goal with
      | |- context [all_files files ?k ?s0] =>
          destruct (IH k s0 Hall) as (m' & s' & -> & Hw & Hc)
      end.
      cbn [working committed] in Hw, Hc.
      exists m', s'. split; [reflexivity|]. split; [exact Hw|].
      right. destruct Hc as [Hc|Hc]; exact Hc.
Qed.

(** X22. Running the load stage again over the same files stores nothing new:
    after a load that returned, a second load returns as well and leaves the
    table as the first one left it. *)
Theorem second_load_stores_nothing (s s1 : session) :
  main path_exists json_load read_csv to_datetime timestamp_item glob_csv s
  = (Ok tt, s1) ->
  exists s2,
    main path_exists json_load read_csv to_datetime timestamp_item glob_csv s1
    = (Ok tt, s2)
    /\ committed s2 = committed s1
    /\ working s2 = working s1.
Proof.
  unfold main, try_finally, get_csv_files. unfold bind at 1.
  destruct (all_files (glob_csv "nifty_500_data") 0%nat s) as [[n|e] sa] eqn:Hrun;
    run_loader; cbn [committed working stdout]; [|discriminate].
  intros [= <-].
  destruct (first_load_covers _ _ _ _ _ Hrun) as [_ Hall].
  assert (Hcov : Forall (is_covered (committed sa)) (glob_csv "nifty_500_data")).
  { destruct (glob_csv "nifty_500_data") as [|f files] eqn:Hglob; [constructor|].
    assert (Hne : f :: files <> []) by discriminate.
    rewrite (all_files_synced _ _ _ _ _ Hne Hrun). exact Hall. }
  match goal with
  | |- context [all_files _ 0%nat ?s0] =>
      destruct (second_load_adds_nothing (glob_csv "nifty_500_data") 0%nat s0 Hcov)
        as (m' & s' & -> & Hw & Hc)
  end.
  cbn [working committed stdout] in Hw, Hc |- *.
  eexists. split; [reflexivity|]. cbn [committed working].
  destruct Hc as [Hc|Hc]; rewrite Hc; split; reflexivity.
Qed.

End Environment.

End LoaderMore.

(** ** The further properties at concrete inputs *)

Module MoreWitnesses.
Import PyStr Calendar Frame Fetcher FetcherAux Loader LoaderAux Pipeline PipelineAux.
Import MoreAux Examples MoreExamples.

(** The load script exits with status 1 after a successful fetch. *)
Lemma load_failure_witness :
  exists t',
    main_pipeline "/opt/pipeline" load_crashes [] = (Raise (SystemExit 1), t')
    /\ spawned t' = ["/opt/pipeline/nifty_ohlc_fetcher.py";
                     "/opt/pipeline/send_new_data_to_postgre.py"]
    /\ last t' = Some (Pipeline.Print MsgStoppedInsertion).
Proof.
  apply (PipelineMore.load_failure_stops_pipeline "/opt/pipeline" load_crashes
           "Processing complete" "").
  - vm_compute; reflexivity.
  - vm_compute; discriminate.
Defined.

(** The second symbol list of [disk_sp500_only]. *)
Lemma registry_entries_witness :
  Forall (fun entry =>
            snd entry = "SnP"
            /\ exists s, fst entry = s +:+ ""
                         /\ String.eqb s "" = false /\ strip s = s)
         [("AAPL", "SnP"); ("MSFT", "SnP")].
Proof.
  apply (RegistryMore.registry_entries_are_trimmed disk_sp500_only
           "sp500_symbols.txt" "SnP" "").
  vm_compute; reflexivity.
Defined.


(** Both lists present. *)
Lemma universe_witness :
  exists nifty_symbols sp500_symbols,
    [("TCS.NS", "NSE"); ("INFY.NS", "NSE"); ("AAPL", "SnP")]
    = nifty_symbols ++ sp500_symbols
    /\ _load_symbols_from_file disk_two_lists "nifty_500_symbols.txt" "NSE" ".NS"
       = Ok nifty_symbols
    /\ _load_symbols_from_file disk_two_lists "sp500_symbols.txt" "SnP" ""
       = Ok sp500_symbols
    /\ Forall (fun entry => snd entry = "NSE" /\ endswith (fst entry) ".NS" = true)
              nifty_symbols
    /\ Forall (fun entry => snd entry = "SnP") sp500_symbols.
Proof.
  apply (RegistryMore.universe_is_tagged disk_two_lists).
  vm_compute; reflexivity.
Defined.

(** The symbol [BRK/B] with blanks around it is stored as [BRK-B]. *)
Lemma stored_name_witness :
  _sanitize_filename_component " BRK/B " = "BRK-B"
  /\ path_join "nifty_500_data"
       (_sanitize_filename_component " BRK/B " +:+ "_daily_ohlc.csv")
     = "nifty_500_data/BRK-B_daily_ohlc.csv"
  /\ extract_stock_symbol
       (path_join "nifty_500_data"
          (_sanitize_filename_component " BRK/B " +:+ "_daily_ohlc.csv"))
     = _sanitize_filename_component " BRK/B ".
Proof.
  split; [vm_compute; reflexivity|]. split; [vm_compute; reflexivity|].
  apply (NamingMore.stored_name_is_read_back "nifty_500_data" " BRK/B ").
  vm_compute; reflexivity.
Defined.

(** An environment where every path exists and one where only the sidecar of
    [RELIANCE.NS] does. *)
Lemma only_the_sidecar_witness :
  extract_stock_symbol ("nifty_500_data/RELIANCE.NS" +:+ "_daily_ohlc.csv")
  = basename "nifty_500_data/RELIANCE.NS"
  /\ resolve_symbol sidecar_present sidecar_other_key
       ("nifty_500_data/RELIANCE.NS" +:+ "_daily_ohlc.csv") fresh_session
     = resolve_symbol sidecar_of_reliance_only sidecar_other_key
         ("nifty_500_data/RELIANCE.NS" +:+ "_daily_ohlc.csv") fresh_session.
Proof.
  apply (NamingMore.only_the_sidecar_is_consulted sidecar_present
           sidecar_of_reliance_only sidecar_other_key sidecar_other_key
           "nifty_500_data/RELIANCE.NS" fresh_session);
    vm_compute; reflexivity.
Defined.

(** There is no 30th of February. *)
Lemma unusable_date_witness :
  strptime "2024-02-30" = Raise ValueError
  /\ fetch_ohlc_data provider_utc fixed_offsets reliance "2024-02-30" "2024-02-30"
       blank_world
     = (Ok None, blank_world).
Proof.
  split; [vm_compute; reflexivity|].
  apply (FetcherMore.unusable_date_asks_nothing provider_utc fixed_offsets
           reliance "2024-02-30" blank_world).
  left. exists ValueError. vm_compute; reflexivity.
Defined.

(** A window of two days. *)
Lemma longer_window_witness :
  exists r,
    fetch_ohlc_data provider_utc fixed_offsets reliance "2024-01-08" "2024-01-10"
      blank_world
    = (Ok r, mkWorld (artifacts blank_world)
               (trace blank_world
                ++ [History reliance "2024-01-08" "2024-01-10" "1m"])).
Proof.
  apply (FetcherMore.longer_window_is_passed_on provider_utc fixed_offsets
           reliance "2024-01-08" "2024-01-10" blank_world).
  vm_compute; reflexivity.
Defined.

(** [RELIANCE.NS] on 2024-01-10. *)
Lemma fetched_symbol_witness :
  run_symbol provider_utc ticker_of fixed_offsets "nifty_500_data" run_clock 0
    ("RELIANCE.NS", "NSE") blank_world
  = (Ok tt,
     mkWorld
       (<[ohlc_file_path "nifty_500_data" "RELIANCE.NS" :=
            set_scalar bars_kolkata "stock_exchange" (CStr "NSE")]>
          (artifacts blank_world))
       (trace (mkWorld ∅ [History (ticker_of "RELIANCE.NS")
                            "2024-01-10" "2024-01-11" "1m"])
        ++ [ToCsv (ohlc_file_path "nifty_500_data" "RELIANCE.NS"); Sleep 1]))
  /\ stored_for (exchange_zone (ticker_of "RELIANCE.NS")) "NSE"
       (set_scalar bars_kolkata "stock_exchange" (CStr "NSE"))
  /\ nrows (set_scalar bars_kolkata "stock_exchange" (CStr "NSE"))
     = nrows bars_kolkata.
Proof.
  apply (RunMore.fetched_symbol_is_stored provider_utc ticker_of fixed_offsets
           "nifty_500_data" run_clock 0 "RELIANCE.NS" "NSE"
           (mkDatetime jan_10 66600000000) bars_kolkata blank_world
           (mkWorld ∅ [History (ticker_of "RELIANCE.NS")
                         "2024-01-10" "2024-01-11" "1m"]));
    vm_compute; reflexivity.
Defined.

(** A run over one symbol the provider serves and one it fails for. *)
Lemma run_stores_witness :
  (fst (run provider_reliance_only ticker_of fixed_offsets
          [("RELIANCE.NS", "NSE"); ("AAPL", "SnP")] "nifty_500_data" run_clock 0
          blank_world) = Ok tt
   \/ fst (run provider_reliance_only ticker_of fixed_offsets
             [("RELIANCE.NS", "NSE"); ("AAPL", "SnP")] "nifty_500_data" run_clock 0
             blank_world) = Raise OverflowError)
  /\ (forall path df,
        artifacts
          (snd (run provider_reliance_only ticker_of fixed_offsets
                  [("RELIANCE.NS", "NSE"); ("AAPL", "SnP")] "nifty_500_data"
                  run_clock 0 blank_world)) !! path = Some df ->
        artifacts blank_world !! path = Some df
        \/ exists symbol exchange,
             In (symbol, exchange) [("RELIANCE.NS", "NSE"); ("AAPL", "SnP")]
             /\ path = ohlc_file_path "nifty_500_data" symbol
             /\ stored_for (exchange_zone (ticker_of symbol)) exchange df)
  /\ (forall path, is_Some (artifacts blank_world !! path) ->
                   is_Some
                     (artifacts
                        (snd (run provider_reliance_only ticker_of fixed_offsets
                                [("RELIANCE.NS", "NSE"); ("AAPL", "SnP")]
                                "nifty_500_data" run_clock 0 blank_world))
                      !! path)).
Proof.
  apply (RunMore.run_stores_only_its_symbols provider_reliance_only ticker_of
           fixed_offsets "nifty_500_data" run_clock 0
           [("RELIANCE.NS", "NSE"); ("AAPL", "SnP")] blank_world).
  apply surjective_pairing.
Defined.

(** Twenty-one symbols: twenty-one queries, twenty-one seconds for the
    symbols and five before the second batch. *)
Lemma run_pacing_witness :
  exists tr arts',
    run provider_reliance_only ticker_of fixed_offsets twenty_one_symbols
      "nifty_500_data" run_clock 0 blank_world
    = (Ok tt, mkWorld arts' (trace blank_world ++ tr))
    /\ queried tr = map (fun entry => ticker_of (fst entry)) twenty_one_symbols
    /\ slept tr
       = Z.of_nat (length twenty_one_symbols)
         + 5 * Z.of_nat ((length twenty_one_symbols + 19) / 20 - 1)
    /\ (length (written tr) <= length twenty_one_symbols)%nat.
Proof.
  apply (RunMore.run_asks_once_and_paces provider_reliance_only ticker_of
           fixed_offsets "nifty_500_data" run_clock 0 twenty_one_symbols
           blank_world);
    change (ymd2ord (dt_date run_clock)) with 738895; unfold MAXORDINAL; lia.
Defined.

(** An artifact without the volume column. *)
Lemma missing_column_witness :
  (exists e, clean_dataframe parse_timestamp artifact_without_volume "TCS.NS"
             = Raise e)
  /\ ("volume" = "date_time" ->
      clean_dataframe parse_timestamp artifact_without_volume "TCS.NS"
      = Raise KeyError).
Proof.
  apply (LoaderMore.missing_required_column_raises parse_timestamp
           artifact_without_volume "TCS.NS" "volume").
  - cbn [In]. tauto.
  - vm_compute; reflexivity.
Defined.

(** An artifact with a header and no rows, without a sidecar. *)
Lemma empty_artifact_witness :
  process_single_file no_sidecar sidecar_is_array reads_nothing parse_timestamp
    keep_timestamp artifact_path fresh_session
  = (Ok false,
     mkSession (committed fresh_session) (working fresh_session)
       (stdout fresh_session ++ [MsgEmptyFile artifact_path])).
Proof.
  apply (LoaderMore.empty_artifact_is_skipped no_sidecar sidecar_is_array
           reads_nothing parse_timestamp keep_timestamp artifact_path
           artifact_without_rows (JString "RELIANCE.NS") fresh_session
           fresh_session);
    vm_compute; reflexivity.
Defined.

(** A load into a table that holds a row of an earlier load. *)
Lemma only_appends_witness :
  (exists added,
      committed (snd (main no_sidecar sidecar_is_array reads_artifact
                        parse_timestamp keep_timestamp one_artifact
                        earlier_session))
      = committed earlier_session ++ added)
  /\ working (snd (main no_sidecar sidecar_is_array reads_artifact
                     parse_timestamp keep_timestamp one_artifact earlier_session))
     = committed (snd (main no_sidecar sidecar_is_array reads_artifact
                         parse_timestamp keep_timestamp one_artifact
                         earlier_session))
  /\ exists msgs,
       stdout (snd (main no_sidecar sidecar_is_array reads_artifact
                      parse_timestamp keep_timestamp one_artifact earlier_session))
       = stdout earlier_session ++ msgs.
Proof.
  apply (LoaderMore.load_stage_only_appends no_sidecar sidecar_is_array
           reads_artifact parse_timestamp keep_timestamp one_artifact
           earlier_session
           (snd (main no_sidecar sidecar_is_array reads_artifact parse_timestamp
                   keep_timestamp one_artifact earlier_session))
           (fst (main no_sidecar sidecar_is_array reads_artifact parse_timestamp
                   keep_timestamp one_artifact earlier_session))
           eq_refl).
  apply surjective_pairing.
Defined.

(** The first artifact is well formed, the second lacks the volume column. *)
Lemma failure_keeps_witness :
  main no_sidecar sidecar_is_array reads_one_good parse_timestamp keep_timestamp
    two_artifacts fresh_session
  = (Raise KeyError,
     mkSession two_rows two_rows [MsgInserted artifact_path "RELIANCE.NS"])
  /\ ([artifact_path] <> [] ->
      committed (mkSession two_rows two_rows
                   [MsgInserted artifact_path "RELIANCE.NS"])
      = working (mkSession two_rows two_rows
                   [MsgInserted artifact_path "RELIANCE.NS"])).
Proof.
  apply (LoaderMore.failure_keeps_earlier_files no_sidecar sidecar_is_array
           reads_one_good parse_timestamp keep_timestamp two_artifacts
           [artifact_path] [] broken_path 1%nat KeyError fresh_session
           (mkSession two_rows two_rows [MsgInserted artifact_path "RELIANCE.NS"])
           (mkSession two_rows two_rows [MsgInserted artifact_path "RELIANCE.NS"]));
    vm_compute; reflexivity.
Defined.

(** One artifact, loaded into an empty table. *)
Lemma summary_witness :
  exists processed_count msgs,
    stdout (snd (main no_sidecar sidecar_is_array reads_artifact parse_timestamp
                   keep_timestamp one_artifact fresh_session))
    = stdout fresh_session ++ msgs
      ++ [MsgSummary processed_count (length (one_artifact "nifty_500_data"))]
    /\ (processed_count <= length (one_artifact "nifty_500_data"))%nat.
Proof.
  apply (LoaderMore.summary_counts_files no_sidecar sidecar_is_array
           reads_artifact parse_timestamp keep_timestamp one_artifact
           fresh_session).
  vm_compute; reflexivity.
Defined.

(** One artifact, loaded twice. *)
Lemma second_load_witness :
  exists s2,
    main no_sidecar sidecar_is_array reads_artifact parse_timestamp keep_timestamp
      one_artifact
      (snd (main no_sidecar sidecar_is_array reads_artifact parse_timestamp
              keep_timestamp one_artifact fresh_session))
    = (Ok tt, s2)
    /\ committed s2
       = committed (snd (main no_sidecar sidecar_is_array reads_artifact
                           parse_timestamp keep_timestamp one_artifact
                           fresh_session))
    /\ working s2
       = working (snd (main no_sidecar sidecar_is_array reads_artifact
                         parse_timestamp keep_timestamp one_artifact
                         fresh_session)).
Proof.
  apply (LoaderMore.second_load_stores_nothing no_sidecar sidecar_is_array
           reads_artifact parse_timestamp keep_timestamp one_artifact
           fresh_session).
  vm_compute; reflexivity.
Defined.


End MoreWitnesses.
